(** * Astral-Chart: the [generateAstralChart] HTTP function of functions/index.js

    A shallow embedding of the request handler and of the chart arithmetic it
    performs, followed by the properties of the specification that concern
    them.

    Modelling conventions.
    - JavaScript numbers are exact rationals ([Q]): [%] and [Math.floor] are
      exact on binary64 values.  The rounding of [/] is not modelled, except
      where it decides an entry of the table of signs: the quotient of a
      longitude by 30 underflows to zero ([Num.quotient]).  A number that may
      be [undefined]/[NaN] (an array read out of range) is an [option Q].
    - Strings are kept as their UTF-8 bytes; the Spanish texts are as they
      are in the source.  A string with a lone surrogate has no UTF-8 form;
      it is what [encodeURIComponent] refuses with a [URIError].
    - The body of the request is a parsed JSON value.  Converting one of its
      values to text throws a [TypeError] when the value has no primitive
      value ([ToString]); the handler's outer [catch] answers it.
    - The collaborators (Nominatim, Google Time Zone, swisseph-js, Gemini)
      and the JavaScript runtime ([Date], [Number::toString], the messages
      of its [TypeError]s) are not code of the repository: they are records
      of functions the handler is parameterised by, and every call to a
      collaborator is appended to a log.  The functions of swisseph-js
      return numbers.
    - [console.log] and the CORS headers set on every response are left out;
      the text conversions inside the logged template literals are kept. *)

From Stdlib Require Import String Ascii List Bool ZArith QArith Qround Qabs Lia Lqa.
From Stdlib Require Import DecimalString DecimalN.
Import ListNotations.

Local Open Scope string_scope.
Local Open Scope Z_scope.

(* ================================================================== *)
(** ** Text helpers *)
(* ================================================================== *)

Module Text.

(** The line feed of a template literal and the double quote. *)
Definition LF : string := String (ascii_of_nat 10) EmptyString.
Definition DQ : string := String (ascii_of_nat 34) EmptyString.

(** [Array.prototype.join]. *)
Fixpoint join (sep : string) (l : list string) : string :=
  match l with
  | [] => ""
  | [x] => x
  | x :: rest => x ++ sep ++ join sep rest
  end.

(** Decimal digits of a non-negative integer, ["0"] for zero. *)
Definition dec_nat (n : N) : string := NilZero.string_of_uint (N.to_uint n).

(** [ToString] of an integral number (below 10^21 in magnitude). *)
Definition dec (z : Z) : string :=
  if z <? 0 then "-" ++ dec_nat (Z.to_N (- z)) else dec_nat (Z.to_N z).


(** The value of a decimal digit, and of a run of digits read after [acc]. *)
Definition digit (c : ascii) : option Z :=
  let n := Z.of_N (N_of_ascii c) in
  if (48 <=? n) && (n <=? 57) then Some (n - 48) else None.

Fixpoint number (l : list ascii) (acc : Z) : option Z :=
  match l with
  | [] => Some acc
  | c :: rest =>
      match digit c with
      | Some d => number rest (10 * acc + d)
      | None => None
      end
  end.

(** The value of the digits of [d] read after [acc]. *)
Fixpoint uint_after (d : Decimal.uint) (acc : Z) : Z :=
  match d with
  | Decimal.Nil => acc
  | Decimal.D0 d => uint_after d (10 * acc + 0)
  | Decimal.D1 d => uint_after d (10 * acc + 1)
  | Decimal.D2 d => uint_after d (10 * acc + 2)
  | Decimal.D3 d => uint_after d (10 * acc + 3)
  | Decimal.D4 d => uint_after d (10 * acc + 4)
  | Decimal.D5 d => uint_after d (10 * acc + 5)
  | Decimal.D6 d => uint_after d (10 * acc + 6)
  | Decimal.D7 d => uint_after d (10 * acc + 7)
  | Decimal.D8 d => uint_after d (10 * acc + 8)
  | Decimal.D9 d => uint_after d (10 * acc + 9)
  end.

(** [String.prototype.repeat] for the zero padding of [toFixed]. *)
Fixpoint zeros (k : nat) : string :=
  match k with O => "" | S k' => "0" ++ zeros k' end.

End Text.

(* ================================================================== *)
(** ** Numbers: [Math.floor], [%], [toFixed] *)
(* ================================================================== *)

Module Num.

Local Open Scope Q_scope.

(** [Math.floor]. *)
Definition Math_floor (x : Q) : Z := Qfloor x.

(** Truncation towards zero, the quotient behind JavaScript's [%]. *)
Definition trunc (x : Q) : Z := Z.quot (Qnum x) (Zpos (Qden x)).

(** [a % b]: the remainder has the sign of the dividend. *)
Definition rem (a b : Q) : Q := a - b * inject_Z (trunc (a / b)).

(** [a / b] as [Math.floor(a / b)] sees it: the exact quotient, except that
    a quotient of magnitude at most 2^-1075, half the least positive
    binary64 number, is rounded to a zero (of its sign), which [Math.floor]
    keeps. *)
Definition underflow : Q := 1 # Pos.iter xO 1%positive 1075.

Definition quotient (a b : Q) : Q :=
  if Qle_bool (Qabs (a / b)) underflow then 0 else a / b.

(** The integer [n] of [Number.prototype.toFixed]: [n / 10^f] is as close as
    possible to [x >= 0], the larger [n] on a tie. *)
Definition pow10 (f : nat) : Z := (10 ^ Z.of_nat f)%Z.

Definition toFixed_n (x : Q) (f : nat) : Z :=
  Qfloor (Qabs x * inject_Z (pow10 f) + (1 # 2)).

(** [x.toFixed(f)] (ECMA-262, Number.prototype.toFixed), for a finite [x]:
    sign, then the digits of [n] padded with zeros to [f + 1] digits and cut
    before the last [f].  At or above 10^21 the result is [ToString x], which
    the runtime provides as [number_toString]. *)
Definition toFixed (number_toString : Q -> string) (x : Q) (f : nat) : string :=
  let s := if Qle_bool 0 x then "" else "-" in
  let x' := Qabs x in
  let m :=
    if Qle_bool (inject_Z (10 ^ 21)) x' then number_toString x'
    else
      let n := toFixed_n x f in
      let m := Text.dec_nat (Z.to_N n) in
      match f with
      | O => m
      | _ =>
          let k := String.length m in
          let m' := if Nat.leb k f then Text.zeros (f + 1 - k) ++ m else m in
          let k' := String.length m' in
          substring 0 (k' - f) m' ++ "." ++ substring (k' - f) f m'
      end in
  s ++ m.

(** The number a [toFixed] text with [f] decimals denotes. *)
Definition toFixed_value (x : Q) (f : nat) : Q :=
  (if Qle_bool 0 x then 1 else -1) * (inject_Z (toFixed_n x f) / inject_Z (pow10 f)).

End Num.

(* ================================================================== *)
(** ** Request values *)
(* ================================================================== *)

(** A value of the parsed JSON body; a property that is absent reads as
    [JUndefined]. *)
#[local] Set Warnings "-register-all".
Inductive JsVal : Type :=
| JUndefined
| JNull
| JBool (b : bool)
| JNum (q : Q)
| JStr (s : string)
| JArr (items : list JsVal)
| JObj (fields : list (string * JsVal)).

(** [ToBoolean]: what [!v] tests. *)
Definition truthy (v : JsVal) : bool :=
  match v with
  | JUndefined | JNull => false
  | JBool b => b
  | JNum q => negb (Qeq_bool q 0)
  | JStr s => negb (String.eqb s "")
  | JArr _ | JObj _ => true
  end.

(** [v === 'es'] and the like: strict equality with a string literal. *)
Definition strict_eq_str (v : JsVal) (lit : string) : bool :=
  match v with
  | JStr s => String.eqb s lit
  | _ => false
  end.

(** The object has an own property of that name. *)
Definition hasOwn (name : string) (fields : list (string * JsVal)) : bool :=
  existsb (fun f => String.eqb (fst f) name) fields.

Section ToString.
Variable number_toString : Q -> string.

(** [ToString], as a template literal and [encodeURIComponent] apply it;
    [None] when it throws a [TypeError].  An object is converted by its
    [toString] method: an own property [toString] of a parsed JSON object is
    not callable and hides [Object.prototype.toString], and [valueOf] returns
    the object itself, so such an object has no primitive value.  An array
    joins the texts of its elements, [null] and [undefined] as the empty
    text. *)
Fixpoint ToString (v : JsVal) : option string :=
  match v with
  | JUndefined => Some "undefined"
  | JNull => Some "null"
  | JBool true => Some "true"
  | JBool false => Some "false"
  | JNum q => Some (number_toString q)
  | JStr s => Some s
  | JArr items =>
      option_map (Text.join ",")
        ((fix each (l : list JsVal) : option (list string) :=
            match l with
            | [] => Some []
            | e :: rest =>
                match match e with
                      | JUndefined | JNull => Some ""
                      | _ => ToString e
                      end with
                | Some s =>
                    match each rest with
                    | Some texts => Some (s :: texts)
                    | None => None
                    end
                | None => None
                end
            end) items)
  | JObj fields => if hasOwn "toString" fields then None else Some "[object Object]"
  end.
End ToString.

(* ================================================================== *)
(** ** The JavaScript runtime and the collaborators *)
(* ================================================================== *)

(** What the handler uses of the runtime.  A [Date] is its time value in
    milliseconds; [Date_new s] is [None] when [new Date(s).getTime()] is
    [NaN].  The getters read the time value in the zone of the server.
    [encodeURIComponent s] is [None] when it throws a [URIError].  The
    messages of the errors the handler can meet are the engine's:
    [notPrimitive] when a value has no primitive value, [cannotRead name]
    when the property [name] is read from [undefined], [uriMalformed] for
    the [URIError]. *)
Record Runtime : Type := {
  Date_new : string -> option Z;
  getFullYear : Z -> Z;
  getMonth : Z -> Z;
  getDate : Z -> Z;
  getHours : Z -> Z;
  number_toString : Q -> string;
  encodeURIComponent : string -> option string;
  notPrimitive : string;
  cannotRead : string -> string;
  uriMalformed : string
}.

(** The ten bodies, in the order of the [planets] array. *)
Inductive Planet : Type :=
| SE_SUN | SE_MOON | SE_MERCURY | SE_VENUS | SE_MARS
| SE_JUPITER | SE_SATURN | SE_URANUS | SE_NEPTUNE | SE_PLUTO.

(** Outcome of one [fetch] followed by [.json()]. *)
Inductive Fetched (A : Type) : Type :=
| FetchRejected (message : string)
| HttpNotOk (status : Z) (statusText : string)
| JsonBody (data : A).
Arguments FetchRejected {A} message.
Arguments HttpNotOk {A} status statusText.
Arguments JsonBody {A} data.

(** One match of Nominatim, after [parseFloat] of its [lat] and [lon]. *)
Record Place : Type := { lat : Q; lon : Q }.

(** The body of a Google Time Zone answer. *)
Record TimeZoneData : Type := {
  tz_status : string;
  timeZoneId : string;
  dstOffset : Q;
  rawOffset : Q;
  errorMessage : option string
}.

(** The result of [swe_houses]. *)
Record HousesResult : Type := {
  house : list Q;
  ascendant : Q;
  mc : Q
}.

(** What [generateContent] resolves to, as far as the handler reads it:
    the candidates of [result.response], the parts of a candidate's content
    and the text of a part.  What the answer may lack is an [option]:
    the list of candidates, the content of a candidate (an answer that was
    blocked), the parts of a content, the text of a part that is not text. *)
Module Gemini.

Record Part : Type := { text : option string }.
Record Content : Type := { parts : option (list Part) }.
Record Candidate : Type := { content : option Content }.
Record Result : Type := { candidates : option (list Candidate) }.

(** An answer with one candidate of one part, a text. *)
Definition answer (chartText : string) : Result :=
  {| candidates :=
       Some [ {| content := Some {| parts := Some [ {| text := Some chartText |} ] |} |} ] |}.

End Gemini.

(** Outcome of [getGenerativeModel] followed by [await generateContent]. *)
Inductive Generated : Type :=
| GenResult (result : Gemini.Result)
| GenRejected (message : string).

Record Collaborators : Type := {
  nominatim : string -> Fetched (list Place);
  google_timezone : Q -> Q -> Z -> Fetched TimeZoneData;
  swe_julday : Z -> Z -> Z -> Q -> Q;
  swe_calc_ut : Q -> Planet -> Q;
  swe_houses : Q -> Q -> Q -> HousesResult;
  swe_house_pos : list Q -> Q -> Q -> Q;
  gemini : string -> Generated
}.

(** [functions.config()]: a key is [None] when its section or the key itself
    is absent. *)
Record Config : Type := {
  gemini_api_key : option string;
  google_maps_api_key : option string
}.

Definition key_set (k : option string) : bool :=
  match k with
  | Some s => negb (String.eqb s "")
  | None => false
  end.

(** The request: its method and the five properties read from [req.body],
    an object. *)
Record Body : Type := {
  birthDate : JsVal;
  birthTime : JsVal;
  birthPlace : JsVal;
  userSex : JsVal;
  language : JsVal
}.

Record Request : Type := {
  method : string;
  body : Body
}.

Inductive Payload : Type :=
| NoBody
| Message (message : string)
| ChartText (chartText : string).

Record Response : Type := {
  status : Z;
  payload : Payload
}.

(** A call to a collaborator, with the arguments it was given. *)
Inductive Call : Type :=
| Geocode (place : string)
| TimeZone (latitude longitude : Q) (timestamp : Z)
| Julday (year month day : Z) (hour : Q)
| CalcUt (julianDay : Q) (planet : Planet)
| Houses (julianDay latitude longitude : Q)
| HousePos (houseCusps : list Q) (latitude longitude : Q)
| Generate (prompt : string).

(* ================================================================== *)
(** ** The handler monad: a call log, early responses, exceptions *)
(* ================================================================== *)

Inductive Outcome (A : Type) : Type :=
| Next (a : A)
| Sent (r : Response)
| Thrown (message : string).
Arguments Next {A} a.
Arguments Sent {A} r.
Arguments Thrown {A} message.

Definition Async (A : Type) : Type := list Call -> Outcome A * list Call.

Definition ret {A} (a : A) : Async A := fun log => (Next a, log).

Definition bind {A B} (m : Async A) (k : A -> Async B) : Async B :=
  fun log =>
    match m log with
    | (Next a, log') => k a log'
    | (Sent r, log') => (Sent r, log')
    | (Thrown e, log') => (Thrown e, log')
    end.

(** [return res.status(code).json(...)]. *)
Definition respond {A} (code : Z) (p : Payload) : Async A :=
  fun log => (Sent {| status := code; payload := p |}, log).

Definition throw {A} (message : string) : Async A :=
  fun log => (Thrown message, log).

(** [try { m } catch (error) { h error.message }]. *)
Definition try_catch {A} (m : Async A) (h : string -> Async A) : Async A :=
  fun log =>
    match m log with
    | (Thrown e, log') => h e log'
    | other => other
    end.

(** A collaborator is called: the call is logged and its answer returned. *)
Definition call {A} (c : Call) (answer : A) : Async A :=
  fun log => (Next answer, (log ++ [c])%list).

Declare Scope async_scope.
Delimit Scope async_scope with async.
Notation "x <- m ;; k" := (bind m (fun x => k))
  (at level 100, m at next level, right associativity) : async_scope.
Notation "' p <- m ;; k" := (bind m (fun x => match x with p => k end))
  (at level 100, p pattern, m at next level, right associativity) : async_scope.

(** [for (const x of l) body], the calls in order. *)
Fixpoint for_each {A B} (l : list A) (f : A -> Async B) : Async (list B) :=
  match l with
  | [] => ret []
  | x :: rest =>
      bind (f x) (fun y => bind (for_each rest f) (fun ys => ret (y :: ys)))
  end.

(** The [for] loops that update an object: a fold whose body may call. *)
Fixpoint fold_for {A S} (l : list A) (s : S) (f : S -> A -> Async S) : Async S :=
  match l with
  | [] => ret s
  | x :: rest => bind (f s x) (fun s' => fold_for rest s' f)
  end.

(* ================================================================== *)
(** ** Objects with string keys *)
(* ================================================================== *)

(** [planetData] and [housesData]: objects whose keys are names, kept in
    insertion order, which is the order of [Object.keys]. *)
Module Obj.

Definition t (V : Type) : Type := list (string * V).

Fixpoint set {V} (o : t V) (k : string) (v : V) : t V :=
  match o with
  | [] => [(k, v)]
  | (k', v') :: rest =>
      if String.eqb k' k then (k', v) :: rest else (k', v') :: set rest k v
  end.

Fixpoint get {V} (o : t V) (k : string) : option V :=
  match o with
  | [] => None
  | (k', v') :: rest => if String.eqb k' k then Some v' else get rest k
  end.

End Obj.

(* ================================================================== *)
(** ** Signs, degrees and the chart records *)
(* ================================================================== *)

Definition planets : list Planet :=
  [SE_SUN; SE_MOON; SE_MERCURY; SE_VENUS;
   SE_MARS; SE_JUPITER; SE_SATURN; SE_URANUS;
   SE_NEPTUNE; SE_PLUTO].

Definition planetNames (p : Planet) : string :=
  match p with
  | SE_SUN => "Sol" | SE_MOON => "Luna" | SE_MERCURY => "Mercurio"
  | SE_VENUS => "Venus" | SE_MARS => "Marte" | SE_JUPITER => "Júpiter"
  | SE_SATURN => "Saturno" | SE_URANUS => "Urano" | SE_NEPTUNE => "Neptuno"
  | SE_PLUTO => "Plutón"
  end.

Definition signNames : list string :=
  ["Aries"; "Tauro"; "Géminis"; "Cáncer"; "Leo"; "Virgo"; "Libra";
   "Escorpio"; "Sagitario"; "Capricornio"; "Acuario"; "Piscis"].

(** [Math.floor(lon / 30)]; [NaN] when [lon] is [undefined]. *)
Definition signIndexOf (lon : option Q) : option Z :=
  match lon with
  | Some l => Some (Num.Math_floor (Num.quotient l 30))
  | None => None
  end.

(** [signNames[signIndex]]: [undefined] outside the array; a zero of either
    sign is the index 0. *)
Definition signAt (signIndex : option Z) : option string :=
  match signIndex with
  | Some i => if i <? 0 then None else nth_error signNames (Z.to_nat i)
  | None => None
  end.

(** [(lon % 30).toFixed(2)]. *)
Definition degreeOf (rt : Runtime) (lon : option Q) : string :=
  match lon with
  | Some l => Num.toFixed (number_toString rt) (Num.rem l 30) 2
  | None => "NaN"
  end.

(** The objects [{ sign, degree, longitude }] stored per body and per cusp. *)
Record Entry (L : Type) : Type := {
  sign : option string;
  degree : string;
  longitude : L
}.
Arguments sign {L} e.
Arguments degree {L} e.
Arguments longitude {L} e.

(** An [undefined] sign inside a template literal. *)
Definition show (s : option string) : string :=
  match s with
  | Some x => x
  | None => "undefined"
  end.

(** The body of the loop over [planets], after the position is known. *)
Definition planetEntry (rt : Runtime) (longitude : Q) : Entry Q :=
  let signIndex := signIndexOf (Some longitude) in
  let sign := signAt signIndex in
  let degree := degreeOf rt (Some longitude) in
  {| sign := sign; degree := degree; longitude := longitude |}.

(** The body of the loop [for (let i = 1; i <= 12; i++)]. *)
Definition houseEntry (rt : Runtime) (houseCusps : list Q) (i : nat) : Entry (option Q) :=
  let cuspLon := nth_error houseCusps i in
  let signIndex := signIndexOf cuspLon in
  let sign := signAt signIndex in
  let degree := degreeOf rt cuspLon in
  {| sign := sign; degree := degree; longitude := cuspLon |}.

Definition housesDataOf (rt : Runtime) (houseCusps : list Q) : Obj.t (Entry (option Q)) :=
  fold_left
    (fun housesData i =>
       Obj.set housesData ("Casa " ++ Text.dec (Z.of_nat i)) (houseEntry rt houseCusps i))
    (seq 1 12) [].

(** [Object.keys(housesData).map(houseName => ...).join(', ')]: every key is
    read back at once, so the map runs over the entries. *)
Definition housesCuspsPromptOf (housesData : Obj.t (Entry (option Q))) : string :=
  Text.join ", "
    (map (fun '(houseName, h) =>
            houseName ++ " en " ++ show (sign h) ++ " a " ++ degree h ++ "°")
         housesData).

(* ================================================================== *)
(** ** The prompt *)
(* ================================================================== *)

Module Final.

(** [finalAstroData]. *)
Record t : Type := {
  birthDate : JsVal;
  birthTime : JsVal;
  birthPlace : JsVal;
  userSex : JsVal;
  timezoneId : string;
  rawOffsetHours : Q;
  latitude : Q;
  longitude : Q;
  sunSign : option string;
  moonSign : option string;
  ascendant : option string;
  mc : option string;
  planetsPositions : string;
  housesCusps : string;
  keyAspects : string
}.

End Final.

(** The lines of the template literal that hold the chart data.  The four
    values taken from the request are converted to text, in the order of the
    lines; [None] when one of them has no text. *)
Definition promptData (rt : Runtime) (d : Final.t) : option (list string) :=
  let str := ToString (number_toString rt) in
  let num := number_toString rt in
  match str (Final.birthDate d) with
  | None => None
  | Some birthDate =>
  match str (Final.birthTime d) with
  | None => None
  | Some birthTime =>
  match str (Final.birthPlace d) with
  | None => None
  | Some birthPlace =>
  match str (Final.userSex d) with
  | None => None
  | Some userSex =>
  Some
  ["Genera una interpretación completa de la carta astral basada en los siguientes datos de nacimiento:";
   "Fecha de Nacimiento: " ++ birthDate;
   "Hora de Nacimiento: " ++ birthTime ++ " (Hora Local)";
   "Lugar de Nacimiento: " ++ birthPlace;
   "Sexo del Usuario: " ++ userSex;
   "Latitud: " ++ num (Final.latitude d);
   "Longitud: " ++ num (Final.longitude d);
   "Zona Horaria Identificada: " ++ Final.timezoneId d
     ++ " (Offset GMT: " ++ num (Final.rawOffsetHours d) ++ " horas)";
   "";
   "Y los siguientes datos astrológicos precisos calculados:";
   "Signo Solar: " ++ show (Final.sunSign d);
   "Signo Lunar: " ++ show (Final.moonSign d);
   "Ascendente: " ++ show (Final.ascendant d);
   "Medio Cielo: " ++ show (Final.mc d);
   "Posiciones de Planetas: " ++ Final.planetsPositions d ++ ".";
   "Cúspides de Casas: " ++ Final.housesCusps d ++ ".";
   "Aspectos Clave: " ++ Final.keyAspects d;
   ""]
  end end end end.

(** The lines that do not depend on the request. *)
Definition promptInstructions : list string :=
    ["La interpretación debe ser altamente profesional, profunda, narrativa y psicológicamente atractiva. Utiliza principios de Neuro-Linguistic Programming (PNL) para inspirar, captar la atención y motivar el crecimiento personal, fomentando una sensación agradable, mental y psicológicamente enriquecedora para el lector. El tono debe ser directo (" ++ Text.DQ ++ "tú" ++ Text.DQ ++ "). La interpretación debe ser sensible al género del usuario.";
     "";
     "La interpretación debe estructurarse con las siguientes 28 secciones exactas y en este orden. ¡No incluyas ninguna sección o mención a Eneagrama, Chakras, pareja ideal o imágenes!";
     "";
     "1. Los Componentes Fundamentales de tu Carta Astral";
     "2. La Interpretación de tu Carta Astral: Un Viaje Personal";
     "3. Beneficios de Conocer tu Carta Astral: Tu Poder Interior";
     "4. Análisis Completo, Profundo y Detallado de tu Mapa Cósmico";
     "5. Síntesis General de tu Perfil Astrológico: Tu Esencia Única";
     "6. La Dinámica de la Armonía: Integrando tus Luces";
     "7. Un Enfoque Positivo para la Pasión y la Vida: Tu Energía Radiante";
     "8. La Sexualidad: Un Viaje de Conexión Profunda y Placer";
     "9. La Relación Contigo Mismo";
     "10. El Aspecto Social: Tu Brillo en la Conexión Humana";
     "11. El Aspecto Laboral: Tu Propósito en Acción";
     "12. El Aspecto Artístico: La Danza de tu Creatividad";
     "13. El Ego: Tu Guardián y Maestro Interior";
     "14. El Verdadero Yo: La Voz de tu Alma";
     "15. Sanar la Herida (Quirón) Abrazando tu Poder de Transformación";
     "16. El Viaje del Alma: Tu Sendero Evolutivo";
     "17. El Viaje del Alma por Edad y Años en el Mundo: Tu Crecimiento Constante";
     "18. El Propósito de Vida y del Mundo: Tu Huella Cósmica";
     "19. El Amor en la Carta Astral: Un Universo de Conexiones";
     "20. La Salud: Tu Templo Sagrado y Vibrante";
     "21. El Aspecto Deportivo y el Ejercicio: La Alegría del Movimiento";
     "22. El Dinero, Finanzas y Emprendimiento: Fluyendo con la Abundancia";
     "23. Espiritualidad y Conexión Divina: Tu Puente con lo Infinito";
     "24. Proyección Futura y Conexión Angelical: Tu Destino Luminoso";
     "25. Lujos Materiales, Turismo, Hogar y Estilo Personal: Celebrando la Vida";
     "26. Vidas Pasadas: Los Ecos de tu Sabiduría Ancestral";
     "27. Técnicas para Sanar la Herida: Herramientas para tu Florecimiento";
     "28. Trascender la Furia del Ego a la Paz del Amor: Un Camino de Maestría";
     "";
     "Proporciona herramientas y técnicas prácticas para las secciones 27 y 28.";
     ""].

(** The last line: [language === 'es' ? 'Spanish' : 'English']. *)
Definition promptLanguage (language : JsVal) : string :=
  "Responde enteramente en "
    ++ (if strict_eq_str language "es" then "Spanish" else "English")
    ++ ". El formato final debe ser Markdown.".

(** The template literal [textPrompt]; [None] when it throws. *)
Definition textPrompt (rt : Runtime) (d : Final.t) (language : JsVal) : option string :=
  match promptData rt d with
  | Some lines =>
      Some (Text.join Text.LF
              (lines ++ promptInstructions ++ [promptLanguage language])%list)
  | None => None
  end.

(* ================================================================== *)
(** ** The handler *)
(* ================================================================== *)

Section Handler.

Variable w : Collaborators.
Variable rt : Runtime.

Local Open Scope async_scope.

Let str : JsVal -> option string := ToString (number_toString rt).

(** A text the handler composes from values of the request: the
    [TypeError] of the conversion is thrown where the text is [None]. *)
Definition composed (text : option string) : Async string :=
  match text with
  | Some s => ret s
  | None => throw (notPrimitive rt)
  end.

(** 1. Geocoding (Nominatim).  The place is converted to text and encoded
    for the URL before the [try] of this step; the request has its own
    [try]/[catch].  The geocoder is logged with the text it is asked for. *)
Definition geocode (birthPlace : JsVal) : Async (Q * Q) :=
  place <- composed (str birthPlace) ;;
  query <- match encodeURIComponent rt place with
           | Some query => ret query
           | None => throw (uriMalformed rt)
           end ;;
  try_catch
    (nominatimResponse <- call (Geocode place) (nominatim w place) ;;
     match nominatimResponse with
     | FetchRejected message => throw message
     | HttpNotOk st statusText =>
         throw ("Error HTTP de Nominatim: " ++ Text.dec st ++ " " ++ statusText)
     | JsonBody nominatimData =>
         match nominatimData with
         | first :: _ => ret (lat first, lon first)
         | [] =>
             respond 404 (Message "No se pudo encontrar las coordenadas para el lugar de nacimiento proporcionado. Intenta con una ubicación más específica.")
         end
     end)
    (fun message =>
       respond 500 (Message ("Error al conectar con el servicio de geocodificación. Detalles: " ++ message))).

(** [Math.floor(localDate.getTime() / 1000)]. *)
Definition timestampOf (localDate : Z) : Z :=
  Num.Math_floor (inject_Z localDate / 1000)%Q.

(** 2. Time zone (Google), with its own [try]/[catch]. *)
Definition timezone (latitude longitude : Q) (timestamp : Z) : Async (string * Q) :=
  try_catch
    (timezoneResponse <- call (TimeZone latitude longitude timestamp)
                              (google_timezone w latitude longitude timestamp) ;;
     match timezoneResponse with
     | FetchRejected message => throw message
     | HttpNotOk st statusText =>
         throw ("Error HTTP de Google Time Zone API: " ++ Text.dec st ++ " " ++ statusText)
     | JsonBody timezoneData =>
         if String.eqb (tz_status timezoneData) "OK"
         then ret (timeZoneId timezoneData,
                   (dstOffset timezoneData + rawOffset timezoneData)%Q)
         else
           respond 404
             (Message ("No se pudo determinar la zona horaria precisa para el lugar y la fecha proporcionados. "
                       ++ match errorMessage timezoneData with
                          | Some m => m
                          | None => ""
                          end))
     end)
    (fun message =>
       respond 500 (Message ("Error al conectar con el servicio de zona horaria de Google. Detalles: " ++ message))).

(** The hour handed to [swe_julday]. *)
Definition juldayHour (localDate : Z) (rawOffsetSeconds : Q) : Q :=
  (inject_Z (getHours rt localDate) + rawOffsetSeconds / 3600)%Q.

(** The loop over [planets]. *)
Definition planetDataOf (julianDay : Q) : Async (Obj.t (Entry Q)) :=
  fold_for planets []
    (fun planetData planet =>
       pos <- call (CalcUt julianDay planet) (swe_calc_ut w julianDay planet) ;;
       ret (Obj.set planetData (planetNames planet) (planetEntry rt pos))).

(** [planetData[name].longitude], a [TypeError] if the body is missing. *)
Definition longitudeOf (planetData : Obj.t (Entry Q)) (name : string) : Async Q :=
  match Obj.get planetData name with
  | Some p => ret (longitude p)
  | None => throw (cannotRead rt "longitude")
  end.

(** [Object.keys(planetData).map(planetName => ...).join(', ')]: one call of
    [swe_house_pos] per body, in the order of the keys. *)
Definition planetsPromptOf (planetData : Obj.t (Entry Q)) (houseCusps : list Q)
           (latitude : Q) : Async string :=
  texts <- for_each planetData
    (fun '(planetName, p) =>
       housePos <- call (HousePos houseCusps latitude (longitude p))
                        (swe_house_pos w houseCusps latitude (longitude p)) ;;
       ret (planetName ++ " en " ++ show (sign p) ++ " a " ++ degree p
              ++ "° en Casa " ++ Text.dec (Num.Math_floor housePos))) ;;
  ret (Text.join ", " texts).

(** 3. The astrological calculation, up to [finalAstroData]. *)
Definition astrologicalCalculation (b : Body) (latitude longitude : Q)
           (localDate : Z) (timezoneId : string) (rawOffsetSeconds : Q) : Async Final.t :=
  let year := getFullYear rt localDate in
  let month := getMonth rt localDate + 1 in
  let day := getDate rt localDate in
  let hour := juldayHour localDate rawOffsetSeconds in
  julianDay <- call (Julday year month day hour) (swe_julday w year month day hour) ;;
  planetData <- planetDataOf julianDay ;;
  ascmc <- call (Houses julianDay latitude longitude)
                (swe_houses w julianDay latitude longitude) ;;
  let houseCusps := house ascmc in
  let ascendantLon := ascendant ascmc in
  let mcLon := mc ascmc in
  let housesData := housesDataOf rt houseCusps in
  let ascendantSign := signAt (signIndexOf (Some ascendantLon)) in
  let mcSign := signAt (signIndexOf (Some mcLon)) in
  sunLon <- longitudeOf planetData "Sol" ;;
  let sunSign := signAt (signIndexOf (Some sunLon)) in
  moonLon <- longitudeOf planetData "Luna" ;;
  let moonSign := signAt (signIndexOf (Some moonLon)) in
  planetsPrompt <- planetsPromptOf planetData houseCusps latitude ;;
  let housesCuspsPrompt := housesCuspsPromptOf housesData in
  ret {| Final.birthDate := birthDate b;
         Final.birthTime := birthTime b;
         Final.birthPlace := birthPlace b;
         Final.userSex := userSex b;
         Final.timezoneId := timezoneId;
         Final.rawOffsetHours := (rawOffsetSeconds / 3600)%Q;
         Final.latitude := latitude;
         Final.longitude := longitude;
         Final.sunSign := sunSign;
         Final.moonSign := moonSign;
         Final.ascendant := ascendantSign;
         Final.mc := mcSign;
         Final.planetsPositions := planetsPrompt;
         Final.housesCusps := housesCuspsPrompt;
         Final.keyAspects := "Aspectos derivados de las posiciones planetarias (interpretación de Gemini)" |}.

(** [`${birthDate}T${birthTime}:00`]; [None] when it throws. *)
Definition localDateTimeString (b : Body) : option string :=
  match str (birthDate b) with
  | None => None
  | Some date =>
      match str (birthTime b) with
      | None => None
      | Some time => Some (date ++ "T" ++ time ++ ":00")
      end
  end.

(** [result.response.candidates[0].content.parts[0].text], then
    [chartText.length]: the text, or the name of the property whose reading
    from [undefined] throws. *)
Definition chartTextOf (result : Gemini.Result) : string + string :=
  match Gemini.candidates result with
  | None => inr "0"
  | Some candidates =>
      match nth_error candidates 0 with
      | None => inr "content"
      | Some candidate =>
          match Gemini.content candidate with
          | None => inr "parts"
          | Some content =>
              match Gemini.parts content with
              | None => inr "0"
              | Some parts =>
                  match nth_error parts 0 with
                  | None => inr "text"
                  | Some part =>
                      match Gemini.text part with
                      | None => inr "length"
                      | Some chartText => inl chartText
                      end
                  end
              end
          end
      end
  end.

(** [!birthDate || !birthTime || !birthPlace || !userSex || !language]. *)
Definition incomplete (b : Body) : bool :=
  negb (truthy (birthDate b)) || negb (truthy (birthTime b))
  || negb (truthy (birthPlace b)) || negb (truthy (userSex b))
  || negb (truthy (language b)).

(** The [try] block, after the configuration checks. *)
Definition tryBlock (b : Body) : Async Empty_set :=
  if incomplete b
  then respond 400 (Message "Datos de nacimiento o sexo incompletos.")
  else
    '(latitude, longitude) <- geocode (birthPlace b) ;;
    localDateTimeString <- composed (localDateTimeString b) ;;
    match Date_new rt localDateTimeString with
    | None => respond 400 (Message "Formato de fecha u hora de nacimiento inválido.")
    | Some localDate =>
        let timestamp := timestampOf localDate in
        '(timezoneId, rawOffsetSeconds) <- timezone latitude longitude timestamp ;;
        finalAstroData <- astrologicalCalculation b latitude longitude localDate
                                                  timezoneId rawOffsetSeconds ;;
        (* 4. the prompt and the call of Gemini *)
        textPrompt <- composed (textPrompt rt finalAstroData (language b)) ;;
        result <- call (Generate textPrompt) (gemini w textPrompt) ;;
        match result with
        | GenRejected message => throw message
        | GenResult result =>
            match chartTextOf result with
            | inr name => throw (cannotRead rt name)
            | inl chartText => respond 200 (ChartText chartText)
            end
        end
    end.

(** The outer [catch]. *)
Definition internalError (message : string) : Response :=
  {| status := 500;
     payload := Message ("Error interno del servidor al procesar la solicitud de la carta astral. Por favor, inténtalo de nuevo más tarde o contacta al soporte. Detalles técnicos: " ++ message) |}.

(** The exported function: the response and the collaborator calls made. *)
Definition generateAstralChart (cfg : Config) (req : Request) : Response * list Call :=
  if String.eqb (method req) "OPTIONS"
  then ({| status := 200; payload := NoBody |}, [])
  else if negb (String.eqb (method req) "POST")
  then ({| status := 405;
           payload := Message "Método no permitido. Solo se aceptan solicitudes POST." |}, [])
  else if negb (key_set (gemini_api_key cfg))
  then ({| status := 500;
           payload := Message "Error interno del servidor: Clave API GEMINI_API_KEY no configurada en Firebase Functions." |}, [])
  else if negb (key_set (google_maps_api_key cfg))
  then ({| status := 500;
           payload := Message "Error interno del servidor: Clave API GOOGLE_MAPS_API_KEY no configurada en Firebase Functions." |}, [])
  else
    match tryBlock (body req) [] with
    | (Next impossible, _) => match impossible with end
    | (Sent r, log) => (r, log)
    | (Thrown message, log) => (internalError message, log)
    end.

End Handler.

(* ================================================================== *)
(** ** A runtime: ECMA-262 dates in a server zone of fixed offset *)
(* ================================================================== *)

(** The handler is parameterised by its runtime; this one is used to run it
    on concrete requests.  It follows ECMA-262 (Day, MakeDay, MakeTime,
    LocalTime, UTC, TimeClip) with the local time zone adjustment [tza] of
    the server in milliseconds, and reads only the shape the handler is
    documented to compose, [YYYY-MM-DDTHH:mm:ss], which has no zone and is
    local time.  Any other text is an invalid date here.  A day of the month
    from 01 to 31 is in range in every month, as in V8, and the messages of
    the errors are those of V8.  [encodeURIComponent] (ECMA-262, Encode)
    keeps the unreserved characters and writes every other byte of the UTF-8
    form as [%XX]; bytes that are not well-formed UTF-8, among them the
    three-byte form of a surrogate, are refused. *)
Module Ecma.

Definition msPerDay : Z := 86400000.
Definition msPerHour : Z := 3600000.
Definition msPerMinute : Z := 60000.
Definition msPerSecond : Z := 1000.

Definition Day (t : Z) : Z := t / msPerDay.
Definition HourFromTime (t : Z) : Z := (t / msPerHour) mod 24.

(** Day number, counted from 1 January 1970, of a civil date (months 1 to
    12), in closed form. *)
Definition daysFromCivil (y m d : Z) : Z :=
  let y' := if m <=? 2 then y - 1 else y in
  let era := y' / 400 in
  let yoe := y' - era * 400 in
  let doy := (153 * (if 2 <? m then m - 3 else m + 9) + 2) / 5 + d - 1 in
  let doe := yoe * 365 + yoe / 4 - yoe / 100 + doy in
  era * 146097 + doe - 719468.

(** Year, month (0 to 11) and day of the month of a day number:
    YearFromTime, MonthFromTime and DateFromTime in closed form. *)
Definition civilFromDays (day : Z) : Z * Z * Z :=
  let z := day + 719468 in
  let era := z / 146097 in
  let doe := z - era * 146097 in
  let yoe := (doe - doe / 1460 + doe / 36524 - doe / 146096) / 365 in
  let doy := doe - (365 * yoe + yoe / 4 - yoe / 100) in
  let mp := (5 * doy + 2) / 153 in
  let d := doy - (153 * mp + 2) / 5 + 1 in
  let m := if mp <? 10 then mp + 3 else mp - 9 in
  let y := yoe + era * 400 + (if m <=? 2 then 1 else 0) in
  (y, m - 1, d).

(** MakeDay: the month is 0 to 11, a day beyond the month runs on into the
    next one. *)
Definition MakeDay (year month date : Z) : Z :=
  daysFromCivil (year + month / 12) (month mod 12 + 1) 1 + date - 1.

Definition MakeTime (hour min sec ms : Z) : Z :=
  hour * msPerHour + min * msPerMinute + sec * msPerSecond + ms.

Definition MakeDate (day time : Z) : Z := day * msPerDay + time.

Definition TimeClip (t : Z) : option Z :=
  if Z.abs t <=? 8640000000000000 then Some t else None.

(** The digits of [s] from position [from], [len] of them. *)
Definition field (s : string) (from len : nat) : option Z :=
  Text.number (list_ascii_of_string (substring from len s)) 0.

Definition charAt (s : string) (i : nat) (c : ascii) : bool :=
  match String.get i s with
  | Some c' => Ascii.eqb c' c
  | None => false
  end.

(** The fields of [YYYY-MM-DDTHH:mm:ss]. *)
Definition fields (s : string) : option (Z * Z * Z * Z * Z * Z) :=
  if Nat.eqb (String.length s) 19
     && charAt s 4 "-" && charAt s 7 "-" && charAt s 10 "T"
     && charAt s 13 ":" && charAt s 16 ":"
  then
    match field s 0 4, field s 5 2, field s 8 2,
          field s 11 2, field s 14 2, field s 17 2 with
    | Some y, Some m, Some d, Some h, Some n, Some sec => Some (y, m, d, h, n, sec)
    | _, _, _, _, _, _ => None
    end
  else None.

(** The element ranges of the date-time format: month 01 to 12, day 01 to
    31, hour 00 to 24 (24 only as 24:00:00), minute and second 00 to 59. *)
Definition inRange (y m d h n sec : Z) : bool :=
  (1 <=? m) && (m <=? 12) && (1 <=? d) && (d <=? 31)
  && (((h <=? 23) && (n <=? 59) && (sec <=? 59))
      || ((h =? 24) && (n =? 0) && (sec =? 0))).

(** [new Date(s).getTime()] for a local date-time text. *)
Definition parse (tza : Z) (s : string) : option Z :=
  match fields s with
  | Some (y, m, d, h, n, sec) =>
      if inRange y m d h n sec
      then TimeClip (MakeDate (MakeDay y (m - 1) d) (MakeTime h n sec 0) - tza)
      else None
  | None => None
  end.

(** [ToString] of a number whose decimal expansion ends within twenty
    places, as the numbers of the examples do. *)
Fixpoint fraction (k : nat) (r den : Z) : string :=
  match k with
  | O => ""
  | S k' =>
      if r =? 0 then ""
      else Text.dec (10 * r / den) ++ fraction k' (10 * r mod den) den
  end.

Definition decimal (q : Q) : string :=
  let n := Z.abs (Qnum q) in
  let den := Zpos (Qden q) in
  (if Qnum q <? 0 then "-" else "")
    ++ Text.dec (n / den)
    ++ (if n mod den =? 0 then "" else "." ++ fraction 20 (n mod den) den).

(** The bytes are well-formed UTF-8: no surrogate, no overlong form,
    nothing above U+10FFFF. *)
Definition continuation (b : N) : bool := ((128 <=? b) && (b <=? 191))%N.

Fixpoint utf8 (fuel : nat) (l : list N) : bool :=
  match fuel with
  | O => false
  | S fuel' =>
      match l with
      | [] => true
      | b :: rest =>
          if (b <=? 127)%N then utf8 fuel' rest
          else if ((194 <=? b) && (b <=? 223))%N then
            match rest with
            | c :: rest' => continuation c && utf8 fuel' rest'
            | _ => false
            end
          else if ((224 <=? b) && (b <=? 239))%N then
            match rest with
            | c :: d :: rest' =>
                (if (b =? 224)%N then ((160 <=? c) && (c <=? 191))%N
                 else if (b =? 237)%N then ((128 <=? c) && (c <=? 159))%N
                 else continuation c)
                && continuation d && utf8 fuel' rest'
            | _ => false
            end
          else if ((240 <=? b) && (b <=? 244))%N then
            match rest with
            | c :: d :: e :: rest' =>
                (if (b =? 240)%N then ((144 <=? c) && (c <=? 191))%N
                 else if (b =? 244)%N then ((128 <=? c) && (c <=? 143))%N
                 else continuation c)
                && continuation d && continuation e && utf8 fuel' rest'
            | _ => false
            end
          else false
      end
  end.

Definition wellFormed (s : string) : bool :=
  utf8 (S (String.length s)) (map N_of_ascii (list_ascii_of_string s)).

(** The characters that [encodeURIComponent] keeps. *)
Definition unreserved (c : ascii) : bool :=
  let n := N_of_ascii c in
  (((65 <=? n) && (n <=? 90)) || ((97 <=? n) && (n <=? 122))
   || ((48 <=? n) && (n <=? 57))
   || existsb (N.eqb n) [45; 95; 46; 33; 126; 42; 39; 40; 41])%N.

Definition hexDigit (n : N) : ascii :=
  ascii_of_N (if (n <? 10)%N then 48 + n else 55 + n)%N.

Definition percent (c : ascii) : string :=
  let n := N_of_ascii c in
  String "%"%char (String (hexDigit (n / 16)) (String (hexDigit (n mod 16)) "")).

Fixpoint escape (s : string) : string :=
  match s with
  | EmptyString => ""
  | String c rest => (if unreserved c then String c "" else percent c) ++ escape rest
  end.

Definition runtime (tza : Z) : Runtime :=
  {| Date_new := parse tza;
     getFullYear := fun t => fst (fst (civilFromDays (Day (t + tza))));
     getMonth := fun t => snd (fst (civilFromDays (Day (t + tza))));
     getDate := fun t => snd (civilFromDays (Day (t + tza)));
     getHours := fun t => HourFromTime (t + tza);
     number_toString := decimal;
     encodeURIComponent := fun s => if wellFormed s then Some (escape s) else None;
     notPrimitive := "Cannot convert object to primitive value";
     cannotRead := fun name =>
       "Cannot read properties of undefined (reading '" ++ name ++ "')";
     uriMalformed := "URI malformed" |}.

End Ecma.

(* ================================================================== *)
(** ** Collaborators for the examples *)
(* ================================================================== *)

Module Sample.

(** Paris; one hour east of Greenwich; every body at [sun] degrees, equal
    houses from 15 degrees, and a house position given by [housePos]. *)
Definition paris : Place := {| lat := 48; lon := 2 |}.

Definition equalHouses : list Q :=
  [0; 15; 45; 75; 105; 135; 165; 195; 225; 255; 285; 315; 345]%Q.

Definition world (places : list Place) (sun : Q) (housePos : Q) : Collaborators :=
  {| nominatim := fun _ => JsonBody places;
     google_timezone := fun _ _ _ =>
       JsonBody {| tz_status := "OK"; timeZoneId := "Europe/Paris";
                   dstOffset := 0; rawOffset := 3600; errorMessage := None |};
     swe_julday := fun y m d h => (inject_Z (Ecma.daysFromCivil y m d) + h / 24)%Q;
     swe_calc_ut := fun _ _ => sun;
     swe_houses := fun _ _ _ => {| house := equalHouses; ascendant := 15; mc := 285 |};
     swe_house_pos := fun _ _ _ => housePos;
     gemini := fun _ => GenResult (Gemini.answer "...") |}.

Definition config : Config :=
  {| gemini_api_key := Some "k1"; google_maps_api_key := Some "k2" |}.

Definition request (date time place : string) (lang : JsVal) : Request :=
  {| method := "POST";
     body := {| birthDate := JStr date; birthTime := JStr time;
                birthPlace := JStr place; userSex := JStr "female";
                language := lang |} |}.

End Sample.

(* ================================================================== *)
(** ** What the calculation block computes, without the log *)
(* ================================================================== *)

Section Summary.

Variable w : Collaborators.
Variable rt : Runtime.

(** [planetData] once the loop over [planets] is over. *)
Definition planetDataAt (julianDay : Q) : Obj.t (Entry Q) :=
  fold_left
    (fun planetData planet =>
       Obj.set planetData (planetNames planet)
               (planetEntry rt (swe_calc_ut w julianDay planet)))
    planets [].

(** The house number printed for a body: [Math.floor(housePos)]. *)
Definition houseNumber (houseCusps : list Q) (latitude longitude : Q) : Z :=
  Num.Math_floor (swe_house_pos w houseCusps latitude longitude).

Definition planetText (houseCusps : list Q) (latitude : Q)
           (e : string * Entry Q) : string :=
  fst e ++ " en " ++ show (sign (snd e)) ++ " a " ++ degree (snd e)
    ++ "° en Casa " ++ Text.dec (houseNumber houseCusps latitude (longitude (snd e))).

Definition planetsPromptText (planetData : Obj.t (Entry Q)) (houseCusps : list Q)
           (latitude : Q) : string :=
  Text.join ", " (map (planetText houseCusps latitude) planetData).

Definition housePosCalls (planetData : Obj.t (Entry Q)) (houseCusps : list Q)
           (latitude : Q) : list Call :=
  map (fun e => HousePos houseCusps latitude (longitude (snd e))) planetData.

Definition julianDayOf (localDate : Z) (rawOffsetSeconds : Q) : Q :=
  swe_julday w (getFullYear rt localDate) (getMonth rt localDate + 1)
             (getDate rt localDate) (juldayHour rt localDate rawOffsetSeconds).

(** The calls of the calculation block, in order. *)
Definition astroCalls (latitude longitude : Q) (localDate : Z)
           (rawOffsetSeconds : Q) : list Call :=
  let jd := julianDayOf localDate rawOffsetSeconds in
  let cusps := house (swe_houses w jd latitude longitude) in
  (Julday (getFullYear rt localDate) (getMonth rt localDate + 1)
          (getDate rt localDate) (juldayHour rt localDate rawOffsetSeconds)
     :: map (CalcUt jd) planets
     ++ Houses jd latitude longitude
     :: housePosCalls (planetDataAt jd) cusps latitude)%list.

(** [finalAstroData]. *)
Definition finalAstroDataOf (b : Body) (latitude longitude : Q) (localDate : Z)
           (timezoneId : string) (rawOffsetSeconds : Q) : Final.t :=
  let jd := julianDayOf localDate rawOffsetSeconds in
  let ascmc := swe_houses w jd latitude longitude in
  {| Final.birthDate := birthDate b;
     Final.birthTime := birthTime b;
     Final.birthPlace := birthPlace b;
     Final.userSex := userSex b;
     Final.timezoneId := timezoneId;
     Final.rawOffsetHours := (rawOffsetSeconds / 3600)%Q;
     Final.latitude := latitude;
     Final.longitude := longitude;
     Final.sunSign := signAt (signIndexOf (Some (swe_calc_ut w jd SE_SUN)));
     Final.moonSign := signAt (signIndexOf (Some (swe_calc_ut w jd SE_MOON)));
     Final.ascendant := signAt (signIndexOf (Some (ascendant ascmc)));
     Final.mc := signAt (signIndexOf (Some (mc ascmc)));
     Final.planetsPositions :=
       planetsPromptText (planetDataAt jd) (house ascmc) latitude;
     Final.housesCusps := housesCuspsPromptOf (housesDataOf rt (house ascmc));
     Final.keyAspects := "Aspectos derivados de las posiciones planetarias (interpretación de Gemini)" |}.

End Summary.

(* ================================================================== *)
(** ** The specification's reading of houses and of fixed-point texts *)
(* ================================================================== *)

Module Spec.

(** Cusp of house [h] (1 to 12) in the array of [swe_houses]. *)
Definition cusp (houseCusps : list Q) (h : nat) : option Q := nth_error houseCusps h.

(** The house after [h], house 1 after house 12. *)
Definition next (h : nat) : nat := if Nat.eqb h 12 then 1%nat else S h.

(** The longitude lies in the half-open circular interval
    [[cusp h, cusp (next h))], in the direction of increasing longitude. *)
Definition inHouse (houseCusps : list Q) (h : nat) (lon : Q) : bool :=
  match cusp houseCusps h, cusp houseCusps (next h) with
  | Some a, Some b =>
      if Qle_bool a b
      then Qle_bool a lon && negb (Qle_bool b lon)
      else Qle_bool a lon || negb (Qle_bool b lon)
  | _, _ => false
  end.

(** The houses, among 1 to 12, whose interval holds the longitude. *)
Definition housesOf (houseCusps : list Q) (lon : Q) : list nat :=
  filter (fun h => inHouse houseCusps h lon) (seq 1 12).

(** The number written by a text [-ddd.dd]. *)
Definition digitsValue (s : string) : option Z :=
  match s with
  | EmptyString => None
  | _ => Text.number (list_ascii_of_string s) 0
  end.

Fixpoint splitAtDot (s : string) : option (string * string) :=
  match s with
  | EmptyString => None
  | String c rest =>
      if Ascii.eqb c "."%char then Some (EmptyString, rest)
      else match splitAtDot rest with
           | Some (a, b) => Some (String c a, b)
           | None => None
           end
  end.

Definition unsignedValue (s : string) : option Q :=
  match splitAtDot s with
  | Some (a, b) =>
      match digitsValue a, digitsValue b with
      | Some x, Some y =>
          Some (inject_Z x + inject_Z y / inject_Z (10 ^ Z.of_nat (String.length b)))%Q
      | _, _ => None
      end
  | None => None
  end.

Definition fixedValue (s : string) : option Q :=
  match s with
  | String "-"%char rest => option_map Qopp (unsignedValue rest)
  | _ => unsignedValue s
  end.

End Spec.

(* ================================================================== *)
(** ** The exits of the handler *)
(* ================================================================== *)

(** Every way a request can end: the response and the calls made. *)
Section Exits.

Variable w : Collaborators.
Variable rt : Runtime.
Variable cfg : Config.
Variable req : Request.

Definition served : Prop :=
  method req = "POST"
  /\ key_set (gemini_api_key cfg) = true
  /\ key_set (google_maps_api_key cfg) = true.

Definition placeText : option string :=
  ToString (number_toString rt) (birthPlace (body req)).

(** The five fields are there and the place has a text, which can be
    encoded for the URL. *)
Definition placed (place : string) : Prop :=
  served /\ incomplete (body req) = false /\ placeText = Some place
  /\ exists query, encodeURIComponent rt place = Some query.

(** The geocoder found the place. *)
Definition found (place : string) (p : Place) : Prop :=
  placed place /\ exists others, nominatim w place = JsonBody (p :: others).

(** The date and the time have a text and the runtime read it. *)
Definition located (place : string) (p : Place) (t : Z) : Prop :=
  found place p
  /\ exists text,
       localDateTimeString rt (body req) = Some text /\ Date_new rt text = Some t.

Definition timeZoneCall (p : Place) (t : Z) : Call :=
  TimeZone (lat p) (lon p) (timestampOf t).

(** The time zone was resolved as well. *)
Definition resolved (place : string) (p : Place) (t : Z) (d : TimeZoneData) : Prop :=
  located place p t
  /\ google_timezone w (lat p) (lon p) (timestampOf t) = JsonBody d
  /\ tz_status d = "OK".

Definition totalOffset (d : TimeZoneData) : Q := (dstOffset d + rawOffset d)%Q.

Definition chartData (p : Place) (t : Z) (d : TimeZoneData) : Final.t :=
  finalAstroDataOf w rt (body req) (lat p) (lon p) t (timeZoneId d) (totalOffset d).

Definition chartPrompt (p : Place) (t : Z) (d : TimeZoneData) : option string :=
  textPrompt rt (chartData p t d) (language (body req)).

(** The prompt was composed: the generator is called with it. *)
Definition prompted (place : string) (p : Place) (t : Z) (d : TimeZoneData)
           (prompt : string) : Prop :=
  resolved place p t d /\ chartPrompt p t d = Some prompt.

(** The calls up to the end of the calculation, and those of a chart. *)
Definition calculationCalls (place : string) (p : Place) (t : Z) (d : TimeZoneData)
  : list Call :=
  Geocode place :: timeZoneCall p t
    :: astroCalls w rt (lat p) (lon p) t (totalOffset d).

Definition chartCalls (place : string) (p : Place) (t : Z) (d : TimeZoneData)
           (prompt : string) : list Call :=
  (calculationCalls place p t d ++ [Generate prompt])%list.

Inductive Exit : Response -> list Call -> Prop :=
| ExitPreflight :
    method req = "OPTIONS" ->
    Exit {| status := 200; payload := NoBody |} []
| ExitMethod :
    method req <> "OPTIONS" -> method req <> "POST" ->
    Exit {| status := 405;
            payload := Message "Método no permitido. Solo se aceptan solicitudes POST." |} []
| ExitConfig :
    method req = "POST" ->
    key_set (gemini_api_key cfg) && key_set (google_maps_api_key cfg) = false ->
    Exit {| status := 500;
            payload :=
              Message (if key_set (gemini_api_key cfg)
                       then "Error interno del servidor: Clave API GOOGLE_MAPS_API_KEY no configurada en Firebase Functions."
                       else "Error interno del servidor: Clave API GEMINI_API_KEY no configurada en Firebase Functions.") |}
         []
| ExitIncomplete :
    served -> incomplete (body req) = true ->
    Exit {| status := 400; payload := Message "Datos de nacimiento o sexo incompletos." |} []
| ExitPlaceText :
    served -> incomplete (body req) = false ->
    placeText = None ->
    Exit (internalError (notPrimitive rt)) []
| ExitPlaceQuery place :
    served -> incomplete (body req) = false ->
    placeText = Some place ->
    encodeURIComponent rt place = None ->
    Exit (internalError (uriMalformed rt)) []
| ExitGeocoding place cause :
    placed place ->
    nominatim w place = FetchRejected cause
    \/ (exists st tx, nominatim w place = HttpNotOk st tx
                      /\ cause = "Error HTTP de Nominatim: " ++ Text.dec st ++ " " ++ tx) ->
    Exit {| status := 500;
            payload := Message ("Error al conectar con el servicio de geocodificación. Detalles: "
                                  ++ cause) |}
         [Geocode place]
| ExitPlace place :
    placed place ->
    nominatim w place = JsonBody [] ->
    Exit {| status := 404;
            payload := Message "No se pudo encontrar las coordenadas para el lugar de nacimiento proporcionado. Intenta con una ubicación más específica." |}
         [Geocode place]
| ExitDateText place p :
    found place p ->
    localDateTimeString rt (body req) = None ->
    Exit (internalError (notPrimitive rt)) [Geocode place]
| ExitDate place p text :
    found place p ->
    localDateTimeString rt (body req) = Some text ->
    Date_new rt text = None ->
    Exit {| status := 400; payload := Message "Formato de fecha u hora de nacimiento inválido." |}
         [Geocode place]
| ExitTimeZone place p t cause :
    located place p t ->
    google_timezone w (lat p) (lon p) (timestampOf t) = FetchRejected cause
    \/ (exists st tx,
          google_timezone w (lat p) (lon p) (timestampOf t) = HttpNotOk st tx
          /\ cause = "Error HTTP de Google Time Zone API: " ++ Text.dec st ++ " " ++ tx) ->
    Exit {| status := 500;
            payload := Message ("Error al conectar con el servicio de zona horaria de Google. Detalles: "
                                  ++ cause) |}
         [Geocode place; timeZoneCall p t]
| ExitZone place p t d :
    located place p t ->
    google_timezone w (lat p) (lon p) (timestampOf t) = JsonBody d ->
    tz_status d <> "OK" ->
    Exit {| status := 404;
            payload := Message ("No se pudo determinar la zona horaria precisa para el lugar y la fecha proporcionados. "
                                  ++ match errorMessage d with
                                     | Some m => m
                                     | None => ""
                                     end) |}
         [Geocode place; timeZoneCall p t]
| ExitPromptText place p t d :
    resolved place p t d ->
    chartPrompt p t d = None ->
    Exit (internalError (notPrimitive rt)) (calculationCalls place p t d)
| ExitGeneration place p t d prompt cause :
    prompted place p t d prompt ->
    gemini w prompt = GenRejected cause ->
    Exit (internalError cause) (chartCalls place p t d prompt)
| ExitAnswer place p t d prompt result name :
    prompted place p t d prompt ->
    gemini w prompt = GenResult result ->
    chartTextOf result = inr name ->
    Exit (internalError (cannotRead rt name)) (chartCalls place p t d prompt)
| ExitChart place p t d prompt result chartText :
    prompted place p t d prompt ->
    gemini w prompt = GenResult result ->
    chartTextOf result = inl chartText ->
    Exit {| status := 200; payload := ChartText chartText |}
         (chartCalls place p t d prompt).

End Exits.

(* ================================================================== *)
(** ** The sections and directives of the prompt *)
(* ================================================================== *)

Module Contract.







Definition respondIn (name : string) : string :=
  "Responde enteramente en " ++ name ++ ". El formato final debe ser Markdown.".



End Contract.

(* ================================================================== *)
(** ** Collaborators that fail *)
(* ================================================================== *)

(** The collaborators of an example with one of them replaced, and requests
    that the handler turns away. *)
Module Faults.

Definition base : Collaborators := Sample.world [Sample.paris] (1 # 2) (21 # 2).

Definition geocoderAnswers (r : Fetched (list Place)) (w : Collaborators) : Collaborators :=
  {| nominatim := fun _ => r;
     google_timezone := google_timezone w;
     swe_julday := swe_julday w;
     swe_calc_ut := swe_calc_ut w;
     swe_houses := swe_houses w;
     swe_house_pos := swe_house_pos w;
     gemini := gemini w |}.

Definition timeZoneAnswers (r : Fetched TimeZoneData) (w : Collaborators) : Collaborators :=
  {| nominatim := nominatim w;
     google_timezone := fun _ _ _ => r;
     swe_julday := swe_julday w;
     swe_calc_ut := swe_calc_ut w;
     swe_houses := swe_houses w;
     swe_house_pos := swe_house_pos w;
     gemini := gemini w |}.

Definition generatorAnswers (g : Generated) (w : Collaborators) : Collaborators :=
  {| nominatim := nominatim w;
     google_timezone := google_timezone w;
     swe_julday := swe_julday w;
     swe_calc_ut := swe_calc_ut w;
     swe_houses := swe_houses w;
     swe_house_pos := swe_house_pos w;
     gemini := fun _ => g |}.

Definition housesAre (h : HousesResult) (w : Collaborators) : Collaborators :=
  {| nominatim := nominatim w;
     google_timezone := google_timezone w;
     swe_julday := swe_julday w;
     swe_calc_ut := swe_calc_ut w;
     swe_houses := fun _ _ _ => h;
     swe_house_pos := swe_house_pos w;
     gemini := gemini w |}.

Definition paris1990 : Request :=
  Sample.request "1990-03-21" "12:30" "Paris, France" (JStr "es").

(** The time-zone answer of the examples. *)
Definition parisZone : TimeZoneData :=
  {| tz_status := "OK"; timeZoneId := "Europe/Paris";
     dstOffset := 0; rawOffset := 3600; errorMessage := None |}.

(** A request with one of its fields replaced. *)
Definition withLanguage (v : JsVal) (req : Request) : Request :=
  {| method := method req;
     body := {| birthDate := birthDate (body req); birthTime := birthTime (body req);
                birthPlace := birthPlace (body req); userSex := userSex (body req);
                language := v |} |}.

Definition withUserSex (v : JsVal) (req : Request) : Request :=
  {| method := method req;
     body := {| birthDate := birthDate (body req); birthTime := birthTime (body req);
                birthPlace := birthPlace (body req); userSex := v;
                language := language (body req) |} |}.

Definition withBirthDate (v : JsVal) (req : Request) : Request :=
  {| method := method req;
     body := {| birthDate := v; birthTime := birthTime (body req);
                birthPlace := birthPlace (body req); userSex := userSex (body req);
                language := language (body req) |} |}.

Definition withBirthPlace (v : JsVal) (req : Request) : Request :=
  {| method := method req;
     body := {| birthDate := birthDate (body req); birthTime := birthTime (body req);
                birthPlace := v; userSex := userSex (body req);
                language := language (body req) |} |}.

(** A JSON object with an own property [toString]; it is truthy. *)
Definition noText : JsVal := JObj [("toString", JNum 1)].

(** A string whose only character is the lone surrogate U+D800, in the
    three-byte form; it is truthy. *)
Definition loneSurrogate : JsVal :=
  JStr (String (ascii_of_nat 237) (String (ascii_of_nat 160) (String (ascii_of_nat 128) ""))).

Definition withMethod (m : string) (req : Request) : Request :=
  {| method := m; body := body req |}.

Definition noKeys : Config :=
  {| gemini_api_key := None; google_maps_api_key := Some "" |}.

Definition zoneUnknown : TimeZoneData :=
  {| tz_status := "ZERO_RESULTS"; timeZoneId := ""; dstOffset := 0; rawOffset := 0;
     errorMessage := None |}.

End Faults.

(* ================================================================== *)
(** * Properties *)
(* ================================================================== *)

(** ** Floors, remainders and roundings *)

Section NumFacts.

Local Open Scope Q_scope.

Lemma floor_between (x : Q) (a b : Z) :
  (a <= Qfloor x <= b)%Z <-> inject_Z a <= x < inject_Z (b + 1).
Proof.
  pose proof (Qfloor_le x) as Hl. pose proof (Qlt_floor x) as Hu.
  split.
  - intros [Ha Hb]. split.
    + apply Qle_trans with (inject_Z (Qfloor x)); [ | exact Hl].
      rewrite <- Zle_Qle. exact Ha.
    + apply Qlt_le_trans with (inject_Z (Qfloor x + 1)); [exact Hu | ].
      rewrite <- Zle_Qle. lia.
  - intros [Ha Hb]. split.
    + rewrite <- (Qfloor_Z a). apply Qfloor_resp_le. exact Ha.
    + assert (H : inject_Z (Qfloor x) < inject_Z (b + 1))
        by (eapply Qle_lt_trans; eauto).
      rewrite <- Zlt_Qlt in H. lia.
Qed.

Lemma div_30 (l : Q) : l / 30 == l * (1 # 30).
Proof. field. Qed.

(** The sign index is within the table exactly on [0, 360). *)
Lemma signIndex_in_table (l : Q) :
  (0 <= Num.Math_floor (l / 30) <= 11)%Z <-> 0 <= l < 360.
Proof.
  unfold Num.Math_floor. rewrite floor_between, div_30.
  change (inject_Z 0) with 0. change (inject_Z (11 + 1)) with 12.
  split; intros [H1 H2]; split; lra.
Qed.

(** The quotient by 30 underflows on the longitudes of magnitude at most
    30 * 2^-1075, that is 15 * 2^-1074, and nowhere else. *)
Lemma underflow_small : 0 < Num.underflow < 1.
Proof. split; reflexivity. Qed.

Lemma quotient_underflows (l : Q) :
  Qle_bool (Qabs (l / 30)) Num.underflow = true
  <-> - (30 * Num.underflow) <= l <= 30 * Num.underflow.
Proof.
  rewrite Qle_bool_iff, Qabs_Qle_condition. pose proof (div_30 l) as E.
  remember Num.underflow as u eqn:Eu. clear Eu.
  split; intros [H1 H2]; split; lra.
Qed.

Lemma quotient_exact (l : Q) :
  Num.underflow < Qabs (l / 30) -> Num.quotient l 30 = l / 30.
Proof.
  intros H. unfold Num.quotient.
  destruct (Qle_bool (Qabs (l / 30)) Num.underflow) eqn:E; [ | reflexivity].
  apply Qle_bool_iff in E. exfalso. apply (Qlt_not_le _ _ H). exact E.
Qed.

(** On a longitude that is not negative the floor of the quotient is the
    floor of the exact quotient. *)
Lemma floor_quotient_nonneg (l : Q) :
  0 <= l -> Num.Math_floor (Num.quotient l 30) = Num.Math_floor (l / 30).
Proof.
  intros Hl. unfold Num.quotient, Num.Math_floor.
  destruct (Qle_bool (Qabs (l / 30)) Num.underflow) eqn:E; [ | reflexivity].
  apply quotient_underflows in E. pose proof underflow_small as [Hu0 Hu1].
  pose proof (div_30 l) as Ed.
  remember Num.underflow as u eqn:Eu. clear Eu.
  symmetry. change (Qfloor 0) with 0%Z.
  assert (H : (0 <= Qfloor (l / 30) <= 0)%Z); [ | lia].
  apply floor_between. change (inject_Z 0) with 0. change (inject_Z (0 + 1)) with 1.
  split; lra.
Qed.

(** The floor of the quotient is within the table on [0, 360) and on the
    negative longitudes whose quotient underflows. *)
Lemma signIndex_defined (l : Q) :
  (0 <= Num.Math_floor (Num.quotient l 30) <= 11)%Z
  <-> (0 <= l < 360 \/ - (30 * Num.underflow) <= l < 0).
Proof.
  pose proof underflow_small as [Hu0 Hu1].
  unfold Num.quotient.
  destruct (Qle_bool (Qabs (l / 30)) Num.underflow) eqn:E.
  - apply quotient_underflows in E.
    remember Num.underflow as u eqn:Eu. clear Eu.
    change (Num.Math_floor 0) with 0%Z. split; [intros _ | lia].
    destruct (Qlt_le_dec l 0) as [Hneg | Hpos]; [right | left]; split; lra.
  - assert (Hno : ~ (- (30 * Num.underflow) <= l <= 30 * Num.underflow)).
    { intros H. apply quotient_underflows in H. congruence. }
    rewrite signIndex_in_table.
    remember Num.underflow as u eqn:Eu. clear Eu.
    split; [tauto | ]. intros [H | H]; [exact H | ].
    exfalso. apply Hno. split; lra.
Qed.

Lemma trunc_nonneg (x : Q) : 0 <= x -> Num.trunc x = Qfloor x.
Proof.
  destruct x as [n d]. unfold Qle, Num.trunc, Qfloor. simpl. intros H.
  apply Z.quot_div_nonneg; lia.
Qed.

Lemma trunc_opp (x : Q) : Num.trunc (- x) = (- Num.trunc x)%Z.
Proof.
  destruct x as [n d]. unfold Num.trunc. simpl. apply Z.quot_opp_l. lia.
Qed.

(** Truncation stays within one of its argument, on the side of zero. *)
Lemma trunc_bounds (x : Q) :
  (0 <= x -> inject_Z (Num.trunc x) <= x < inject_Z (Num.trunc x) + 1)
  /\ (x <= 0 -> inject_Z (Num.trunc x) - 1 < x <= inject_Z (Num.trunc x)).
Proof.
  split; intros H.
  - rewrite (trunc_nonneg x H).
    pose proof (Qfloor_le x). pose proof (Qlt_floor x) as Hu.
    rewrite inject_Z_plus in Hu. change (inject_Z 1) with 1 in Hu. split; lra.
  - assert (Hn : 0 <= - x) by lra.
    pose proof (trunc_opp x) as Ho. rewrite (trunc_nonneg _ Hn) in Ho.
    assert (Ht : Num.trunc x = (- Qfloor (- x))%Z) by lia.
    rewrite Ht, inject_Z_opp.
    pose proof (Qfloor_le (- x)). pose proof (Qlt_floor (- x)) as Hu.
    rewrite inject_Z_plus in Hu. change (inject_Z 1) with 1 in Hu. split; lra.
Qed.

(** [l % 30] keeps the sign of [l] and is below 30 in magnitude. *)
Lemma rem_30_nonneg (l : Q) : 0 <= l -> 0 <= Num.rem l 30 < 30.
Proof.
  intros H. unfold Num.rem.
  pose proof (div_30 l) as E.
  assert (Hd : 0 <= l / 30) by lra.
  destruct (trunc_bounds (l / 30)) as [Hb _]. specialize (Hb Hd).
  split; lra.
Qed.

Lemma rem_30_nonpos (l : Q) : l <= 0 -> - (30) < Num.rem l 30 <= 0.
Proof.
  intros H. unfold Num.rem.
  pose proof (div_30 l) as E.
  assert (Hd : l / 30 <= 0) by lra.
  destruct (trunc_bounds (l / 30)) as [_ Hb]. specialize (Hb Hd).
  split; lra.
Qed.

(** On non-negative longitudes [%] is the mathematical [mod]. *)
Lemma rem_30_mod (l : Q) :
  0 <= l -> Num.rem l 30 == l - 30 * inject_Z (Num.Math_floor (l / 30)).
Proof.
  intros H. unfold Num.rem, Num.Math_floor.
  pose proof (div_30 l) as E.
  rewrite trunc_nonneg; [reflexivity | lra].
Qed.

(** The two-decimal rounding is within half a hundredth. *)
Lemma toFixed_n_close (x : Q) :
  inject_Z (Num.toFixed_n x 2) / 100 - (1 # 200) <= Qabs x
  /\ Qabs x < inject_Z (Num.toFixed_n x 2) / 100 + (1 # 200).
Proof.
  unfold Num.toFixed_n. change (inject_Z (Num.pow10 2)) with 100.
  set (y := Qabs x * 100 + (1 # 2)).
  pose proof (Qfloor_le y) as Hl. pose proof (Qlt_floor y) as Hu.
  rewrite inject_Z_plus in Hu. change (inject_Z 1) with 1 in Hu.
  subst y.
  assert (E : inject_Z (Qfloor (Qabs x * 100 + (1 # 2))) / 100
              == inject_Z (Qfloor (Qabs x * 100 + (1 # 2))) * (1 # 100)) by field.
  split; lra.
Qed.

Lemma toFixed_n_below_30 (x : Q) :
  0 <= x < 30 -> (0 <= Num.toFixed_n x 2 <= 3000)%Z.
Proof.
  intros [H0 H30]. unfold Num.toFixed_n. rewrite floor_between.
  change (inject_Z (Num.pow10 2)) with 100.
  change (inject_Z 0) with 0. change (inject_Z (3000 + 1)) with 3001.
  rewrite (Qabs_pos x H0). split; lra.
Qed.

Lemma toFixed_value_nonneg (x : Q) :
  0 <= x -> Num.toFixed_value x 2 == inject_Z (Num.toFixed_n x 2) / 100.
Proof.
  intros H. unfold Num.toFixed_value.
  change (inject_Z (Num.pow10 2)) with 100.
  destruct (Qle_bool 0 x) eqn:E.
  - field.
  - rewrite <- Qle_bool_iff in H. congruence.
Qed.

End NumFacts.

(** ** The table of signs *)

Lemma signAt_defined (i : Z) :
  signAt (Some i) <> None <-> 0 <= i <= 11.
Proof.
  unfold signAt. destruct (Z.ltb_spec i 0) as [Hneg | Hpos].
  - split; [congruence | lia].
  - rewrite nth_error_Some. change (length signNames) with 12%nat. lia.
Qed.

Lemma signAt_nth (i : Z) :
  0 <= i -> signAt (Some i) = nth_error signNames (Z.to_nat i).
Proof.
  intros H. unfold signAt. destruct (Z.ltb_spec i 0); [lia | reflexivity].
Qed.

(** ** Reading a fixed-point text back *)

Lemma number_string_of_uint d acc :
  Text.number (list_ascii_of_string (NilEmpty.string_of_uint d)) acc = Some (Text.uint_after d acc).
Proof.
  revert acc. induction d; intros acc; cbn [NilEmpty.string_of_uint list_ascii_of_string Text.number Text.uint_after]; try reflexivity; 
  (change (Text.digit _) with (Some 0) || change (Text.digit _) with (Some 1) || change (Text.digit _) with (Some 2) || change (Text.digit _) with (Some 3) || change (Text.digit _) with (Some 4) || change (Text.digit _) with (Some 5) || change (Text.digit _) with (Some 6) || change (Text.digit _) with (Some 7) || change (Text.digit _) with (Some 8)|| change (Text.digit _) with (Some 9)); cbv beta iota; apply IHd.
Qed.

Lemma uint_after_pos d (p : positive) :
  Text.uint_after d (Zpos p) = Zpos (Pos.of_uint_acc d p).
Proof.
  revert p. induction d; intros p; cbn [Text.uint_after Pos.of_uint_acc]; try reflexivity;
  match goal with |- Text.uint_after _ ?a = _ => 
    let v := eval cbn in a in change a with v end; try apply IHd.
  all: rewrite <- IHd; f_equal; lia.
Qed.

Lemma uint_after_0 d : Text.uint_after d 0 = Z.of_N (Pos.of_uint d).
Proof.
  induction d; cbn [Text.uint_after Pos.of_uint]; try reflexivity; try exact IHd;
  cbn [Z.mul Z.add Z.of_N]; apply uint_after_pos.
Qed.

Lemma number_dec_nat (n : N) :
  Text.number (list_ascii_of_string (Text.dec_nat n)) 0 = Some (Z.of_N n).
Proof.
  unfold Text.dec_nat, NilZero.string_of_uint.
  assert (H : Text.number (list_ascii_of_string (NilEmpty.string_of_uint (N.to_uint n))) 0 = Some (Z.of_N n)).
  { rewrite number_string_of_uint, uint_after_0.
    change (Pos.of_uint (N.to_uint n)) with (N.of_uint (N.to_uint n)).
    rewrite DecimalN.Unsigned.of_to. reflexivity. }
  destruct (N.to_uint n); exact H.
Qed.

Lemma number_app l1 l2 acc :
  Text.number (l1 ++ l2) acc
  = match Text.number l1 acc with
    | Some v => Text.number l2 v
    | None => None
    end.
Proof.
  revert acc. induction l1 as [ | c l1 IH]; intros acc; cbn [List.app Text.number].
  - reflexivity.
  - destruct (Text.digit c); [apply IH | reflexivity].
Qed.

Lemma number_none l a b : Text.number l a = None -> Text.number l b = None.
Proof.
  revert a b. induction l as [ | c l IH]; intros a b; cbn [Text.number].
  - discriminate.
  - destruct (Text.digit c); [apply IH | reflexivity].
Qed.

Lemma number_shift l acc v :
  Text.number l 0 = Some v ->
  Text.number l acc = Some (acc * 10 ^ Z.of_nat (length l) + v).
Proof.
  revert acc v. induction l as [ | c l IH]; intros acc v; cbn [Text.number length].
  - intros E. injection E as <-. cbn. f_equal. lia.
  - destruct (Text.digit c) as [d | ] eqn:Ed; [ | discriminate].
    intros E.
    destruct (Text.number l 0) as [v0 | ] eqn:E0.
    + rewrite (IH _ _ eq_refl) in E. injection E as <-.
      rewrite (IH _ _ eq_refl). f_equal. rewrite Nat2Z.inj_succ, Z.pow_succ_r by lia. lia.
    + rewrite (number_none _ _ _ E0) in E. discriminate E.
Qed.

Lemma chars_app a b : list_ascii_of_string (a ++ b) = (list_ascii_of_string a ++ list_ascii_of_string b)%list.
Proof. induction a as [ | c a IH]; cbn; [reflexivity | rewrite IH; reflexivity]. Qed.

Lemma chars_length s : length (list_ascii_of_string s) = String.length s.
Proof. induction s; cbn; auto. Qed.

Lemma number_zeros k l acc :
  Text.number (list_ascii_of_string (Text.zeros k) ++ l) acc = Text.number l (acc * 10 ^ Z.of_nat k).
Proof.
  revert acc. induction k as [ | k IH]; intros acc.
  - cbn. f_equal. lia.
  - cbn [Text.zeros]. change ("0" ++ Text.zeros k) with (String "0" (Text.zeros k)).
    cbn [list_ascii_of_string List.app Text.number]. change (Text.digit "0") with (Some 0).
    cbv beta iota. rewrite IH. f_equal. rewrite Nat2Z.inj_succ, Z.pow_succ_r by lia. lia.
Qed.

Lemma substring_all (s : string) : substring 0 (String.length s) s = s.
Proof. induction s as [ | c s IH]; cbn; [reflexivity | rewrite IH; reflexivity]. Qed.

Lemma substring_split (s : string) (i : nat) :
  (i <= String.length s)%nat ->
  s = substring 0 i s ++ substring i (String.length s - i) s.
Proof.
  revert i. induction s as [ | c s IH]; intros i Hi.
  - destruct i; cbn in *; [reflexivity | lia].
  - destruct i as [ | i].
    + cbn [substring String.append Nat.sub String.length].
      rewrite substring_all. reflexivity.
    + cbn [substring String.append String.length Nat.sub]. f_equal. apply IH. cbn in Hi. lia.
Qed.

Lemma substring_length (s : string) (i n : nat) :
  (i + n <= String.length s)%nat -> String.length (substring i n s) = n.
Proof.
  revert i n. induction s as [ | c s IH]; intros i n H.
  - cbn in H. destruct i, n; cbn; lia.
  - destruct i as [ | i].
    + destruct n as [ | n]; cbn [substring String.length]; [reflexivity | ].
      f_equal. apply IH. cbn in H. lia.
    + cbn [substring]. apply IH. cbn in H. lia.
Qed.

Lemma dec_nat_nonempty (n : N) : (1 <= String.length (Text.dec_nat n))%nat.
Proof.
  unfold Text.dec_nat, NilZero.string_of_uint.
  destruct (N.to_uint n); cbn; lia.
Qed.

Lemma zeros_length k : String.length (Text.zeros k) = k.
Proof. induction k; cbn; auto. Qed.

Lemma append_length a b : String.length (a ++ b) = (String.length a + String.length b)%nat.
Proof. induction a; cbn; auto. Qed.

Lemma digit_not_dot c d : Text.digit c = Some d -> Ascii.eqb c "." = false /\ Ascii.eqb c "-" = false.
Proof.
  unfold Text.digit. intros H.
  destruct (Ascii.eqb_spec c "."%char) as [-> | _]; [discriminate H | ].
  destruct (Ascii.eqb_spec c "-"%char) as [-> | _]; [discriminate H | ]. auto.
Qed.

Lemma splitAtDot_digits a b acc v :
  Text.number (list_ascii_of_string a) acc = Some v ->
  Spec.splitAtDot (a ++ String "."%char b) = Some (a, b).
Proof.
  revert acc. induction a as [ | c a IH]; intros acc.
  - reflexivity.
  - cbn [list_ascii_of_string Text.number].
    destruct (Text.digit c) as [d | ] eqn:Ed; [ | discriminate].
    intros H. cbn [String.append Spec.splitAtDot].
    destruct (digit_not_dot c d Ed) as [-> _].
    rewrite (IH _ H). reflexivity.
Qed.

Lemma unsignedValue_digits a b A B :
  (1 <= String.length a)%nat -> String.length b = 2%nat ->
  Text.number (list_ascii_of_string a) 0 = Some A -> Text.number (list_ascii_of_string b) 0 = Some B ->
  exists v, Spec.unsignedValue (a ++ "." ++ b) = Some v
            /\ (v == inject_Z (A * 100 + B) / 100)%Q.
Proof.
  intros Ha Hb HA HB. unfold Spec.unsignedValue.
  change (a ++ "." ++ b) with (a ++ String "."%char b).
  rewrite (splitAtDot_digits a b 0 A HA).
  unfold Spec.digitsValue.
  destruct a as [ | ca a]; [cbn in Ha; lia | ].
  destruct b as [ | cb b]; [discriminate Hb | ].
  rewrite HA, HB. rewrite Hb.
  eexists. split; [reflexivity | ].
  change (inject_Z (10 ^ Z.of_nat 2)) with 100%Q.
  rewrite inject_Z_plus, inject_Z_mult. change (inject_Z 100) with 100%Q. field.
Qed.

Lemma toFixed_n_nonneg x : 0 <= Num.toFixed_n x 2.
Proof.
  unfold Num.toFixed_n. change 0 with (Qfloor 0). apply Qfloor_resp_le.
  change (inject_Z (Num.pow10 2)) with 100%Q.
  pose proof (Qabs_nonneg x). lra.
Qed.

(** The padded digits of [n] split before the last two. *)
Lemma fixed_digits (n : Z) :
  0 <= n ->
  let m := Text.dec_nat (Z.to_N n) in
  let k := String.length m in
  let m' := if Nat.leb k 2 then Text.zeros (2 + 1 - k) ++ m else m in
  let k' := String.length m' in
  exists A B,
    Text.number (list_ascii_of_string (substring 0 (k' - 2) m')) 0 = Some A
    /\ Text.number (list_ascii_of_string (substring (k' - 2) 2 m')) 0 = Some B
    /\ n = A * 100 + B
    /\ (1 <= String.length (substring 0 (k' - 2) m'))%nat
    /\ String.length (substring (k' - 2) 2 m') = 2%nat.
Proof.
  intros Hn. cbv zeta.
  set (m := Text.dec_nat (Z.to_N n)).
  pose proof (dec_nat_nonempty (Z.to_N n)) as Hk. fold m in Hk.
  pose proof (number_dec_nat (Z.to_N n)) as Hm. fold m in Hm.
  rewrite Z2N.id in Hm by exact Hn.
  set (m' := if Nat.leb (String.length m) 2 then Text.zeros (2 + 1 - String.length m) ++ m else m).
  assert (Hm' : Text.number (list_ascii_of_string m') 0 = Some n /\ (3 <= String.length m')%nat).
  { unfold m'. destruct (Nat.leb_spec (String.length m) 2) as [Hle | Hgt].
    - split.
      + rewrite chars_app, number_zeros. exact Hm.
      + rewrite append_length, zeros_length. lia.
    - split; [exact Hm | lia]. }
  destruct Hm' as [Hnum Hlen].
  set (k' := String.length m') in *.
  assert (Hsplit : m' = substring 0 (k' - 2) m' ++ substring (k' - 2) 2 m').
  { pose proof (substring_split m' (k' - 2)) as Hs.
    replace (String.length m' - (k' - 2))%nat with 2%nat in Hs by (unfold k'; lia).
    apply Hs. unfold k'. lia. }
  assert (Hb : String.length (substring (k' - 2) 2 m') = 2%nat).
  { apply substring_length. unfold k'. lia. }
  assert (Ha : String.length (substring 0 (k' - 2) m') = (k' - 2)%nat).
  { apply substring_length. unfold k'. lia. }
  rewrite Hsplit, chars_app, number_app in Hnum.
  destruct (Text.number (list_ascii_of_string (substring 0 (k' - 2) m')) 0) as [A | ] eqn:EA;
    [ | discriminate Hnum].
  destruct (Text.number (list_ascii_of_string (substring (k' - 2) 2 m')) 0) as [B | ] eqn:EB.
  - rewrite (number_shift _ A B EB), chars_length, Hb in Hnum. injection Hnum as Hn'.
    exists A, B. repeat split; auto; try lia.
  - rewrite (number_none _ 0 A EB) in Hnum. discriminate Hnum.
Qed.

Lemma first_digit_not_minus a b A :
  (1 <= String.length a)%nat -> Text.number (list_ascii_of_string a) 0 = Some A ->
  Spec.fixedValue (a ++ b) = Spec.unsignedValue (a ++ b).
Proof.
  destruct a as [ | c a]; [cbn; lia | ]. intros _.
  cbn [list_ascii_of_string Text.number].
  destruct (Text.digit c) as [d | ] eqn:Ed; [ | discriminate]. intros _.
  destruct (digit_not_dot c d Ed) as [_ Hminus].
  cbn [String.append]. unfold Spec.fixedValue.
  destruct c as [[ | ] [ | ] [ | ] [ | ] [ | ] [ | ] [ | ] [ | ]]; try reflexivity.
  discriminate Hminus.
Qed.

(** The number denoted by a [toFixed(2)] text is the rounded number. *)
Lemma fixedValue_toFixed (nts : Q -> string) (x : Q) :
  (Qabs x < inject_Z (10 ^ 21))%Q ->
  exists v, Spec.fixedValue (Num.toFixed nts x 2) = Some v
            /\ (v == Num.toFixed_value x 2)%Q.
Proof.
  intros Hbig. unfold Num.toFixed, Num.toFixed_value.
  assert (Hno : Qle_bool (inject_Z (10 ^ 21)) (Qabs x) = false).
  { destruct (Qle_bool (inject_Z (10 ^ 21)) (Qabs x)) eqn:E; [ | reflexivity].
    apply Qle_bool_iff in E. lra. }
  rewrite Hno.
  destruct (fixed_digits (Num.toFixed_n x 2) (toFixed_n_nonneg x))
    as (A & B & HA & HB & Hn & Hla & Hlb).
  cbv zeta in HA, HB, Hla, Hlb.
  set (m' := if Nat.leb (String.length (Text.dec_nat (Z.to_N (Num.toFixed_n x 2)))) 2
             then Text.zeros (2 + 1 - String.length (Text.dec_nat (Z.to_N (Num.toFixed_n x 2))))
                    ++ Text.dec_nat (Z.to_N (Num.toFixed_n x 2))
             else Text.dec_nat (Z.to_N (Num.toFixed_n x 2))) in *.
  set (a := substring 0 (String.length m' - 2) m') in *.
  set (b := substring (String.length m' - 2) 2 m') in *.
  destruct (unsignedValue_digits a b A B Hla Hlb HA HB) as (v & Hv & Ev).
  change (inject_Z (Num.pow10 2)) with 100%Q. rewrite Hn.
  destruct (Qle_bool 0 x).
  - exists v. split.
    + change ("" ++ a ++ "." ++ b) with (a ++ "." ++ b).
      rewrite (first_digit_not_minus a ("." ++ b) A Hla HA). exact Hv.
    + rewrite Ev. field.
  - exists (- v)%Q. split.
    + change ("-" ++ a ++ "." ++ b) with (String "-"%char (a ++ "." ++ b)).
      unfold Spec.fixedValue. rewrite Hv. reflexivity.
    + rewrite Ev. field.
Qed.

(** ** Signs and degrees *)

Section Degrees.

Local Open Scope Q_scope.

(** The number a stored degree denotes is within half a hundredth of the
    remainder it was rounded from. *)
Lemma toFixed_value_close (x : Q) :
  - (1 # 200) <= Num.toFixed_value x 2 - x <= 1 # 200.
Proof.
  pose proof (toFixed_n_close x) as [Hl Hu].
  unfold Num.toFixed_value. change (inject_Z (Num.pow10 2)) with 100.
  set (n := inject_Z (Num.toFixed_n x 2)) in *.
  assert (E : n / 100 == n * (1 # 100)) by field.
  destruct (Qle_bool 0 x) eqn:Hs.
  - apply Qle_bool_iff in Hs. rewrite (Qabs_pos x Hs) in Hl, Hu. split; lra.
  - assert (Hneg : x <= 0).
    { destruct (Qlt_le_dec x 0) as [H | H]; [lra | ].
      apply Qle_bool_iff in H. congruence. }
    rewrite (Qabs_neg x Hneg) in Hl, Hu. split; lra.
Qed.

Lemma sign_of_entry (rt : Runtime) (l : Q) :
  sign (planetEntry rt l) = signAt (Some (Num.Math_floor (Num.quotient l 30))).
Proof. reflexivity. Qed.

Lemma sign_of_entry_nonneg (rt : Runtime) (l : Q) :
  0 <= l -> sign (planetEntry rt l) = signAt (Some (Num.Math_floor (l / 30))).
Proof. intros H. rewrite sign_of_entry, (floor_quotient_nonneg l H). reflexivity. Qed.

Lemma entry_of_cusp (rt : Runtime) (houseCusps : list Q) (i : nat) (l : Q) :
  nth_error houseCusps i = Some l ->
  sign (houseEntry rt houseCusps i) = sign (planetEntry rt l)
  /\ degree (houseEntry rt houseCusps i) = degree (planetEntry rt l)
  /\ longitude (houseEntry rt houseCusps i) = Some l.
Proof. intros H. unfold houseEntry. rewrite H. auto. Qed.

Lemma rem_30_small (l : Q) : Qabs (Num.rem l 30) < inject_Z (10 ^ 21).
Proof.
  change (inject_Z (10 ^ 21)) with 1000000000000000000000.
  destruct (Qlt_le_dec l 0) as [Hneg | Hpos].
  - assert (Hl : l <= 0) by lra. pose proof (rem_30_nonpos l Hl) as [H1 H2].
    rewrite (Qabs_neg _ H2). lra.
  - pose proof (rem_30_nonneg l Hpos) as [H1 H2].
    rewrite (Qabs_pos _ H1). lra.
Qed.

(** The stored degree is a text that denotes the rounded remainder. *)
Lemma degree_value (rt : Runtime) (l : Q) :
  exists v, Spec.fixedValue (degree (planetEntry rt l)) = Some v
            /\ v == Num.toFixed_value (Num.rem l 30) 2.
Proof. apply fixedValue_toFixed. apply rem_30_small. Qed.

End Degrees.

(** C1, as stated, fails on the degree.  A body at 29.998046875 degrees is in
    Aries, and the degree stored for it is the text 30.00: the number it
    denotes is neither below 30 nor the longitude modulo 30. *)
Lemma C1_counterexample :
  let l := (15359 # 512)%Q in
  let e := planetEntry (Ecma.runtime 0) l in
  (0 <= l < 360)%Q
  /\ sign e = Some "Aries"
  /\ degree e = "30.00"
  /\ exists v, Spec.fixedValue (degree e) = Some v
               /\ ~ (v < 30)%Q /\ ~ (v == Num.rem l 30)%Q.
Proof.
  cbv zeta. split; [split; [discriminate | reflexivity] | ].
  split; [reflexivity | split; [reflexivity | ]].
  eexists. split; [reflexivity | ].
  split; intros H; vm_compute in H; discriminate H.
Qed.

(** C1, amended.  For a body or cusp longitude [l] in [0, 360): the sign is
    the entry of the table of twelve signs at index floor(l / 30), which is
    within 0 to 11; the degree stored is the text of [l mod 30] rounded to two
    decimals, where [l mod 30 = l - 30 * floor(l / 30)] lies in [0, 30) and
    the number that the text denotes lies in [0, 30], within 0.005 of it; and
    a longitude of exactly 30 has the sign of index 1, Tauro. *)
Theorem C1_sign_and_degree (rt : Runtime) (l : Q) :
  (0 <= l < 360)%Q ->
  let i := Num.Math_floor (l / 30) in
  let e := planetEntry rt l in
  0 <= i <= 11
  /\ sign e = nth_error signNames (Z.to_nat i)
  /\ sign e <> None
  /\ degree e = Num.toFixed (number_toString rt) (Num.rem l 30) 2
  /\ (Num.rem l 30 == l - 30 * inject_Z i)%Q
  /\ (0 <= Num.rem l 30 < 30)%Q
  /\ (exists v, Spec.fixedValue (degree e) = Some v
                 /\ (0 <= v <= 30)%Q
                 /\ (- (1 # 200) <= v - Num.rem l 30 <= 1 # 200)%Q)
  /\ ((l == 30)%Q -> sign e = Some "Tauro")
  /\ (forall houseCusps k,
         nth_error houseCusps k = Some l ->
         sign (houseEntry rt houseCusps k) = sign e
         /\ degree (houseEntry rt houseCusps k) = degree e).
Proof.
  intros Hl. cbv zeta.
  assert (Hi : 0 <= Num.Math_floor (l / 30) <= 11) by (apply signIndex_in_table; exact Hl).
  assert (Hrem : (0 <= Num.rem l 30 < 30)%Q) by (apply rem_30_nonneg; apply Hl).
  split; [exact Hi | ].
  split; [rewrite (sign_of_entry_nonneg rt l (proj1 Hl)); apply signAt_nth; lia | ].
  split; [rewrite (sign_of_entry_nonneg rt l (proj1 Hl)); apply signAt_defined; exact Hi | ].
  split; [reflexivity | ].
  split; [apply rem_30_mod; apply Hl | ].
  split; [exact Hrem | ].
  split.
  { destruct (degree_value rt l) as (v & Hv & Ev). exists v.
    split; [exact Hv | ]. rewrite Ev.
    split; [ | apply toFixed_value_close].
    rewrite (toFixed_value_nonneg _ (proj1 Hrem)).
    pose proof (toFixed_n_below_30 _ Hrem) as [Hn0 Hn1].
    rewrite Zle_Qle in Hn0, Hn1.
    change (inject_Z 0) with 0%Q in Hn0. change (inject_Z 3000) with 3000%Q in Hn1.
    set (n := inject_Z (Num.toFixed_n (Num.rem l 30) 2)) in *.
    assert (E : (n / 100 == n * (1 # 100))%Q) by field.
    split; lra. }
  split.
  { intros E. rewrite (sign_of_entry_nonneg rt l (proj1 Hl)). unfold Num.Math_floor.
    rewrite (Qfloor_comp (l / 30) 1); [reflexivity | ].
    rewrite E. reflexivity. }
  intros houseCusps k Hk. destruct (entry_of_cusp rt houseCusps k l Hk) as (H1 & H2 & _).
  auto.
Qed.

Lemma C1_witness :
  (0 <= 30 < 360)%Q
  /\ sign (planetEntry (Ecma.runtime 0) 30) = Some "Tauro"
  /\ degree (planetEntry (Ecma.runtime 0) 30) = "0.00".
Proof.
  assert (Hl : (0 <= 30 < 360)%Q) by (split; [discriminate | reflexivity]).
  pose proof (C1_sign_and_degree (Ecma.runtime 0) 30 Hl) as H.
  cbv zeta in H. destruct H as (_ & _ & _ & _ & _ & _ & _ & Htauro & _).
  split; [exact Hl | split; [apply Htauro; reflexivity | reflexivity]].
Defined.

(** C5, as stated, fails: the degree stored in the record is already
    rounded.  For a longitude of 0.125 the record holds the text 0.13, which
    denotes 13/100 and not 1/8. *)
Lemma C5_counterexample :
  let l := (1 # 8)%Q in
  let e := planetEntry (Ecma.runtime 0) l in
  degree e = "0.13"
  /\ (Num.rem l 30 == 1 # 8)%Q
  /\ exists v, Spec.fixedValue (degree e) = Some v /\ ~ (v == Num.rem l 30)%Q
  /\ degree (houseEntry (Ecma.runtime 0) [0; l]%Q 1) = "0.13".
Proof.
  cbv zeta. split; [reflexivity | split; [reflexivity | ]].
  eexists. split; [reflexivity | ].
  split; [ | reflexivity].
  intros H. vm_compute in H. discriminate H.
Qed.

(** C5, amended.  The degree stored in the record of a body or of a cusp is
    the text of [lon % 30] rounded to two decimals by [toFixed(2)]: it
    denotes a whole number of hundredths within 0.005 of the remainder.  The
    unrounded longitude is kept in the field [longitude] of the same record,
    and the text printed for a body or a cusp holds the stored degree as it
    is. *)
Theorem C5_degree_is_stored_rounded (w : Collaborators) (rt : Runtime) (l : Q) :
  let e := planetEntry rt l in
  degree e = Num.toFixed (number_toString rt) (Num.rem l 30) 2
  /\ (exists v, Spec.fixedValue (degree e) = Some v
                 /\ (v == inject_Z (Num.toFixed_n (Num.rem l 30) 2) / 100
                      \/ v == - (inject_Z (Num.toFixed_n (Num.rem l 30) 2) / 100))%Q
                 /\ (- (1 # 200) <= v - Num.rem l 30 <= 1 # 200)%Q)
  /\ longitude e = l
  /\ (forall houseCusps k,
         nth_error houseCusps k = Some l ->
         degree (houseEntry rt houseCusps k) = degree e
         /\ longitude (houseEntry rt houseCusps k) = Some l)
  /\ (forall name houseCusps la,
         planetText w houseCusps la (name, e)
         = name ++ " en " ++ show (sign e) ++ " a " ++ degree e ++ "° en Casa "
             ++ Text.dec (houseNumber w houseCusps la l))
  /\ (forall name (h : Entry (option Q)),
         housesCuspsPromptOf [(name, h)]
         = name ++ " en " ++ show (sign h) ++ " a " ++ degree h ++ "°").
Proof.
  cbv zeta.
  split; [reflexivity | ].
  split.
  { destruct (degree_value rt l) as (v & Hv & Ev). exists v.
    split; [exact Hv | ]. rewrite Ev.
    split; [ | apply toFixed_value_close].
    unfold Num.toFixed_value. change (inject_Z (Num.pow10 2)) with 100%Q.
    destruct (Qle_bool 0 (Num.rem l 30)); [left | right]; field. }
  split; [reflexivity | ].
  split.
  { intros houseCusps k Hk. destruct (entry_of_cusp rt houseCusps k l Hk) as (_ & H2 & H3).
    auto. }
  split; reflexivity.
Qed.

Lemma C5_witness :
  degree (houseEntry (Ecma.runtime 0) [0; 1 # 8]%Q 1)
  = degree (planetEntry (Ecma.runtime 0) (1 # 8))
  /\ longitude (houseEntry (Ecma.runtime 0) [0; 1 # 8]%Q 1) = Some (1 # 8)%Q.
Proof.
  pose proof (C5_degree_is_stored_rounded
                (Sample.world [Sample.paris] (1 # 8) 1) (Ecma.runtime 0) (1 # 8)) as H.
  cbv zeta in H. destruct H as (_ & _ & _ & Hcusp & _).
  apply (Hcusp [0; 1 # 8]%Q 1%nat). reflexivity.
Defined.

(** ** Running the handler *)

Section RunFacts.

Variable w : Collaborators.
Variable rt : Runtime.

Lemma bind_next {A B} (m : Async A) (k : A -> Async B) log a log' :
  m log = (Next a, log') -> bind m k log = k a log'.
Proof. intros H. unfold bind. rewrite H. reflexivity. Qed.

Lemma fold_for_call {A S B} (c : A -> Call) (ans : A -> B) (h : S -> A -> B -> S)
      (l : list A) (s : S) (log : list Call) :
  fold_for l s (fun s x => bind (call (c x) (ans x)) (fun y => ret (h s x y))) log
  = (Next (fold_left (fun s x => h s x (ans x)) l s), (log ++ map c l)%list).
Proof.
  revert s log. induction l as [ | x rest IH]; intros s log; simpl.
  - unfold ret. rewrite app_nil_r. reflexivity.
  - rewrite (bind_next _ _ log (h s x (ans x)) (log ++ [c x])%list) by reflexivity.
    rewrite IH. rewrite <- app_assoc. reflexivity.
Qed.

Lemma planetDataOf_run (jd : Q) (log : list Call) :
  planetDataOf w rt jd log
  = (Next (planetDataAt w rt jd), (log ++ map (CalcUt jd) planets)%list).
Proof.
  exact (fold_for_call (CalcUt jd) (swe_calc_ut w jd)
           (fun s x y => Obj.set s (planetNames x) (planetEntry rt y)) planets [] log).
Qed.

Lemma housePos_loop (pd : Obj.t (Entry Q)) (cusps : list Q) (la : Q) log :
  for_each pd
    (fun '(planetName, p) =>
       bind (call (HousePos cusps la (longitude p))
                  (swe_house_pos w cusps la (longitude p)))
            (fun housePos =>
               ret (planetName ++ " en " ++ show (sign p) ++ " a " ++ degree p
                      ++ "° en Casa " ++ Text.dec (Num.Math_floor housePos)))) log
  = (Next (map (planetText w cusps la) pd), (log ++ housePosCalls pd cusps la)%list).
Proof.
  unfold housePosCalls.
  revert log. induction pd as [ | [name p] rest IH]; intros log; cbn [for_each map].
  - unfold ret. rewrite app_nil_r. reflexivity.
  - rewrite (bind_next _ _ log (name ++ " en " ++ show (sign p) ++ " a " ++ degree p
                      ++ "° en Casa " ++ Text.dec (Num.Math_floor (swe_house_pos w cusps la (longitude p)))) (log ++ [HousePos cusps la (longitude p)])%list) by reflexivity.
    rewrite (bind_next _ _ _ _ _ (IH _)).
    unfold ret. rewrite <- app_assoc. reflexivity.
Qed.

Lemma planetsPromptOf_run (pd : Obj.t (Entry Q)) (cusps : list Q) (la : Q) log :
  planetsPromptOf w pd cusps la log
  = (Next (planetsPromptText w pd cusps la), (log ++ housePosCalls pd cusps la)%list).
Proof.
  unfold planetsPromptOf. rewrite (bind_next _ _ _ _ _ (housePos_loop pd cusps la log)).
  reflexivity.
Qed.

Lemma sun_longitude (jd : Q) :
  Obj.get (planetDataAt w rt jd) "Sol" = Some (planetEntry rt (swe_calc_ut w jd SE_SUN)).
Proof. reflexivity. Qed.

Lemma moon_longitude (jd : Q) :
  Obj.get (planetDataAt w rt jd) "Luna" = Some (planetEntry rt (swe_calc_ut w jd SE_MOON)).
Proof. reflexivity. Qed.

Lemma astrologicalCalculation_run b la lo t tz off log :
  astrologicalCalculation w rt b la lo t tz off log
  = (Next (finalAstroDataOf w rt b la lo t tz off),
     (log ++ astroCalls w rt la lo t off)%list).
Proof.
  unfold astrologicalCalculation.
  erewrite bind_next by (unfold call; reflexivity).
  erewrite bind_next by (apply planetDataOf_run).
  erewrite bind_next by (unfold call; reflexivity).
  unfold longitudeOf. rewrite sun_longitude, moon_longitude.
  erewrite bind_next by (unfold ret; reflexivity).
  erewrite bind_next by (unfold ret; reflexivity).
  erewrite bind_next by (apply planetsPromptOf_run).
  unfold ret, finalAstroDataOf, astroCalls, julianDayOf. cbv zeta.
  f_equal. repeat rewrite <- app_assoc. reflexivity.
Qed.
End RunFacts.

(** ** Every request ends at one of the exits *)

Section ExitFacts.

Variable w : Collaborators.
Variable rt : Runtime.
Variable cfg : Config.
Variable req : Request.

Lemma composed_run {A} (text : option string) (k : string -> Async A) (log : list Call) :
  bind (composed rt text) k log
  = match text with
    | Some s => k s log
    | None => (Thrown (notPrimitive rt), log)
    end.
Proof. destruct text; reflexivity. Qed.

Lemma tryBlock_exit :
  served cfg req ->
  forall r log,
    match tryBlock w rt (body req) [] with
    | (Next impossible, _) => match impossible with end
    | (Sent r, log) => (r, log)
    | (Thrown message, log) => (internalError message, log)
    end = (r, log) ->
    Exit w rt cfg req r log.
Proof.
  intros Hs r log. unfold tryBlock.
  destruct (incomplete (body req)) eqn:Hinc.
  { unfold respond. intros E. injection E as <- <-. now apply ExitIncomplete. }
  unfold bind at 1. unfold geocode. rewrite composed_run.
  fold (placeText rt req).
  destruct (placeText rt req) as [place | ] eqn:Hplace.
  2:{ intros E. injection E as <- <-. now apply ExitPlaceText. }
  unfold bind at 1.
  destruct (encodeURIComponent rt place) as [query | ] eqn:Hquery.
  2:{ unfold throw. intros E. injection E as <- <-. now apply (ExitPlaceQuery w rt cfg req place). }
  assert (Hplaced : placed rt cfg req place) by (unfold placed; eauto).
  unfold ret at 1. unfold try_catch. unfold bind at 1. unfold call at 1.
  destruct (nominatim w place) as [m | st tx | [ | p others]] eqn:Hgeo.
  { unfold throw, respond. intros E. injection E as <- <-.
    apply ExitGeocoding; auto. }
  { unfold throw, respond. intros E. injection E as <- <-.
    apply ExitGeocoding; [exact Hplaced | right; eauto]. }
  { unfold respond. intros E. injection E as <- <-.
    apply ExitPlace; eauto. }
  assert (Hfound : found w rt cfg req place p) by (unfold found; eauto).
  unfold ret at 1. cbv beta iota. change ([] ++ [Geocode place])%list with [Geocode place].
  rewrite composed_run.
  destruct (localDateTimeString rt (body req)) as [text | ] eqn:Htext.
  2:{ intros E. injection E as <- <-. now apply (ExitDateText w rt cfg req place p). }
  destruct (Date_new rt text) as [t | ] eqn:Hdate.
  2:{ unfold respond. intros E. injection E as <- <-.
      now apply (ExitDate w rt cfg req place p text). }
  assert (Hloc : located w rt cfg req place p t) by (unfold located; eauto).
  unfold bind at 1. unfold timezone, try_catch. unfold bind at 1. unfold call at 1.
  destruct (google_timezone w (lat p) (lon p) (timestampOf t)) as [m | st tx | d] eqn:Htz.
  { unfold throw, respond. intros E. injection E as <- <-.
    apply (ExitTimeZone w rt cfg req place p t); auto. }
  { unfold throw, respond. intros E. injection E as <- <-.
    apply (ExitTimeZone w rt cfg req place p t); [exact Hloc | right; eauto]. }
  destruct (String.eqb_spec (tz_status d) "OK") as [Hok | Hko].
  2:{ unfold respond. intros E. injection E as <- <-.
      apply (ExitZone w rt cfg req place p t d); eauto. }
  assert (Hres : resolved w rt cfg req place p t d) by (unfold resolved; auto).
  unfold ret at 1. cbv beta iota.
  unfold bind at 1. rewrite astrologicalCalculation_run.
  rewrite composed_run.
  fold (totalOffset d). fold (chartData w rt req p t d). fold (chartPrompt w rt req p t d).
  change (([Geocode place] ++ [TimeZone (lat p) (lon p) (timestampOf t)])
            ++ astroCalls w rt (lat p) (lon p) t (totalOffset d))%list
    with (calculationCalls w rt place p t d).
  destruct (chartPrompt w rt req p t d) as [prompt | ] eqn:Hprompt.
  2:{ intros E. injection E as <- <-. now apply ExitPromptText. }
  assert (Hpr : prompted w rt cfg req place p t d prompt) by (unfold prompted; auto).
  unfold bind at 1. unfold call at 1. fold (chartCalls w rt place p t d prompt).
  destruct (gemini w prompt) as [result | m] eqn:Hgen.
  - destruct (chartTextOf result) as [chartText | name] eqn:Hread.
    + unfold respond. intros E. injection E as <- <-. eapply ExitChart; eauto.
    + unfold throw. intros E. injection E as <- <-. eapply ExitAnswer; eauto.
  - unfold throw. intros E. injection E as <- <-. now apply ExitGeneration.
Qed.

End ExitFacts.

Lemma generateAstralChart_exit (w : Collaborators) (rt : Runtime) (cfg : Config)
      (req : Request) :
  Exit w rt cfg req (fst (generateAstralChart w rt cfg req))
       (snd (generateAstralChart w rt cfg req)).
Proof.
  unfold generateAstralChart.
  destruct (String.eqb_spec (method req) "OPTIONS") as [Hopt | Hopt].
  { now apply ExitPreflight. }
  destruct (String.eqb_spec (method req) "POST") as [Hpost | Hpost]; cbn [negb].
  2:{ now apply ExitMethod. }
  destruct (key_set (gemini_api_key cfg)) eqn:Hg; cbn [negb].
  2:{ pose proof (ExitConfig w rt cfg req Hpost) as H. rewrite Hg in H. now apply H. }
  destruct (key_set (google_maps_api_key cfg)) eqn:Hm; cbn [negb].
  2:{ pose proof (ExitConfig w rt cfg req Hpost) as H. rewrite Hg, Hm in H. now apply H. }
  apply tryBlock_exit.
  - unfold served. auto.
  - destruct (tryBlock w rt (body req) []) as [[impossible | r | m] log];
      [destruct impossible | reflexivity | reflexivity].
Qed.

(** Unpacks the premises of an exit and closes the cases they exclude. *)
Ltac unpack_exit :=
  repeat match goal with
         | H : prompted _ _ _ _ _ _ _ _ _ |- _ => destruct H as (? & ?)
         | H : resolved _ _ _ _ _ _ _ _ |- _ => destruct H as (? & ? & ?)
         | H : located _ _ _ _ _ _ _ |- _ => destruct H as (? & (? & ? & ?))
         | H : found _ _ _ _ _ _ |- _ => destruct H as (? & (? & ?))
         | H : placed _ _ _ _ |- _ => destruct H as (? & ? & ? & ?)
         | H : served _ _ |- _ => destruct H as (? & ? & ?)
         | H : _ /\ _ |- _ => destruct H
         | H : _ \/ _ |- _ => destruct H
         | H : exists _, _ |- _ => destruct H
         end.

(** Two readings of one step of the request are the same reading. *)
Ltac merge_steps :=
  repeat match goal with
         | H1 : ?a = ?u, H2 : ?a = ?v |- _ =>
             rewrite H1 in H2;
             first [ discriminate H2
                   | injection H2; clear H2; intros; subst
                   | clear H2 ]
         end.

Ltac impossible_exit :=
  unpack_exit;
  try congruence;
  try (merge_steps; congruence);
  try match goal with
      | H : key_set ?a && key_set ?b = false, Ha : key_set ?a = true,
        Hb : key_set ?b = true |- _ => rewrite Ha, Hb in H; discriminate H
      end.

(** Establishes the steps of a concrete request by running them. *)
Ltac run_steps :=
  try unfold prompted; try unfold resolved; try unfold located; try unfold found;
  try unfold placed; try unfold served;
  repeat match goal with
         | |- _ /\ _ => split
         | |- exists _, _ => eexists
         end;
  try reflexivity; try eassumption.

(** The steps of a request determine one another: the same request has one
    place text, one first match, one date and one time-zone answer. *)
Lemma found_unique (w : Collaborators) (rt : Runtime) (cfg : Config) (req : Request)
      (place1 place2 : string) (p1 p2 : Place) :
  found w rt cfg req place1 p1 -> found w rt cfg req place2 p2 ->
  place1 = place2 /\ p1 = p2.
Proof.
  intros ((_ & _ & H1 & _) & (o1 & G1)) ((_ & _ & H2 & _) & (o2 & G2)).
  assert (E : place1 = place2) by congruence. subst place2.
  split; [reflexivity | congruence].
Qed.

Lemma located_unique (w : Collaborators) (rt : Runtime) (cfg : Config) (req : Request)
      (place1 place2 : string) (p1 p2 : Place) (t1 t2 : Z) :
  located w rt cfg req place1 p1 t1 -> located w rt cfg req place2 p2 t2 ->
  place1 = place2 /\ p1 = p2 /\ t1 = t2.
Proof.
  intros (F1 & (x1 & T1 & D1)) (F2 & (x2 & T2 & D2)).
  destruct (found_unique _ _ _ _ _ _ _ _ F1 F2) as [-> ->].
  repeat split. congruence.
Qed.

Lemma resolved_unique (w : Collaborators) (rt : Runtime) (cfg : Config) (req : Request)
      (place1 place2 : string) (p1 p2 : Place) (t1 t2 : Z) (d1 d2 : TimeZoneData) :
  resolved w rt cfg req place1 p1 t1 d1 -> resolved w rt cfg req place2 p2 t2 d2 ->
  place1 = place2 /\ p1 = p2 /\ t1 = t2 /\ d1 = d2.
Proof.
  intros (L1 & Z1 & _) (L2 & Z2 & _).
  destruct (located_unique _ _ _ _ _ _ _ _ _ _ L1 L2) as (-> & -> & ->).
  repeat split. congruence.
Qed.

Lemma prompted_unique (w : Collaborators) (rt : Runtime) (cfg : Config) (req : Request)
      (place1 place2 : string) (p1 p2 : Place) (t1 t2 : Z) (d1 d2 : TimeZoneData)
      (prompt1 prompt2 : string) :
  prompted w rt cfg req place1 p1 t1 d1 prompt1 ->
  prompted w rt cfg req place2 p2 t2 d2 prompt2 ->
  place1 = place2 /\ p1 = p2 /\ t1 = t2 /\ d1 = d2 /\ prompt1 = prompt2.
Proof.
  intros (R1 & P1) (R2 & P2).
  destruct (resolved_unique _ _ _ _ _ _ _ _ _ _ _ _ R1 R2) as (-> & -> & -> & ->).
  repeat split. congruence.
Qed.

(** ** The calls of a chart *)

Lemma astroCalls_In (w : Collaborators) (rt : Runtime) (la lo : Q) (t : Z) (off : Q)
      (c : Call) :
  In c (astroCalls w rt la lo t off) ->
  let jd := julianDayOf w rt t off in
  let cusps := house (swe_houses w jd la lo) in
  c = Julday (getFullYear rt t) (getMonth rt t + 1) (getDate rt t) (juldayHour rt t off)
  \/ (exists planet, c = CalcUt jd planet)
  \/ c = Houses jd la lo
  \/ (exists e, In e (planetDataAt w rt jd) /\ c = HousePos cusps la (longitude (snd e))).
Proof.
  unfold astroCalls. cbv zeta. intros [Hc | Hc]; [auto | ].
  apply in_app_or in Hc. destruct Hc as [Hc | [Hc | Hc]].
  - apply in_map_iff in Hc. destruct Hc as (planet & <- & _). eauto.
  - auto.
  - unfold housePosCalls in Hc. apply in_map_iff in Hc.
    destruct Hc as (e & <- & He). right. right. right. eauto.
Qed.

Lemma astroCalls_no_Generate (w : Collaborators) (rt : Runtime) (la lo : Q) (t : Z)
      (off : Q) (prompt : string) :
  ~ In (Generate prompt) (astroCalls w rt la lo t off).
Proof.
  intros H. apply astroCalls_In in H. cbv zeta in H.
  destruct H as [H | [[planet H] | [H | (e & _ & H)]]]; discriminate H.
Qed.

Lemma astroCalls_no_TimeZone (w : Collaborators) (rt : Runtime) (la lo : Q) (t : Z)
      (off : Q) (la' lo' : Q) (ts : Z) :
  ~ In (TimeZone la' lo' ts) (astroCalls w rt la lo t off).
Proof.
  intros H. apply astroCalls_In in H. cbv zeta in H.
  destruct H as [H | [[planet H] | [H | (e & _ & H)]]]; discriminate H.
Qed.

Lemma astroCalls_length (w : Collaborators) (rt : Runtime) (la lo : Q) (t : Z) (off : Q) :
  length (astroCalls w rt la lo t off) = 22%nat.
Proof. reflexivity. Qed.

Lemma calculationCalls_length (w : Collaborators) (rt : Runtime) (place : string)
      (p : Place) (t : Z) (d : TimeZoneData) :
  length (calculationCalls w rt place p t d) = 24%nat.
Proof. reflexivity. Qed.

Lemma chartCalls_length (w : Collaborators) (rt : Runtime) (place : string) (p : Place)
      (t : Z) (d : TimeZoneData) (prompt : string) :
  length (chartCalls w rt place p t d prompt) = 25%nat.
Proof. reflexivity. Qed.

(** The calls before the narrative call, one by one. *)
Lemma calculationCalls_In (w : Collaborators) (rt : Runtime) (place : string) (p : Place)
      (t : Z) (d : TimeZoneData) (c : Call) :
  In c (calculationCalls w rt place p t d) ->
  c = Geocode place \/ c = timeZoneCall p t
  \/ In c (astroCalls w rt (lat p) (lon p) t (totalOffset d)).
Proof. intros [H | [H | H]]; auto. Qed.

Lemma chartCalls_In (w : Collaborators) (rt : Runtime) (place : string) (p : Place)
      (t : Z) (d : TimeZoneData) (prompt : string) (c : Call) :
  In c (chartCalls w rt place p t d prompt) ->
  c = Geocode place \/ c = timeZoneCall p t
  \/ In c (astroCalls w rt (lat p) (lon p) t (totalOffset d))
  \/ c = Generate prompt.
Proof.
  unfold chartCalls. intros H. apply in_app_or in H. destruct H as [H | [H | []]].
  - apply calculationCalls_In in H. tauto.
  - auto.
Qed.

(** A chart text is sent at one exit only. *)
Lemma chart_sent (w : Collaborators) (rt : Runtime) (cfg : Config) (req : Request)
      (chartText : string) :
  payload (fst (generateAstralChart w rt cfg req)) = ChartText chartText ->
  exists place p t d prompt result,
    prompted w rt cfg req place p t d prompt
    /\ gemini w prompt = GenResult result
    /\ chartTextOf result = inl chartText
    /\ generateAstralChart w rt cfg req
       = ({| status := 200; payload := ChartText chartText |},
          chartCalls w rt place p t d prompt).
Proof.
  intros Hp.
  pose proof (generateAstralChart_exit w rt cfg req) as Hexit.
  destruct (generateAstralChart w rt cfg req) as [r log]. cbn [fst snd] in Hexit, Hp.
  destruct Hexit; cbn [payload internalError] in Hp; try discriminate Hp.
  injection Hp as ->. eexists _, _, _, _, _, _. eauto.
Qed.

(** ** The chart objects *)

(** [planetData] holds the ten bodies in the order of [planets], each with
    the entry of the longitude the ephemeris gave for it. *)
Lemma planetDataAt_entries (w : Collaborators) (rt : Runtime) (jd : Q) :
  planetDataAt w rt jd
  = map (fun planet => (planetNames planet, planetEntry rt (swe_calc_ut w jd planet)))
        planets.
Proof. reflexivity. Qed.

(** [housesData] holds the houses 1 to 12 in order, each with the entry of
    the cusp at its index in the array of [swe_houses]. *)
Lemma housesDataOf_entries (rt : Runtime) (houseCusps : list Q) :
  housesDataOf rt houseCusps
  = map (fun i => ("Casa " ++ Text.dec (Z.of_nat i), houseEntry rt houseCusps i))
        (seq 1 12).
Proof. reflexivity. Qed.

Lemma timestampOf_div (t : Z) : timestampOf t = t / 1000.
Proof. unfold timestampOf, Num.Math_floor. symmetry. apply (Zdiv_Qdiv t 1000). Qed.

(** The calls of a request, one by one. *)
Lemma calls_of_chart (w : Collaborators) (rt : Runtime) (cfg : Config) (req : Request)
      (c : Call) :
  In c (snd (generateAstralChart w rt cfg req)) ->
  (exists place, placed rt cfg req place /\ c = Geocode place)
  \/ (exists place p t, located w rt cfg req place p t /\ c = timeZoneCall p t)
  \/ (exists place p t d,
        resolved w rt cfg req place p t d
        /\ In c (astroCalls w rt (lat p) (lon p) t (totalOffset d)))
  \/ (exists place p t d prompt,
        prompted w rt cfg req place p t d prompt /\ c = Generate prompt).
Proof.
  pose proof (generateAstralChart_exit w rt cfg req) as Hexit.
  destruct (generateAstralChart w rt cfg req) as [r log]. cbn [fst snd] in *.
  assert (Hcalc : forall place p t d,
             resolved w rt cfg req place p t d ->
             In c (calculationCalls w rt place p t d) ->
             (exists place, placed rt cfg req place /\ c = Geocode place)
             \/ (exists place p t, located w rt cfg req place p t /\ c = timeZoneCall p t)
             \/ (exists place p t d,
                   resolved w rt cfg req place p t d
                   /\ In c (astroCalls w rt (lat p) (lon p) t (totalOffset d)))
             \/ (exists place p t d prompt,
                   prompted w rt cfg req place p t d prompt /\ c = Generate prompt)).
  { intros place p t d Hres H. apply calculationCalls_In in H.
    destruct H as [H | [H | H]].
    - left. exists place. split; [apply Hres | exact H].
    - right. left. exists place, p, t. split; [apply Hres | exact H].
    - right. right. left. exists place, p, t, d. auto. }
  assert (Hchart : forall place p t d prompt,
             prompted w rt cfg req place p t d prompt ->
             In c (chartCalls w rt place p t d prompt) ->
             (exists place, placed rt cfg req place /\ c = Geocode place)
             \/ (exists place p t, located w rt cfg req place p t /\ c = timeZoneCall p t)
             \/ (exists place p t d,
                   resolved w rt cfg req place p t d
                   /\ In c (astroCalls w rt (lat p) (lon p) t (totalOffset d)))
             \/ (exists place p t d prompt,
                   prompted w rt cfg req place p t d prompt /\ c = Generate prompt)).
  { intros place p t d prompt Hpr H. unfold chartCalls in H.
    apply in_app_or in H. destruct H as [H | [H | []]].
    - apply (Hcalc place p t d); [apply Hpr | exact H].
    - right. right. right. exists place, p, t, d, prompt. auto. }
  destruct Hexit; intros Hin; eauto; cbn [In] in Hin;
    try contradiction;
    try (destruct Hin as [Hin | Hin];
         [left; eexists; split; [ | symmetry; exact Hin] | ]);
    try (destruct Hin as [Hin | Hin];
         [right; left; eexists _, _, _; split; [ | symmetry; exact Hin] | ]);
    try contradiction;
    try solve [eauto].
  all: match goal with
       | H : found _ _ _ _ _ _ |- placed _ _ _ _ => exact (proj1 H)
       | H : located _ _ _ _ _ _ _ |- placed _ _ _ _ => exact (proj1 (proj1 H))
       end.
Qed.

(** The outcome of a request whose prompt was composed: the 25 calls of a
    chart, and the response that the answer of the narrative generator
    decides. *)
Lemma run_prompted (w : Collaborators) (rt : Runtime) (cfg : Config) (req : Request)
      (place : string) (p : Place) (t : Z) (d : TimeZoneData) (prompt : string) :
  prompted w rt cfg req place p t d prompt ->
  generateAstralChart w rt cfg req
  = (match gemini w prompt with
     | GenRejected cause => internalError cause
     | GenResult result =>
         match chartTextOf result with
         | inl chartText => {| status := 200; payload := ChartText chartText |}
         | inr name => internalError (cannotRead rt name)
         end
     end,
     chartCalls w rt place p t d prompt).
Proof.
  intros Hpr.
  pose proof (generateAstralChart_exit w rt cfg req) as Hexit.
  destruct (generateAstralChart w rt cfg req) as [r log]. cbn [fst snd] in Hexit.
  destruct Hexit;
    try solve [exfalso; impossible_exit];
    match goal with
    | H : prompted _ _ _ _ _ _ _ _ _ |- _ =>
        destruct (prompted_unique _ _ _ _ _ _ _ _ _ _ _ _ _ _ H Hpr)
          as (-> & -> & -> & -> & ->)
    end;
    repeat match goal with
           | H : gemini _ _ = _ |- _ => rewrite H
           | H : chartTextOf _ = _ |- _ => rewrite H
           end;
    reflexivity.
Qed.

(** The outcome of a request whose time zone was resolved and whose prompt
    cannot be composed. *)
Lemma run_unprompted (w : Collaborators) (rt : Runtime) (cfg : Config) (req : Request)
      (place : string) (p : Place) (t : Z) (d : TimeZoneData) :
  resolved w rt cfg req place p t d ->
  chartPrompt w rt req p t d = None ->
  generateAstralChart w rt cfg req
  = (internalError (notPrimitive rt), calculationCalls w rt place p t d).
Proof.
  intros Hres Hnone.
  pose proof (generateAstralChart_exit w rt cfg req) as Hexit.
  destruct (generateAstralChart w rt cfg req) as [r log]. cbn [fst snd] in Hexit.
  destruct Hexit;
    try solve [exfalso; impossible_exit];
    try match goal with
        | H : prompted _ _ _ _ _ _ _ _ _ |- _ => destruct H as (H & ?)
        end;
    match goal with
    | H : resolved _ _ _ _ _ _ _ _ |- _ =>
        destruct (resolved_unique _ _ _ _ _ _ _ _ _ _ _ _ H Hres) as (-> & -> & -> & ->)
    end;
    try congruence; reflexivity.
Qed.

(** The calls of a request whose time zone was resolved start with the 24
    calls of the calculation; the narrative call follows when the prompt can
    be composed. *)
Lemma run_resolved (w : Collaborators) (rt : Runtime) (cfg : Config) (req : Request)
      (place : string) (p : Place) (t : Z) (d : TimeZoneData) :
  resolved w rt cfg req place p t d ->
  snd (generateAstralChart w rt cfg req)
  = match chartPrompt w rt req p t d with
    | Some prompt => chartCalls w rt place p t d prompt
    | None => calculationCalls w rt place p t d
    end.
Proof.
  intros Hres. destruct (chartPrompt w rt req p t d) as [prompt | ] eqn:Hprompt.
  - rewrite (run_prompted w rt cfg req place p t d prompt); [reflexivity | ].
    split; assumption.
  - rewrite (run_unprompted w rt cfg req place p t d Hres Hprompt). reflexivity.
Qed.

(** ** Houses *)

(** C2, as stated, fails.  With cusps every 30 degrees from 15 degrees, a
    body at 15.5 degrees lies between the cusp of house 1 (15) and the cusp of
    house 2 (45): the circular interval search puts it in house 1 and in no
    other house.  The handler prints the floor of what the collaborator's
    house-position function returns, here 12.97 (a position that function
    may well give to a body still above the horizon): house 12. *)
Lemma C2_counterexample :
  let w := Sample.world [Sample.paris] (31 # 2) (1297 # 100) in
  let rt := Ecma.runtime 0 in
  let req := Sample.request "1990-03-21" "12:00" "Paris, France" (JStr "es") in
  Spec.housesOf Sample.equalHouses (31 # 2) = [1%nat]
  /\ exists p t d prompt,
       snd (generateAstralChart w rt Sample.config req)
       = chartCalls w rt "Paris, France" p t d prompt
       /\ house (swe_houses w (julianDayOf w rt t (totalOffset d)) (lat p) (lon p))
          = Sample.equalHouses
       /\ Final.planetsPositions (chartData w rt req p t d)
          = "Sol en Aries a 15.50° en Casa 12, Luna en Aries a 15.50° en Casa 12, Mercurio en Aries a 15.50° en Casa 12, Venus en Aries a 15.50° en Casa 12, Marte en Aries a 15.50° en Casa 12, Júpiter en Aries a 15.50° en Casa 12, Saturno en Aries a 15.50° en Casa 12, Urano en Aries a 15.50° en Casa 12, Neptuno en Aries a 15.50° en Casa 12, Plutón en Aries a 15.50° en Casa 12".
Proof.
  split; [reflexivity | ].
  exists Sample.paris, 638020800000, Faults.parisZone.
  eexists. split; [ | split]; reflexivity.
Qed.

(** C2, amended.  Whenever a chart text is returned, the house printed for
    each of the ten bodies is the floor of the answer of the collaborator's
    [swe_house_pos] for the cusp array of [swe_houses], the latitude of the
    place and the longitude of the body; the handler makes no interval search
    of its own.  The cusp array given to [swe_house_pos] is the one whose
    entries 1 to 12 are printed as the cusps of the chart. *)
Theorem C2_house_is_floor_of_house_position (w : Collaborators) (rt : Runtime)
        (cfg : Config) (req : Request) (chartText : string) :
  payload (fst (generateAstralChart w rt cfg req)) = ChartText chartText ->
  exists (p : Place) (jd : Q) (d : Final.t) (prompt : string),
    let cusps := house (swe_houses w jd (lat p) (lon p)) in
    textPrompt rt d (language (body req)) = Some prompt
    /\ In (Generate prompt) (snd (generateAstralChart w rt cfg req))
    /\ Final.planetsPositions d
       = Text.join ", "
           (map (fun planet =>
                   let e := planetEntry rt (swe_calc_ut w jd planet) in
                   planetNames planet ++ " en " ++ show (sign e) ++ " a " ++ degree e
                     ++ "° en Casa "
                     ++ Text.dec (Num.Math_floor
                                    (swe_house_pos w cusps (lat p) (longitude e))))
                planets)
    /\ Final.housesCusps d
       = Text.join ", "
           (map (fun i =>
                   let h := houseEntry rt cusps i in
                   "Casa " ++ Text.dec (Z.of_nat i) ++ " en " ++ show (sign h)
                     ++ " a " ++ degree h ++ "°")
                (seq 1 12))
    /\ (forall c la lo,
           In (HousePos c la lo) (snd (generateAstralChart w rt cfg req)) ->
           c = cusps /\ la = lat p).
Proof.
  intros Hp.
  destruct (chart_sent w rt cfg req chartText Hp)
    as (place & p & t & d & prompt & result & Hpr & Hgen & Hread & Hrun).
  exists p, (julianDayOf w rt t (totalOffset d)), (chartData w rt req p t d), prompt.
  cbv zeta. rewrite Hrun. cbn [snd]. split; [apply Hpr | split; [ | split; [ | split]]].
  - unfold chartCalls. apply in_or_app. right. left. reflexivity.
  - reflexivity.
  - reflexivity.
  - intros c la lo H. apply chartCalls_In in H.
    destruct H as [H | [H | [H | H]]]; try discriminate H.
    apply astroCalls_In in H. cbv zeta in H.
    destruct H as [H | [[planet H] | [H | (e & _ & H)]]]; try discriminate H.
    injection H as -> -> _. auto.
Qed.

Lemma C2_witness :
  exists (p : Place) (jd : Q) (d : Final.t) (prompt : string),
    let w := Sample.world [Sample.paris] (31 # 2) (1297 # 100) in
    let rt := Ecma.runtime 0 in
    let req := Sample.request "1990-03-21" "12:00" "Paris, France" (JStr "es") in
    let cusps := house (swe_houses w jd (lat p) (lon p)) in
    textPrompt rt d (language (body req)) = Some prompt
    /\ In (Generate prompt) (snd (generateAstralChart w rt Sample.config req))
    /\ Final.planetsPositions d
       = Text.join ", "
           (map (fun planet =>
                   let e := planetEntry rt (swe_calc_ut w jd planet) in
                   planetNames planet ++ " en " ++ show (sign e) ++ " a " ++ degree e
                     ++ "° en Casa "
                     ++ Text.dec (Num.Math_floor
                                    (swe_house_pos w cusps (lat p) (longitude e))))
                planets)
    /\ Final.housesCusps d
       = Text.join ", "
           (map (fun i =>
                   let h := houseEntry rt cusps i in
                   "Casa " ++ Text.dec (Z.of_nat i) ++ " en " ++ show (sign h)
                     ++ " a " ++ degree h ++ "°")
                (seq 1 12))
    /\ (forall c la lo,
           In (HousePos c la lo) (snd (generateAstralChart w rt Sample.config req)) ->
           c = cusps /\ la = lat p).
Proof.
  apply (C2_house_is_floor_of_house_position
           (Sample.world [Sample.paris] (31 # 2) (1297 # 100)) (Ecma.runtime 0)
           Sample.config
           (Sample.request "1990-03-21" "12:00" "Paris, France" (JStr "es")) "...").
  reflexivity.
Defined.

(** ** The hour of the day number and the time-zone lookup *)

(** The hour handed to [swe_julday] is the whole hour of the local clock
    plus the total offset in hours; the other arguments are the local date. *)
Lemma julday_arguments (w : Collaborators) (rt : Runtime) (cfg : Config) (req : Request)
      (y m d : Z) (h : Q) :
  In (Julday y m d h) (snd (generateAstralChart w rt cfg req)) ->
  exists place p t data,
    resolved w rt cfg req place p t data
    /\ y = getFullYear rt t /\ m = getMonth rt t + 1 /\ d = getDate rt t
    /\ h = (inject_Z (getHours rt t) + totalOffset data / 3600)%Q.
Proof.
  intros Hin. apply calls_of_chart in Hin.
  destruct Hin as [(place & _ & H) | [(place & p & t & _ & H)
                   | [(place & p & t & data & Hres & H)
                     | (place & p & t & data & prompt & _ & H)]]];
    try discriminate H.
  apply astroCalls_In in H. cbv zeta in H.
  destruct H as [H | [[planet H] | [H | (e & _ & H)]]]; try discriminate H.
  injection H as -> -> -> ->. exists place, p, t, data. unfold juldayHour. auto.
Qed.

Lemma number_lower (l : list ascii) (acc v : Z) :
  Text.number l acc = Some v -> 0 <= acc -> 0 <= v.
Proof.
  revert acc. induction l as [ | c l IH]; intros acc; cbn [Text.number].
  - intros E. injection E as <-. auto.
  - unfold Text.digit.
    destruct ((48 <=? Z.of_N (N_of_ascii c)) && (Z.of_N (N_of_ascii c) <=? 57)) eqn:E;
      [ | discriminate].
    intros Hv Hacc. apply (IH _ Hv).
    apply andb_prop in E. destruct E as [E1 E2]. lia.
Qed.

(** In the runtime of the examples, the hour read back from a date is the
    hour field of the text: its minutes are not part of it. *)
Lemma Ecma_getHours (tza : Z) (s : string) (t y m d h n sec : Z) :
  Ecma.fields s = Some (y, m, d, h, n, sec) ->
  Ecma.parse tza s = Some t ->
  h <= 23 ->
  getHours (Ecma.runtime tza) t = h.
Proof.
  intros Hf Hp Hh. unfold Ecma.parse in Hp. rewrite Hf in Hp.
  destruct (Ecma.inRange y m d h n sec) eqn:Hr; [ | discriminate].
  unfold Ecma.TimeClip in Hp.
  destruct (Z.abs _ <=? 8640000000000000); [ | discriminate].
  injection Hp as <-.
  assert (H0 : 0 <= h /\ 0 <= n /\ 0 <= sec).
  { unfold Ecma.fields in Hf.
    destruct (Nat.eqb _ _ && _ && _ && _ && _ && _); [ | discriminate Hf].
    destruct (Ecma.field s 0 4); [ | discriminate Hf].
    destruct (Ecma.field s 5 2); [ | discriminate Hf].
    destruct (Ecma.field s 8 2); [ | discriminate Hf].
    destruct (Ecma.field s 11 2) eqn:Eh; [ | discriminate Hf].
    destruct (Ecma.field s 14 2) eqn:En; [ | discriminate Hf].
    destruct (Ecma.field s 17 2) eqn:Es; [ | discriminate Hf].
    unfold Ecma.field in Eh, En, Es.
    injection Hf as <- <- <- <- <- <-.
    repeat split; eapply number_lower; eauto; lia. }
  unfold Ecma.inRange in Hr.
  assert (Hns : n <= 59 /\ sec <= 59).
  { destruct (Z.leb_spec h 23), (Z.leb_spec n 59), (Z.leb_spec sec 59),
      (Z.eqb_spec h 24); try lia;
      rewrite ?andb_false_r, ?andb_true_r, ?orb_false_r in Hr; cbn in Hr;
      try discriminate Hr; lia. }
  cbn [getHours Ecma.runtime]. unfold Ecma.HourFromTime, Ecma.MakeDate, Ecma.MakeTime,
    Ecma.msPerDay, Ecma.msPerHour, Ecma.msPerMinute, Ecma.msPerSecond.
  set (day := Ecma.MakeDay y (m - 1) d).
  replace (day * 86400000 + (h * 3600000 + n * 60000 + sec * 1000 + 0) - tza + tza)
    with ((n * 60000 + sec * 1000) + (day * 24 + h) * 3600000) by lia.
  rewrite Z.div_add by lia.
  rewrite (Z.div_small (n * 60000 + sec * 1000)) by lia.
  cbn [Z.add].
  replace (day * 24 + h) with (h + day * 24) by lia.
  rewrite Z.mod_add by lia. apply Z.mod_small. lia.
Qed.

(** C3, on the code.  Born at 12:30 where the total offset is 3600 seconds:
    the hour handed to [swe_julday] is 13, the 12 of the clock plus one hour
    of offset, and not 12 + 30/60 + 3600/3600 = 13.5; the thirty minutes do
    not reach the day number. *)
Theorem C3_minutes_do_not_reach_julday :
  let run := generateAstralChart (Sample.world [Sample.paris] (1 # 2) (21 # 2))
               (Ecma.runtime 0) Sample.config
               (Sample.request "1990-03-21" "12:30" "Paris, France" (JStr "es")) in
  exists h,
    In (Julday 1990 3 21 h) (snd run)
    /\ (h == 13)%Q
    /\ ~ (h == 12 + 30 / 60 + 3600 / 3600)%Q.
Proof.
  exists (inject_Z 12 + (0 + 3600) / 3600)%Q. split; [ | split].
  - right. right. left. reflexivity.
  - reflexivity.
  - intros H. vm_compute in H. discriminate H.
Qed.

(** In the runtime of the examples the time value of a local date-time text
    is its reading at Greenwich less the offset of the server's zone. *)
Lemma Ecma_parse_zone (tza : Z) (s : string) (t t0 : Z) :
  Ecma.parse tza s = Some t -> Ecma.parse 0 s = Some t0 -> t = t0 - tza.
Proof.
  unfold Ecma.parse. destruct (Ecma.fields s) as [[[[[[y m] d] h] n] sec] | ];
    [ | discriminate].
  destruct (Ecma.inRange y m d h n sec); [ | discriminate].
  unfold Ecma.TimeClip.
  destruct (Z.abs _ <=? _); [ | discriminate].
  destruct (Z.abs _ <=? _); [ | discriminate].
  intros E1 E2. injection E1 as <-. injection E2 as <-. lia.
Qed.

(** C6, as stated, fails: the timestamp sent to the time-zone lookup is not
    determined by the birth data alone.  The same request for the same place
    sends 638022600 from a server at Greenwich and 638019000 from a server
    one hour east of it. *)
Lemma C6_counterexample :
  ~ (forall (tza1 tza2 ts1 ts2 : Z),
        let w := Sample.world [Sample.paris] (1 # 2) (21 # 2) in
        let req := Sample.request "1990-03-21" "12:30" "Paris, France" (JStr "es") in
        In (TimeZone 48 2 ts1)
           (snd (generateAstralChart w (Ecma.runtime tza1) Sample.config req)) ->
        In (TimeZone 48 2 ts2)
           (snd (generateAstralChart w (Ecma.runtime tza2) Sample.config req)) ->
        ts1 = ts2).
Proof.
  intros H. specialize (H 0 3600000 638022600 638019000). cbv zeta in H.
  assert (E : 638022600 = 638019000).
  { apply H; right; left; reflexivity. }
  discriminate E.
Qed.

(** C6, amended.  The total offset used is the sum of [dstOffset] and
    [rawOffset] of the time-zone answer: it is the offset in the hour handed
    to [swe_julday].  The timestamp of the lookup is the whole number of
    seconds of the time value that the runtime's [Date] gives to the text
    [birthDate T birthTime :00], a text without zone, which the runtime reads
    in the zone of the server; it depends on the request through its birth
    date and time only. *)
Theorem C6_offset_and_timestamp (w : Collaborators) (rt : Runtime) (cfg : Config)
        (req : Request) :
  let log := snd (generateAstralChart w rt cfg req) in
  (forall la lo ts,
      In (TimeZone la lo ts) log ->
      exists text t,
        localDateTimeString rt (body req) = Some text
        /\ Date_new rt text = Some t
        /\ ts = t / 1000)
  /\ (forall y m d h,
         In (Julday y m d h) log ->
         exists la lo t data,
           In (TimeZone la lo (t / 1000)) log
           /\ google_timezone w la lo (t / 1000) = JsonBody data
           /\ h = (inject_Z (getHours rt t) + (dstOffset data + rawOffset data) / 3600)%Q).
Proof.
  cbv zeta. split.
  - intros la lo ts Hin. apply calls_of_chart in Hin.
    destruct Hin as [(place & _ & H) | [(place & p & t & Hloc & H)
                     | [(place & p & t & data & Hres & H)
                       | (place & p & t & data & prompt & _ & H)]]];
      try discriminate H.
    + injection H as -> -> ->. destruct Hloc as (_ & text & Htext & Hdate).
      exists text, t. split; [exact Htext | split; [exact Hdate | apply timestampOf_div]].
    + destruct (astroCalls_no_TimeZone _ _ _ _ _ _ _ _ _ H).
  - intros y m d h Hin. pose proof Hin as Hj. apply julday_arguments in Hj.
    destruct Hj as (place & p & t & data & Hres & _ & _ & _ & ->).
    exists (lat p), (lon p), t, data. rewrite <- timestampOf_div.
    split; [ | split; [apply Hres | reflexivity]].
    rewrite (run_resolved w rt cfg req place p t data Hres).
    destruct (chartPrompt w rt req p t data); right; left; reflexivity.
Qed.

Lemma C6_witness :
  let w := Sample.world [Sample.paris] (1 # 2) (21 # 2) in
  let rt := Ecma.runtime 3600000 in
  let req := Sample.request "1990-03-21" "12:30" "Paris, France" (JStr "es") in
  In (TimeZone 48 2 638019000) (snd (generateAstralChart w rt Sample.config req))
  /\ exists text t,
       localDateTimeString rt (body req) = Some text
       /\ Date_new rt text = Some t
       /\ 638019000 = t / 1000.
Proof.
  assert (Hin : In (TimeZone 48 2 638019000)
                    (snd (generateAstralChart
                            (Sample.world [Sample.paris] (1 # 2) (21 # 2))
                            (Ecma.runtime 3600000) Sample.config
                            (Sample.request "1990-03-21" "12:30" "Paris, France"
                                            (JStr "es")))))
    by (right; left; reflexivity).
  split; [exact Hin | ].
  exact (proj1 (C6_offset_and_timestamp
                  (Sample.world [Sample.paris] (1 # 2) (21 # 2)) (Ecma.runtime 3600000)
                  Sample.config
                  (Sample.request "1990-03-21" "12:30" "Paris, France" (JStr "es")))
               48%Q 2%Q 638019000 Hin).
Defined.

(** ** Validation *)

Lemma incomplete_true (b : Body) :
  incomplete b = true <->
  truthy (birthDate b) = false \/ truthy (birthTime b) = false
  \/ truthy (birthPlace b) = false \/ truthy (userSex b) = false
  \/ truthy (language b) = false.
Proof.
  unfold incomplete.
  destruct (truthy (birthDate b)), (truthy (birthTime b)), (truthy (birthPlace b)),
    (truthy (userSex b)), (truthy (language b)); cbn; intuition congruence.
Qed.

Lemma incomplete_false (b : Body) :
  incomplete b = false <->
  truthy (birthDate b) = true /\ truthy (birthTime b) = true
  /\ truthy (birthPlace b) = true /\ truthy (userSex b) = true
  /\ truthy (language b) = true.
Proof.
  unfold incomplete.
  destruct (truthy (birthDate b)), (truthy (birthTime b)), (truthy (birthPlace b)),
    (truthy (userSex b)), (truthy (language b)); cbn; intuition congruence.
Qed.

(** A property that is absent, [null], [false], [0] or [""] is missing. *)
Lemma absent_is_missing : truthy JUndefined = false /\ truthy (JStr "") = false.
Proof. split; reflexivity. Qed.

(** C7.  A request that lacks any one of birthDate, birthTime, birthPlace,
    userSex, language makes the handler call no collaborator: the log of
    calls is empty.  When it is a POST request to a deployment whose two API
    keys are set, which is what the handler asks of a request before it
    reads its body, the response has status 400. *)
Theorem C7_missing_field_is_400 (w : Collaborators) (rt : Runtime) (cfg : Config)
        (req : Request) :
  truthy (birthDate (body req)) = false \/ truthy (birthTime (body req)) = false
  \/ truthy (birthPlace (body req)) = false \/ truthy (userSex (body req)) = false
  \/ truthy (language (body req)) = false ->
  snd (generateAstralChart w rt cfg req) = []
  /\ (served cfg req ->
      generateAstralChart w rt cfg req
      = ({| status := 400; payload := Message "Datos de nacimiento o sexo incompletos." |},
         [])).
Proof.
  intros Hmiss. apply incomplete_true in Hmiss.
  pose proof (generateAstralChart_exit w rt cfg req) as Hexit.
  destruct (generateAstralChart w rt cfg req) as [r log]. cbn [fst snd] in *.
  destruct Hexit; try solve [impossible_exit];
    (split; [reflexivity | intros Hs; try reflexivity; impossible_exit]).
Qed.

Lemma C7_witness :
  let run := generateAstralChart (Sample.world [Sample.paris] (1 # 2) (21 # 2))
               (Ecma.runtime 0) Sample.config
               (Sample.request "1990-03-21" "12:00" "Paris, France" JUndefined) in
  snd run = []
  /\ run = ({| status := 400; payload := Message "Datos de nacimiento o sexo incompletos." |},
            []).
Proof.
  cbv zeta.
  destruct (C7_missing_field_is_400
              (Sample.world [Sample.paris] (1 # 2) (21 # 2)) (Ecma.runtime 0) Sample.config
              (Sample.request "1990-03-21" "12:00" "Paris, France" JUndefined))
    as [Hlog Hstatus].
  - right. right. right. right. reflexivity.
  - split; [exact Hlog | apply Hstatus].
    unfold served. repeat split; reflexivity.
Defined.

(** ** The date of birth *)

(** The runtime of the examples reads a day of the month up to 31 in every
    month and runs on into the next month: the thirtieth of February 2023 is
    the second of March. *)
Lemma february_30_runs_on :
  let rt := Ecma.runtime 0 in
  exists t, Date_new rt "2023-02-30T12:00:00" = Some t
            /\ (getFullYear rt t, getMonth rt t + 1, getDate rt t) = (2023, 3, 2).
Proof. eexists. split; reflexivity. Qed.

(** C8, on the code.  The handler leaves it to the runtime's [Date] to
    refuse a date that does not exist, and [Date] does not refuse the
    thirtieth of February: it reads it as the second of March.  The request
    is answered 200, with a chart computed for the second of March, and not
    400.  A time of 25:30 on the same day is refused, with status 400 and
    the message of the guard. *)
Theorem C8_february_30_is_served :
  let rt := Ecma.runtime 0 in
  let request := fun time => Sample.request "1990-02-30" time "Paris, France" (JStr "es") in
  let run := generateAstralChart Faults.base rt Sample.config (request "12:30") in
  localDateTimeString rt (body (request "12:30")) = Some "1990-02-30T12:30:00"
  /\ Date_new rt "1990-02-30T12:30:00" = Some 636381000000
  /\ Date_new rt "1990-03-02T12:30:00" = Some 636381000000
  /\ fst run = {| status := 200; payload := ChartText "..." |}
  /\ (exists h, In (Julday 1990 3 2 h) (snd run) /\ (h == 13)%Q)
  /\ generateAstralChart Faults.base rt Sample.config (request "25:30")
     = ({| status := 400;
           payload := Message "Formato de fecha u hora de nacimiento inválido." |},
        [Geocode "Paris, France"]).
Proof.
  cbv zeta. split; [reflexivity | ]. split; [reflexivity | ]. split; [reflexivity | ].
  split; [reflexivity | ]. split; [ | reflexivity].
  eexists. split; [right; right; left; reflexivity | reflexivity].
Qed.

(** ** The prompt *)


(** A prompt is the lines of chart data followed by the fixed lines. *)
Lemma textPrompt_lines (rt : Runtime) (d : Final.t) (language : JsVal) (prompt : string) :
  textPrompt rt d language = Some prompt ->
  exists lines,
    promptData rt d = Some lines
    /\ prompt = Text.join Text.LF
                  (lines ++ promptInstructions ++ [promptLanguage language])%list.
Proof.
  unfold textPrompt. destruct (promptData rt d) as [lines | ]; [ | discriminate].
  intros E. injection E as <-. eauto.
Qed.



(** ** The language *)

Lemma append_assoc (a b c : string) : (a ++ b) ++ c = a ++ b ++ c.
Proof.
  induction a as [ | ch a IH]; [reflexivity | ].
  cbn [String.append]. rewrite IH. reflexivity.
Qed.

Lemma promptLanguage_choice (language : JsVal) :
  promptLanguage language
  = Contract.respondIn (if strict_eq_str language "es" then "Spanish" else "English").
Proof. reflexivity. Qed.

Lemma join_last (l : list string) (x last : string) :
  Text.join Text.LF ((x :: l) ++ [last])%list
  = Text.join Text.LF (x :: l) ++ Text.LF ++ last.
Proof.
  revert x. induction l as [ | y l IH]; intros x.
  - reflexivity.
  - change (Text.join Text.LF ((x :: y :: l) ++ [last])%list)
      with (x ++ Text.LF ++ Text.join Text.LF ((y :: l) ++ [last])%list).
    rewrite IH.
    change (Text.join Text.LF (x :: y :: l))
      with (x ++ Text.LF ++ Text.join Text.LF (y :: l)).
    rewrite !append_assoc. reflexivity.
Qed.

(** The last line of a prompt is its language directive. *)
Lemma textPrompt_ends (rt : Runtime) (d : Final.t) (language : JsVal) (prompt : string) :
  textPrompt rt d language = Some prompt ->
  exists head, prompt = head ++ Text.LF ++ promptLanguage language.
Proof.
  intros H. destruct (textPrompt_lines _ _ _ _ H) as (lines & Hdata & ->).
  rewrite app_assoc.
  destruct (lines ++ promptInstructions)%list as [ | x l] eqn:E.
  - apply app_eq_nil in E. destruct E as [_ E]. discriminate E.
  - rewrite join_last. eexists. reflexivity.
Qed.

(** The language of a request reaches the prompt through the test
    [language === 'es'] alone. *)
Lemma textPrompt_language (rt : Runtime) (d : Final.t) (l1 l2 : JsVal) :
  strict_eq_str l1 "es" = strict_eq_str l2 "es" ->
  textPrompt rt d l1 = textPrompt rt d l2.
Proof. intros H. unfold textPrompt, promptLanguage. rewrite H. reflexivity. Qed.

Lemma bind_ext {A B} (m1 m2 : Async A) (k1 k2 : A -> Async B) (log : list Call) :
  m1 log = m2 log ->
  (forall a log', k1 a log' = k2 a log') ->
  bind m1 k1 log = bind m2 k2 log.
Proof.
  intros Hm Hk. unfold bind. rewrite Hm.
  destruct (m2 log) as [[a | r | e] log']; [apply Hk | reflexivity | reflexivity].
Qed.

(** Two requests that differ in their language only, and agree on what the
    handler tests of it, are answered alike and make the same calls. *)
Lemma language_by_its_tests (w : Collaborators) (rt : Runtime) (cfg : Config)
      (req : Request) (l : JsVal) :
  truthy l = truthy (language (body req)) ->
  strict_eq_str l "es" = strict_eq_str (language (body req)) "es" ->
  generateAstralChart w rt cfg (Faults.withLanguage l req)
  = generateAstralChart w rt cfg req.
Proof.
  intros Ht Hs. unfold generateAstralChart.
  change (method (Faults.withLanguage l req)) with (method req).
  assert (E : forall log, tryBlock w rt (body (Faults.withLanguage l req)) log
                          = tryBlock w rt (body req) log); [ | rewrite E; reflexivity].
  intros log. unfold tryBlock, incomplete.
  cbn [Faults.withLanguage body birthDate birthTime birthPlace userSex language].
  rewrite Ht.
  destruct (negb (truthy (birthDate (body req))) || negb (truthy (birthTime (body req)))
            || negb (truthy (birthPlace (body req))) || negb (truthy (userSex (body req)))
            || negb (truthy (language (body req)))); [reflexivity | ].
  apply bind_ext; [reflexivity | ]. intros [latitude longitude] log1.
  apply bind_ext; [reflexivity | ]. intros text log2.
  destruct (Date_new rt text) as [localDate | ]; [ | reflexivity].
  apply bind_ext; [reflexivity | ]. intros [timezoneId rawOffsetSeconds] log3.
  apply bind_ext.
  - rewrite !astrologicalCalculation_run. reflexivity.
  - intros finalAstroData log4.
    rewrite (textPrompt_language rt finalAstroData l (language (body req)) Hs).
    reflexivity.
Qed.

(** C10.  A POST request in a configured deployment whose five fields are
    all present passes validation whatever its language is: the response is
    not the missing-data response, the geocoder is called as soon as the
    place has a text for the URL, and a status 400 can only come from a date that the
    runtime does not read.  When the language is anything but the string
    "es", the request is answered as the same request with the language "en"
    is, with the same calls; and once the place is found, the date read, the
    time zone resolved and the prompt composed, the narrative generator is
    called with that prompt, which ends with the directive to answer in
    English. *)
Theorem C10_language_is_not_validated (w : Collaborators) (rt : Runtime) (cfg : Config)
        (req : Request) :
  served cfg req ->
  truthy (birthDate (body req)) = true /\ truthy (birthTime (body req)) = true
  /\ truthy (birthPlace (body req)) = true /\ truthy (userSex (body req)) = true
  /\ truthy (language (body req)) = true ->
  strict_eq_str (language (body req)) "es" = false ->
  let r := fst (generateAstralChart w rt cfg req) in
  let log := snd (generateAstralChart w rt cfg req) in
  r <> {| status := 400; payload := Message "Datos de nacimiento o sexo incompletos." |}
  /\ (forall place,
         placeText rt req = Some place ->
         encodeURIComponent rt place <> None ->
         exists rest, log = Geocode place :: rest)
  /\ (status r = 400 ->
      exists text, localDateTimeString rt (body req) = Some text /\ Date_new rt text = None)
  /\ generateAstralChart w rt cfg req
     = generateAstralChart w rt cfg (Faults.withLanguage (JStr "en") req)
  /\ (forall place p t d prompt,
         prompted w rt cfg req place p t d prompt ->
         exists calls head,
           log = (calls ++ [Generate prompt])%list
           /\ prompt = head ++ Text.LF ++ Contract.respondIn "English").
Proof.
  intros Hs Hall Hlang. cbv zeta.
  split; [ | split; [ | split; [ | split]]].
  - apply incomplete_false in Hall.
    pose proof (generateAstralChart_exit w rt cfg req) as Hexit.
    destruct (generateAstralChart w rt cfg req) as [r log]. cbn [fst snd] in *.
    destruct Hexit; try discriminate; impossible_exit.
  - apply incomplete_false in Hall. intros place Hplace Hquery.
    pose proof (generateAstralChart_exit w rt cfg req) as Hexit.
    destruct (generateAstralChart w rt cfg req) as [r log]. cbn [fst snd] in *.
    destruct Hexit; try solve [impossible_exit]; unpack_exit;
      match goal with
      | H : placeText rt req = Some ?x |- _ =>
          assert (x = place) by congruence; subst x
      end; eexists; reflexivity.
  - apply incomplete_false in Hall.
    pose proof (generateAstralChart_exit w rt cfg req) as Hexit.
    destruct (generateAstralChart w rt cfg req) as [r log]. cbn [fst snd] in *.
    destruct Hexit; cbn [status internalError]; try discriminate; intros _; eauto.
    impossible_exit.
  - symmetry. apply language_by_its_tests.
    + destruct Hall as (_ & _ & _ & _ & ->). reflexivity.
    + rewrite Hlang. reflexivity.
  - intros place p t d prompt Hpr.
    rewrite (run_prompted w rt cfg req place p t d prompt Hpr). cbn [snd].
    exists (calculationCalls w rt place p t d).
    destruct Hpr as (_ & Hprompt). unfold chartPrompt in Hprompt.
    destruct (textPrompt_ends _ _ _ _ Hprompt) as [head ->].
    exists head. split; [reflexivity | ].
    rewrite promptLanguage_choice, Hlang. reflexivity.
Qed.

Lemma C10_witness :
  let w := Sample.world [Sample.paris] (1 # 2) (21 # 2) in
  let rt := Ecma.runtime 0 in
  let req := Sample.request "1990-03-21" "12:00" "Paris, France" (JStr "fr") in
  exists calls head,
    snd (generateAstralChart w rt Sample.config req)
    = (calls ++ [Generate (head ++ Text.LF ++ Contract.respondIn "English")])%list
    /\ generateAstralChart w rt Sample.config req
       = generateAstralChart w rt Sample.config
           (Sample.request "1990-03-21" "12:00" "Paris, France" (JStr "en")).
Proof.
  cbv zeta.
  destruct (C10_language_is_not_validated
              (Sample.world [Sample.paris] (1 # 2) (21 # 2)) (Ecma.runtime 0) Sample.config
              (Sample.request "1990-03-21" "12:00" "Paris, France" (JStr "fr")))
    as (_ & _ & _ & Hen & Hgen).
  - unfold served. repeat split; reflexivity.
  - repeat split; reflexivity.
  - reflexivity.
  - destruct (chartPrompt (Sample.world [Sample.paris] (1 # 2) (21 # 2)) (Ecma.runtime 0)
                (Sample.request "1990-03-21" "12:00" "Paris, France" (JStr "fr"))
                Sample.paris 638020800000 Faults.parisZone) as [prompt | ] eqn:Hprompt;
      [ | discriminate Hprompt].
    destruct (Hgen "Paris, France" Sample.paris 638020800000 Faults.parisZone prompt)
      as (calls & head & Hlog & ->).
    + run_steps.
    + exists calls, head. split; [exact Hlog | exact Hen].
Defined.

(** ** Longitudes as the ephemeris returns them *)

(** C4, as stated, fails: nothing brings a longitude into [0, 360) before
    its sign and degree are derived.  A raw longitude of exactly 360 has sign
    index 12 and no sign, one of -15 has sign index -1, no sign, and the
    degree -15.00.  With an ascendant of 360 and a midheaven of -15 from
    [swe_houses], the prompt handed to the narrative generator reads
    [undefined] for both. *)
Lemma C4_counterexample :
  let rt := Ecma.runtime 0 in
  let w := Faults.housesAre
             {| house := Sample.equalHouses; ascendant := 360; mc := - (15) |}
             Faults.base in
  signIndexOf (Some 360%Q) = Some 12
  /\ sign (planetEntry rt 360) = None
  /\ degree (planetEntry rt 360) = "0.00"
  /\ signIndexOf (Some (- (15))%Q) = Some (-1)
  /\ sign (planetEntry rt (- (15))) = None
  /\ degree (planetEntry rt (- (15))) = "-15.00"
  /\ exists d lines prompt,
       promptData rt d = Some lines
       /\ textPrompt rt d (JStr "es") = Some prompt
       /\ In (Generate prompt)
             (snd (generateAstralChart w rt Sample.config Faults.paris1990))
       /\ nth_error lines 12 = Some "Ascendente: undefined"
       /\ nth_error lines 13 = Some "Medio Cielo: undefined".
Proof.
  cbv zeta. do 6 (split; [reflexivity | ]).
  exists (chartData (Faults.housesAre
                       {| house := Sample.equalHouses; ascendant := 360; mc := - (15) |}
                       Faults.base)
                    (Ecma.runtime 0) Faults.paris1990 Sample.paris 638022600000
                    Faults.parisZone).
  eexists. eexists. split; [reflexivity | ]. split; [reflexivity | ].
  split; [ | split; reflexivity].
  apply in_or_app. right. left. reflexivity.
Qed.

(** C4, amended.  The calculation uses every longitude as the ephemeris
    returned it.  In the data it hands to the prompt, the signs of the
    ascendant, of the midheaven, of the Sun and of the Moon are the entries of
    the table of signs at the floor of the raw longitude divided by 30, and
    every body and every cusp is printed with that sign and with the
    two-decimal text of the raw longitude [% 30]; these are the data of the
    prompt of every request that is answered with a chart.  For a raw
    longitude, that
    floor is the floor of the exact quotient unless the quotient underflows;
    the sign is defined, its index within 0 to 11, exactly when the raw
    longitude is in [0, 360) or is a negative number of magnitude at most
    30 * 2^-1075, whose quotient underflows to zero; the remainder keeps the
    sign of the raw longitude and is below 30 in magnitude. *)
Theorem C4_no_normalization (w : Collaborators) (rt : Runtime) (b : Body) (la lo : Q)
        (t : Z) (zone : string) (off : Q) (log : list Call) :
  let index := fun raw : Q => Num.Math_floor (Num.quotient raw 30) in
  let degrees := fun raw : Q => Num.toFixed (number_toString rt) (Num.rem raw 30) 2 in
  (exists d calls,
      let jd := swe_julday w (getFullYear rt t) (getMonth rt t + 1) (getDate rt t)
                           (juldayHour rt t off) in
      let ascmc := swe_houses w jd la lo in
      astrologicalCalculation w rt b la lo t zone off log = (Next d, (log ++ calls)%list)
      /\ Final.ascendant d = signAt (Some (index (ascendant ascmc)))
      /\ Final.mc d = signAt (Some (index (mc ascmc)))
      /\ Final.sunSign d = signAt (Some (index (swe_calc_ut w jd SE_SUN)))
      /\ Final.moonSign d = signAt (Some (index (swe_calc_ut w jd SE_MOON)))
      /\ Final.planetsPositions d
         = Text.join ", "
             (map (fun planet =>
                     let raw := swe_calc_ut w jd planet in
                     planetNames planet ++ " en " ++ show (signAt (Some (index raw)))
                       ++ " a " ++ degrees raw ++ "° en Casa "
                       ++ Text.dec (Num.Math_floor
                                      (swe_house_pos w (house ascmc) la raw)))
                  planets)
      /\ Final.housesCusps d
         = Text.join ", "
             (map (fun i =>
                     "Casa " ++ Text.dec (Z.of_nat i) ++ " en "
                       ++ show (match nth_error (house ascmc) i with
                                | Some raw => signAt (Some (index raw))
                                | None => None
                                end)
                       ++ " a "
                       ++ match nth_error (house ascmc) i with
                          | Some raw => degrees raw
                          | None => "NaN"
                          end
                       ++ "°")
                  (seq 1 12)))
  /\ (forall (cfg : Config) (req : Request) (chartText : string),
         payload (fst (generateAstralChart w rt cfg req)) = ChartText chartText ->
         exists p jd d prompt,
           let ascmc := swe_houses w jd (lat p) (lon p) in
           textPrompt rt d (language (body req)) = Some prompt
           /\ In (Generate prompt) (snd (generateAstralChart w rt cfg req))
           /\ In (Houses jd (lat p) (lon p)) (snd (generateAstralChart w rt cfg req))
           /\ Final.ascendant d = signAt (Some (index (ascendant ascmc)))
           /\ Final.mc d = signAt (Some (index (mc ascmc)))
           /\ Final.sunSign d = signAt (Some (index (swe_calc_ut w jd SE_SUN)))
           /\ Final.moonSign d = signAt (Some (index (swe_calc_ut w jd SE_MOON))))
  /\ (forall raw : Q,
         let e := planetEntry rt raw in
         sign e = signAt (Some (index raw))
         /\ degree e = degrees raw
         /\ longitude e = raw
         /\ ((Num.underflow < Qabs (raw / 30))%Q -> index raw = Num.Math_floor (raw / 30))
         /\ (0 <= index raw <= 11
             <-> ((0 <= raw < 360)%Q \/ (- (30 * Num.underflow) <= raw < 0)%Q))
         /\ (sign e <> None
             <-> ((0 <= raw < 360)%Q \/ (- (30 * Num.underflow) <= raw < 0)%Q))
         /\ ((0 <= raw)%Q -> (0 <= Num.rem raw 30 < 30)%Q)
         /\ ((raw <= 0)%Q -> (- (30) < Num.rem raw 30 <= 0)%Q)).
Proof.
  cbv zeta. split; [ | split].
  - exists (finalAstroDataOf w rt b la lo t zone off), (astroCalls w rt la lo t off).
    split; [apply astrologicalCalculation_run | ].
    repeat split; try reflexivity.
    unfold finalAstroDataOf, Final.housesCusps. rewrite housesDataOf_entries.
    unfold housesCuspsPromptOf. rewrite map_map. f_equal. apply map_ext. intros i.
    unfold houseEntry, signIndexOf, degreeOf, sign, degree, julianDayOf.
    destruct (nth_error _ i); reflexivity.
  - intros cfg req chartText Hp.
    destruct (chart_sent w rt cfg req chartText Hp)
      as (place & p & t0 & d & prompt & result & Hpr & Hgen & Hread & Hrun).
    exists p, (julianDayOf w rt t0 (totalOffset d)), (chartData w rt req p t0 d), prompt.
    rewrite Hrun. cbn [snd]. split; [apply Hpr | ].
    split; [apply in_or_app; right; left; reflexivity | ].
    split; [ | repeat split; reflexivity].
    apply in_or_app. left. right. right. unfold astroCalls. right.
    apply in_or_app. right. left. reflexivity.
  - intros raw.
    split; [reflexivity | ]. split; [reflexivity | ]. split; [reflexivity | ].
    split; [intros H; rewrite (quotient_exact raw H); reflexivity | ].
    split; [apply signIndex_defined | ].
    split; [rewrite sign_of_entry, signAt_defined; apply signIndex_defined | ].
    split; [apply rem_30_nonneg | apply rem_30_nonpos].
Qed.

Lemma C4_witness :
  let raw := (- (1 # Pos.iter xO 1%positive 1075))%Q in
  sign (planetEntry (Ecma.runtime 0) raw) = Some "Aries"
  /\ sign (planetEntry (Ecma.runtime 0) raw) <> None
  /\ sign (planetEntry (Ecma.runtime 0) 359) <> None.
Proof.
  cbv zeta.
  pose proof (C4_no_normalization Faults.base (Ecma.runtime 0) (body Faults.paris1990)
                48 2 638022600000 "Europe/Paris" 3600 []) as H.
  cbv zeta in H. destruct H as (_ & _ & H).
  split; [reflexivity | split].
  - apply (proj1 (proj2 (proj2 (proj2 (proj2 (proj2 (H (- (1 # Pos.iter xO 1%positive 1075))%Q))))))).
    right. split; [ | reflexivity]. discriminate.
  - apply (proj1 (proj2 (proj2 (proj2 (proj2 (proj2 (H 359%Q))))))).
    left. split; [discriminate | reflexivity].
Defined.

(* ================================================================== *)
(** * Further properties of the handler *)
(* ================================================================== *)

(** Opens the exits of the request of the goal. *)
Ltac by_exit :=
  match goal with
  | |- context [generateAstralChart ?w ?rt ?cfg ?req] =>
      let Hexit := fresh "Hexit" in
      pose proof (generateAstralChart_exit w rt cfg req) as Hexit;
      destruct (generateAstralChart w rt cfg req) as [? ?];
      cbn [fst snd] in *;
      destruct Hexit
  end.

(** ** The gates before the body is read *)

(** X1.  A request whose method is not POST never reaches the body, the
    configuration or a collaborator: OPTIONS is answered 200 without a body,
    every other method 405 with the method message, and this even when the
    API keys are missing. *)
Theorem X1_only_post_is_served (w : Collaborators) (rt : Runtime) (cfg : Config)
        (req : Request) :
  method req <> "POST" ->
  generateAstralChart w rt cfg req
  = (if String.eqb (method req) "OPTIONS"
     then {| status := 200; payload := NoBody |}
     else {| status := 405;
             payload := Message "Método no permitido. Solo se aceptan solicitudes POST." |},
     []).
Proof.
  intros Hm. unfold generateAstralChart.
  destruct (String.eqb (method req) "OPTIONS"); [reflexivity | ].
  destruct (String.eqb_spec (method req) "POST") as [E | _]; [contradiction | reflexivity].
Qed.

Lemma X1_witness :
  generateAstralChart Faults.base (Ecma.runtime 0) Faults.noKeys
    (Faults.withMethod "GET" Faults.paris1990)
  = ({| status := 405;
        payload := Message "Método no permitido. Solo se aceptan solicitudes POST." |}, []).
Proof.
  apply (X1_only_post_is_served Faults.base (Ecma.runtime 0) Faults.noKeys
           (Faults.withMethod "GET" Faults.paris1990)).
  discriminate.
Defined.

(** X2.  A POST request to a deployment in which an API key is absent or
    empty is answered 500 before its body is read and before any
    collaborator is called; the message names the Gemini key when that one
    is missing, the Google Maps key otherwise. *)
Theorem X2_missing_key_is_500 (w : Collaborators) (rt : Runtime) (cfg : Config)
        (req : Request) :
  method req = "POST" ->
  key_set (gemini_api_key cfg) && key_set (google_maps_api_key cfg) = false ->
  generateAstralChart w rt cfg req
  = ({| status := 500;
        payload :=
          Message (if key_set (gemini_api_key cfg)
                   then "Error interno del servidor: Clave API GOOGLE_MAPS_API_KEY no configurada en Firebase Functions."
                   else "Error interno del servidor: Clave API GEMINI_API_KEY no configurada en Firebase Functions.") |},
     []).
Proof.
  intros Hm Hk. unfold generateAstralChart. rewrite Hm. cbn [String.eqb Ascii.eqb Bool.eqb negb].
  destruct (key_set (gemini_api_key cfg)); cbn [negb andb] in *; [ | reflexivity].
  rewrite Hk. reflexivity.
Qed.

Lemma X2_witness :
  generateAstralChart Faults.base (Ecma.runtime 0) Faults.noKeys Faults.paris1990
  = ({| status := 500;
        payload := Message "Error interno del servidor: Clave API GEMINI_API_KEY no configurada en Firebase Functions." |},
     []).
Proof.
  apply (X2_missing_key_is_500 Faults.base (Ecma.runtime 0) Faults.noKeys Faults.paris1990);
    reflexivity.
Defined.

(** X3.  A collaborator is called only for a POST request to a configured
    deployment whose five fields are present, and the first one called is
    always the geocoder, with the text of the birth place. *)
Theorem X3_calls_only_when_served (w : Collaborators) (rt : Runtime) (cfg : Config)
        (req : Request) :
  snd (generateAstralChart w rt cfg req) <> [] ->
  served cfg req
  /\ incomplete (body req) = false
  /\ exists place rest,
       ToString (number_toString rt) (birthPlace (body req)) = Some place
       /\ snd (generateAstralChart w rt cfg req) = Geocode place :: rest.
Proof.
  fold (placeText rt req). by_exit; intros Hlog; try contradiction; unpack_exit;
    (split; [unfold served; auto | split; [assumption | ]]);
    eexists _, _; (split; [eassumption | reflexivity]).
Qed.

Lemma X3_witness :
  served Sample.config Faults.paris1990
  /\ incomplete (body Faults.paris1990) = false
  /\ exists place rest,
       ToString (number_toString (Ecma.runtime 0)) (birthPlace (body Faults.paris1990))
       = Some place
       /\ snd (generateAstralChart Faults.base (Ecma.runtime 0) Sample.config
                 Faults.paris1990)
          = Geocode place :: rest.
Proof.
  apply (X3_calls_only_when_served Faults.base (Ecma.runtime 0) Sample.config
           Faults.paris1990).
  discriminate.
Defined.

(** ** Geocoding and time-zone failures *)

(** X4.  When the birth place has a text that can be encoded for the URL
    and the geocoder finds no match for it, the request ends with status 404
    and the place-not-found message; the geocoder is the only collaborator
    called, and the date is not even read. *)
Theorem X4_place_not_found_is_404 (w : Collaborators) (rt : Runtime) (cfg : Config)
        (req : Request) (place : string) :
  served cfg req ->
  incomplete (body req) = false ->
  placeText rt req = Some place ->
  encodeURIComponent rt place <> None ->
  nominatim w place = JsonBody [] ->
  generateAstralChart w rt cfg req
  = ({| status := 404;
        payload := Message "No se pudo encontrar las coordenadas para el lugar de nacimiento proporcionado. Intenta con una ubicación más específica." |},
     [Geocode place]).
Proof.
  intros Hs Hinc Hplace Hquery Hgeo.
  by_exit; try solve [exfalso; impossible_exit]; unpack_exit; congruence.
Qed.

Lemma X4_witness :
  generateAstralChart (Faults.geocoderAnswers (JsonBody []) Faults.base) (Ecma.runtime 0)
    Sample.config
    (Faults.withBirthDate Faults.noText
       (Sample.request "1990-03-21" "25:99" "Qwxyzplace123" (JStr "es")))
  = ({| status := 404;
        payload := Message "No se pudo encontrar las coordenadas para el lugar de nacimiento proporcionado. Intenta con una ubicación más específica." |},
     [Geocode "Qwxyzplace123"]).
Proof.
  apply (X4_place_not_found_is_404
           (Faults.geocoderAnswers (JsonBody []) Faults.base) (Ecma.runtime 0) Sample.config
           (Faults.withBirthDate Faults.noText
              (Sample.request "1990-03-21" "25:99" "Qwxyzplace123" (JStr "es")))
           "Qwxyzplace123").
  - unfold served. repeat split; reflexivity.
  - reflexivity.
  - reflexivity.
  - discriminate.
  - reflexivity.
Defined.

(** X5.  When the geocoding request fails, for a birth place that has a text
    that can be encoded for the URL, the request ends with status 500
    after that single call, and the message carries the cause: the message
    of the rejection, or, for an HTTP answer that is not ok, the status and
    the status text of that answer. *)
Theorem X5_geocoder_failure_is_500 (w : Collaborators) (rt : Runtime) (cfg : Config)
        (req : Request) (place cause : string) :
  served cfg req ->
  incomplete (body req) = false ->
  placeText rt req = Some place ->
  encodeURIComponent rt place <> None ->
  nominatim w place = FetchRejected cause
  \/ (exists st tx, nominatim w place = HttpNotOk st tx
                    /\ cause = "Error HTTP de Nominatim: " ++ Text.dec st ++ " " ++ tx) ->
  generateAstralChart w rt cfg req
  = ({| status := 500;
        payload := Message ("Error al conectar con el servicio de geocodificación. Detalles: "
                              ++ cause) |},
     [Geocode place]).
Proof.
  intros Hs Hinc Hplace Hquery Hgeo.
  by_exit; try solve [exfalso; impossible_exit]; unpack_exit; congruence.
Qed.

Lemma X5_witness :
  generateAstralChart
    (Faults.geocoderAnswers (HttpNotOk 503 "Service Unavailable") Faults.base)
    (Ecma.runtime 0) Sample.config Faults.paris1990
  = ({| status := 500;
        payload := Message "Error al conectar con el servicio de geocodificación. Detalles: Error HTTP de Nominatim: 503 Service Unavailable" |},
     [Geocode "Paris, France"]).
Proof.
  apply (X5_geocoder_failure_is_500
           (Faults.geocoderAnswers (HttpNotOk 503 "Service Unavailable") Faults.base)
           (Ecma.runtime 0) Sample.config Faults.paris1990 "Paris, France"
           "Error HTTP de Nominatim: 503 Service Unavailable").
  - unfold served. repeat split; reflexivity.
  - reflexivity.
  - reflexivity.
  - discriminate.
  - right. exists 503, "Service Unavailable". split; reflexivity.
Defined.

(** X6.  When the place was found and the date read, and the time-zone
    lookup answers with a status other than OK, the request ends with status
    404; the message ends with the error message of the answer when it has
    one; only the geocoder and the time-zone lookup were called, so no
    ephemeris or narrative call is made. *)
Theorem X6_zone_not_resolved_is_404 (w : Collaborators) (rt : Runtime) (cfg : Config)
        (req : Request) (place : string) (p : Place) (t : Z) (d : TimeZoneData) :
  located w rt cfg req place p t ->
  google_timezone w (lat p) (lon p) (timestampOf t) = JsonBody d ->
  tz_status d <> "OK" ->
  generateAstralChart w rt cfg req
  = ({| status := 404;
        payload := Message ("No se pudo determinar la zona horaria precisa para el lugar y la fecha proporcionados. "
                              ++ match errorMessage d with
                                 | Some m => m
                                 | None => ""
                                 end) |},
     [Geocode place; TimeZone (lat p) (lon p) (timestampOf t)]).
Proof.
  intros Hloc Htz Hko.
  by_exit; try solve [exfalso; impossible_exit]; unpack_exit; merge_steps; reflexivity.
Qed.

Lemma X6_witness :
  generateAstralChart (Faults.timeZoneAnswers (JsonBody Faults.zoneUnknown) Faults.base)
    (Ecma.runtime 0) Sample.config Faults.paris1990
  = ({| status := 404;
        payload := Message "No se pudo determinar la zona horaria precisa para el lugar y la fecha proporcionados. " |},
     [Geocode "Paris, France"; TimeZone 48 2 638022600]).
Proof.
  apply (X6_zone_not_resolved_is_404
           (Faults.timeZoneAnswers (JsonBody Faults.zoneUnknown) Faults.base)
           (Ecma.runtime 0) Sample.config Faults.paris1990
           "Paris, France" Sample.paris 638022600000 Faults.zoneUnknown).
  - run_steps.
  - reflexivity.
  - discriminate.
Defined.

(** X7.  When the place was found and the date read, and the time-zone
    request itself fails, the request ends with status 500 after the
    geocoder and the time-zone lookup, and the message carries the cause:
    the message of the rejection, or the status and the status text of an
    HTTP answer that is not ok. *)
Theorem X7_zone_failure_is_500 (w : Collaborators) (rt : Runtime) (cfg : Config)
        (req : Request) (place : string) (p : Place) (t : Z) (cause : string) :
  located w rt cfg req place p t ->
  google_timezone w (lat p) (lon p) (timestampOf t) = FetchRejected cause
  \/ (exists st tx,
        google_timezone w (lat p) (lon p) (timestampOf t) = HttpNotOk st tx
        /\ cause = "Error HTTP de Google Time Zone API: " ++ Text.dec st ++ " " ++ tx) ->
  generateAstralChart w rt cfg req
  = ({| status := 500;
        payload := Message ("Error al conectar con el servicio de zona horaria de Google. Detalles: "
                              ++ cause) |},
     [Geocode place; TimeZone (lat p) (lon p) (timestampOf t)]).
Proof.
  intros Hloc Htz.
  by_exit; try solve [exfalso; impossible_exit]; unpack_exit; merge_steps; reflexivity.
Qed.

Lemma X7_witness :
  generateAstralChart (Faults.timeZoneAnswers (FetchRejected "socket hang up") Faults.base)
    (Ecma.runtime 0) Sample.config Faults.paris1990
  = ({| status := 500;
        payload := Message "Error al conectar con el servicio de zona horaria de Google. Detalles: socket hang up" |},
     [Geocode "Paris, France"; TimeZone 48 2 638022600]).
Proof.
  apply (X7_zone_failure_is_500
           (Faults.timeZoneAnswers (FetchRejected "socket hang up") Faults.base)
           (Ecma.runtime 0) Sample.config Faults.paris1990
           "Paris, France" Sample.paris 638022600000 "socket hang up").
  - run_steps.
  - left. reflexivity.
Defined.

(** ** The narrative call *)

(** X8.  When the place, the date and the time zone were resolved, the
    prompt composed, and the narrative call is rejected, the request ends
    with status 500 and the general internal-error message, which ends with
    the message of the rejection; by then all 25 collaborator calls of a
    chart have been made. *)
Theorem X8_generator_failure_is_500 (w : Collaborators) (rt : Runtime) (cfg : Config)
        (req : Request) (place : string) (p : Place) (t : Z) (d : TimeZoneData)
        (prompt cause : string) :
  prompted w rt cfg req place p t d prompt ->
  gemini w prompt = GenRejected cause ->
  generateAstralChart w rt cfg req
  = ({| status := 500;
        payload := Message ("Error interno del servidor al procesar la solicitud de la carta astral. Por favor, inténtalo de nuevo más tarde o contacta al soporte. Detalles técnicos: " ++ cause) |},
     chartCalls w rt place p t d prompt)
  /\ length (snd (generateAstralChart w rt cfg req)) = 25%nat
  /\ last (snd (generateAstralChart w rt cfg req)) (Geocode "") = Generate prompt.
Proof.
  intros Hpr Hgen. rewrite (run_prompted w rt cfg req place p t d prompt Hpr), Hgen.
  cbn [snd]. split; [reflexivity | split; [apply chartCalls_length | ]].
  unfold chartCalls. apply last_last.
Qed.

Lemma X8_witness :
  let w := Faults.generatorAnswers (GenRejected "quota exceeded") Faults.base in
  fst (generateAstralChart w (Ecma.runtime 0) Sample.config Faults.paris1990)
  = {| status := 500;
       payload := Message "Error interno del servidor al procesar la solicitud de la carta astral. Por favor, inténtalo de nuevo más tarde o contacta al soporte. Detalles técnicos: quota exceeded" |}
  /\ length (snd (generateAstralChart w (Ecma.runtime 0) Sample.config Faults.paris1990))
     = 25%nat.
Proof.
  cbv zeta.
  destruct (chartPrompt (Faults.generatorAnswers (GenRejected "quota exceeded") Faults.base)
              (Ecma.runtime 0) Faults.paris1990 Sample.paris 638022600000 Faults.parisZone)
    as [prompt | ] eqn:Hprompt; [ | discriminate Hprompt].
  destruct (X8_generator_failure_is_500
              (Faults.generatorAnswers (GenRejected "quota exceeded") Faults.base)
              (Ecma.runtime 0) Sample.config Faults.paris1990
              "Paris, France" Sample.paris 638022600000 Faults.parisZone prompt
              "quota exceeded") as (Hrun & Hlen & _).
  - run_steps.
  - reflexivity.
  - rewrite Hrun. split; reflexivity.
Defined.

(** Where [chartTextOf] finds a text: the first candidate has a content,
    whose first part has it. *)
Lemma chartTextOf_text (result : Gemini.Result) (chartText : string) :
  chartTextOf result = inl chartText
  <-> exists candidate others content part parts,
        Gemini.candidates result = Some (candidate :: others)
        /\ Gemini.content candidate = Some content
        /\ Gemini.parts content = Some (part :: parts)
        /\ Gemini.text part = Some chartText.
Proof.
  unfold chartTextOf. split.
  - destruct (Gemini.candidates result) as [[ | candidate others] | ]; cbn [nth_error];
      try discriminate.
    destruct (Gemini.content candidate) as [content | ] eqn:Hcontent; try discriminate.
    destruct (Gemini.parts content) as [[ | part parts] | ] eqn:Hparts; cbn [nth_error];
      try discriminate.
    destruct (Gemini.text part) as [text | ] eqn:Htext; try discriminate.
    intros E. injection E as ->. exists candidate, others, content, part, parts. auto.
  - intros (candidate & others & content & part & parts & -> & H2 & H3 & H4).
    cbn [nth_error]. rewrite H2, H3. cbn [nth_error]. rewrite H4. reflexivity.
Qed.

(** X9.  Once the narrative generator has been called, a status 500 has two
    possible causes: the call was rejected, and the message ends with the
    message of the rejection; or the call returned an answer in which the
    handler finds no text at [candidates[0].content.parts[0].text], and the
    message ends with the message of the [TypeError] of that reading. *)
Theorem X9_after_generate_two_failures (w : Collaborators) (rt : Runtime)
        (cfg : Config) (req : Request) (prompt : string) :
  In (Generate prompt) (snd (generateAstralChart w rt cfg req)) ->
  status (fst (generateAstralChart w rt cfg req)) = 500 ->
  (exists cause,
      gemini w prompt = GenRejected cause
      /\ fst (generateAstralChart w rt cfg req) = internalError cause)
  \/ (exists result name,
         gemini w prompt = GenResult result
         /\ chartTextOf result = inr name
         /\ (forall chartText, chartTextOf result <> inl chartText)
         /\ fst (generateAstralChart w rt cfg req) = internalError (cannotRead rt name)).
Proof.
  intros Hin Hst. pose proof Hin as Hc. apply calls_of_chart in Hc.
  destruct Hc as [(place & _ & H) | [(place & p & t & _ & H)
                  | [(place & p & t & d & Hres & H)
                    | (place & p & t & d & prompt' & Hpr & H)]]];
    try discriminate H.
  { destruct (astroCalls_no_Generate _ _ _ _ _ _ _ H). }
  injection H as <-.
  rewrite (run_prompted w rt cfg req place p t d prompt Hpr) in *. cbn [fst snd] in *.
  destruct (gemini w prompt) as [result | cause]; [ | left; eauto].
  destruct (chartTextOf result) as [chartText | name] eqn:Hread;
    [cbn [status] in Hst; discriminate Hst | ].
  right. exists result, name. repeat split; auto.
  intros chartText E. rewrite Hread in E. discriminate E.
Qed.

Lemma X9_witness :
  let w := Faults.generatorAnswers
             (GenResult {| Gemini.candidates := Some [] |}) Faults.base in
  exists prompt result name,
    In (Generate prompt)
       (snd (generateAstralChart w (Ecma.runtime 0) Sample.config Faults.paris1990))
    /\ gemini w prompt = GenResult result
    /\ chartTextOf result = inr name
    /\ fst (generateAstralChart w (Ecma.runtime 0) Sample.config Faults.paris1990)
       = internalError (cannotRead (Ecma.runtime 0) name).
Proof.
  cbv zeta.
  set (w := Faults.generatorAnswers (GenResult {| Gemini.candidates := Some [] |})
              Faults.base).
  destruct (chartPrompt w (Ecma.runtime 0) Faults.paris1990 Sample.paris 638022600000
              Faults.parisZone) as [prompt | ] eqn:Hprompt; [ | discriminate Hprompt].
  assert (Hin : In (Generate prompt)
                   (snd (generateAstralChart w (Ecma.runtime 0) Sample.config
                           Faults.paris1990))).
  { change (snd (generateAstralChart w (Ecma.runtime 0) Sample.config Faults.paris1990))
      with (match chartPrompt w (Ecma.runtime 0) Faults.paris1990 Sample.paris
                    638022600000 Faults.parisZone with
            | Some prompt =>
                chartCalls w (Ecma.runtime 0) "Paris, France" Sample.paris 638022600000
                  Faults.parisZone prompt
            | None => []
            end).
    rewrite Hprompt. apply in_or_app. right. left. reflexivity. }
  destruct (X9_after_generate_two_failures w (Ecma.runtime 0) Sample.config
              Faults.paris1990 prompt Hin eq_refl)
    as [(cause & Hgen & _) | (result & name & Hgen & Hread & _ & Hres)].
  - discriminate Hgen.
  - exists prompt, result, name. auto.
Defined.

(** X10.  A chart text is returned with status 200, after exactly 25
    collaborator calls, and it is the text of the first part of the first
    candidate of the answer that the narrative generator gave for the prompt
    of the last call, unchanged. *)
Theorem X10_chart_text_is_the_generated_text (w : Collaborators) (rt : Runtime)
        (cfg : Config) (req : Request) (chartText : string) :
  payload (fst (generateAstralChart w rt cfg req)) = ChartText chartText ->
  status (fst (generateAstralChart w rt cfg req)) = 200
  /\ length (snd (generateAstralChart w rt cfg req)) = 25%nat
  /\ exists prompt result candidate others content part parts,
       last (snd (generateAstralChart w rt cfg req)) (Geocode "") = Generate prompt
       /\ gemini w prompt = GenResult result
       /\ Gemini.candidates result = Some (candidate :: others)
       /\ Gemini.content candidate = Some content
       /\ Gemini.parts content = Some (part :: parts)
       /\ Gemini.text part = Some chartText.
Proof.
  intros Hp.
  destruct (chart_sent w rt cfg req chartText Hp)
    as (place & p & t & d & prompt & result & Hpr & Hgen & Hread & Hrun).
  rewrite Hrun. cbn [fst snd status]. split; [reflexivity | ].
  split; [apply chartCalls_length | ].
  apply chartTextOf_text in Hread.
  destruct Hread as (candidate & others & content & part & parts & H1 & H2 & H3 & H4).
  exists prompt, result, candidate, others, content, part, parts.
  split; [unfold chartCalls; apply last_last | auto].
Qed.

Lemma X10_witness :
  status (fst (generateAstralChart Faults.base (Ecma.runtime 0) Sample.config
                 Faults.paris1990)) = 200
  /\ length (snd (generateAstralChart Faults.base (Ecma.runtime 0) Sample.config
                    Faults.paris1990)) = 25%nat
  /\ exists prompt result candidate others content part parts,
       last (snd (generateAstralChart Faults.base (Ecma.runtime 0) Sample.config
                    Faults.paris1990)) (Geocode "") = Generate prompt
       /\ gemini Faults.base prompt = GenResult result
       /\ Gemini.candidates result = Some (candidate :: others)
       /\ Gemini.content candidate = Some content
       /\ Gemini.parts content = Some (part :: parts)
       /\ Gemini.text part = Some "...".
Proof.
  apply (X10_chart_text_is_the_generated_text Faults.base (Ecma.runtime 0) Sample.config
           Faults.paris1990 "...").
  reflexivity.
Defined.

(** ** The order of the calls and the meaning of the statuses *)

(** X11.  The collaborators are called in one fixed order and never twice.
    A request makes no call, or the geocoding call alone, or the geocoding
    and the time-zone call, or the calls up to the end of the calculation,
    or these and the narrative call: geocoder (with the text of the place),
    time zone (at the coordinates of the first match), day number (local
    year, month counted from 1, day, whole hour plus offset), the ten bodies
    in the order of [planets], the houses, one house position per body in
    the same order, and the narrative generator.  Every ephemeris call is
    made with the one day number that [swe_julday] returned, and every house
    position with the cusps that [swe_houses] returned.  The narrative call
    is missing after the calculation exactly when the prompt cannot be
    composed. *)
Theorem X11_calls_follow_one_sequence (w : Collaborators) (rt : Runtime) (cfg : Config)
        (req : Request) :
  let log := snd (generateAstralChart w rt cfg req) in
  log = []
  \/ exists place,
       ToString (number_toString rt) (birthPlace (body req)) = Some place
       /\ (log = [Geocode place]
           \/ exists p others text t,
                nominatim w place = JsonBody (p :: others)
                /\ localDateTimeString rt (body req) = Some text
                /\ Date_new rt text = Some t
                /\ (log = [Geocode place; TimeZone (lat p) (lon p) (t / 1000)]
                    \/ exists d,
                         google_timezone w (lat p) (lon p) (t / 1000) = JsonBody d
                         /\ let hour := (inject_Z (getHours rt t)
                                         + (dstOffset d + rawOffset d) / 3600)%Q in
                            let jd := swe_julday w (getFullYear rt t) (getMonth rt t + 1)
                                                 (getDate rt t) hour in
                            let cusps := house (swe_houses w jd (lat p) (lon p)) in
                            let calculation :=
                              (Geocode place
                                 :: TimeZone (lat p) (lon p) (t / 1000)
                                 :: Julday (getFullYear rt t) (getMonth rt t + 1)
                                      (getDate rt t) hour
                                 :: map (CalcUt jd) planets
                                 ++ Houses jd (lat p) (lon p)
                                 :: map (fun planet =>
                                           HousePos cusps (lat p) (swe_calc_ut w jd planet))
                                        planets)%list in
                            (chartPrompt w rt req p t d = None /\ log = calculation)
                            \/ (exists prompt,
                                   chartPrompt w rt req p t d = Some prompt
                                   /\ log = (calculation ++ [Generate prompt])%list))).
Proof.
  cbv zeta. fold (placeText rt req).
  assert (Hcalc : forall place p t d,
             calculationCalls w rt place p t d
             = (Geocode place
                  :: TimeZone (lat p) (lon p) (t / 1000)
                  :: Julday (getFullYear rt t) (getMonth rt t + 1) (getDate rt t)
                       (inject_Z (getHours rt t) + (dstOffset d + rawOffset d) / 3600)%Q
                  :: map (CalcUt
                            (swe_julday w (getFullYear rt t) (getMonth rt t + 1)
                               (getDate rt t)
                               (inject_Z (getHours rt t)
                                + (dstOffset d + rawOffset d) / 3600)%Q))
                         planets
                  ++ Houses
                       (swe_julday w (getFullYear rt t) (getMonth rt t + 1)
                          (getDate rt t)
                          (inject_Z (getHours rt t)
                           + (dstOffset d + rawOffset d) / 3600)%Q)
                       (lat p) (lon p)
                  :: map (fun planet =>
                            HousePos
                              (house
                                 (swe_houses w
                                    (swe_julday w (getFullYear rt t)
                                       (getMonth rt t + 1) (getDate rt t)
                                       (inject_Z (getHours rt t)
                                        + (dstOffset d + rawOffset d) / 3600)%Q)
                                    (lat p) (lon p)))
                              (lat p)
                              (swe_calc_ut w
                                 (swe_julday w (getFullYear rt t)
                                    (getMonth rt t + 1) (getDate rt t)
                                    (inject_Z (getHours rt t)
                                     + (dstOffset d + rawOffset d) / 3600)%Q)
                                 planet))
                         planets)%list).
  { intros place p t d. unfold calculationCalls, timeZoneCall.
    rewrite timestampOf_div. reflexivity. }
  by_exit; auto; unpack_exit; right; eexists; (split; [eassumption | ]);
    first
      [ left; reflexivity
      | right; eexists _, _, _, _;
        (split; [eassumption | split; [eassumption | split; [eassumption | ]]]);
        first
          [ left; unfold timeZoneCall; rewrite timestampOf_div; reflexivity
          | right; eexists; (split; [rewrite <- timestampOf_div; eassumption | ]);
            first
              [ left; split; [assumption | apply Hcalc]
              | right; eexists;
                (split; [eassumption | unfold chartCalls; rewrite Hcalc; reflexivity]) ] ] ].
Qed.

(** X12.  The response is all or nothing.  Its status is 200, 400, 404, 405
    or 500; it has no body exactly for OPTIONS; a chart text comes only with
    status 200, and every other response of a request that is not OPTIONS
    carries a message and a status other than 200. *)
Theorem X12_response_taxonomy (w : Collaborators) (rt : Runtime) (cfg : Config)
        (req : Request) :
  let r := fst (generateAstralChart w rt cfg req) in
  (status r = 200 \/ status r = 400 \/ status r = 404 \/ status r = 405 \/ status r = 500)
  /\ (payload r = NoBody <-> method req = "OPTIONS")
  /\ (forall chartText, payload r = ChartText chartText -> status r = 200)
  /\ (forall message, payload r = Message message -> status r <> 200).
Proof.
  cbv zeta.
  by_exit; cbn [status payload internalError]; unpack_exit;
    (split; [tauto | split; [split; intros E; try discriminate E; try reflexivity;
                             try congruence
                            | split; intros ? E; try discriminate E; try reflexivity;
                              discriminate]]).
Qed.

(** X13.  Status 400 has exactly two causes: a POST request to a configured
    deployment either lacks one of its five fields, or has them all, a place
    whose text can be encoded and the geocoder found, and a date and time
    whose text the runtime does not read. *)
Theorem X13_meaning_of_400 (w : Collaborators) (rt : Runtime) (cfg : Config)
        (req : Request) :
  status (fst (generateAstralChart w rt cfg req)) = 400
  <-> served cfg req
      /\ (incomplete (body req) = true
          \/ (exists place p others text,
                placeText rt req = Some place
                /\ encodeURIComponent rt place <> None
                /\ nominatim w place = JsonBody (p :: others)
                /\ localDateTimeString rt (body req) = Some text
                /\ Date_new rt text = None)).
Proof.
  split.
  - by_exit; cbn [status internalError]; intros Hst; try discriminate Hst.
    + split; [assumption | left; assumption].
    + unpack_exit. split; [unfold served; auto | right]. eexists _, _, _, _.
      repeat split; eauto. congruence.
  - intros (Hs & Hcause).
    by_exit; cbn [status]; try reflexivity; exfalso;
      destruct Hcause as [Hinc | (place' & p' & others' & text' & Hplace & Hquery & Hgeo
                                  & Htext & Hdate)];
      impossible_exit.
Qed.

Lemma X13_witness :
  status (fst (generateAstralChart Faults.base (Ecma.runtime 0) Sample.config
                 (Sample.request "1990-13-21" "12:30" "Paris, France" (JStr "es")))) = 400.
Proof.
  apply (proj2 (X13_meaning_of_400 Faults.base (Ecma.runtime 0) Sample.config
                  (Sample.request "1990-13-21" "12:30" "Paris, France" (JStr "es")))).
  split; [unfold served; repeat split; reflexivity | ].
  right. exists "Paris, France", Sample.paris, [], "1990-13-21T12:30:00".
  repeat split; try reflexivity. discriminate.
Defined.

(** X14.  Status 404 has exactly two causes, for a place whose text can be
    encoded for the URL: the geocoder found no match for it, or the
    time-zone lookup answered with a status other than OK. *)
Theorem X14_meaning_of_404 (w : Collaborators) (rt : Runtime) (cfg : Config)
        (req : Request) :
  status (fst (generateAstralChart w rt cfg req)) = 404
  <-> served cfg req
      /\ incomplete (body req) = false
      /\ exists place,
           placeText rt req = Some place
           /\ encodeURIComponent rt place <> None
           /\ (nominatim w place = JsonBody []
               \/ (exists p others text t d,
                     nominatim w place = JsonBody (p :: others)
                     /\ localDateTimeString rt (body req) = Some text
                     /\ Date_new rt text = Some t
                     /\ google_timezone w (lat p) (lon p) (timestampOf t) = JsonBody d
                     /\ tz_status d <> "OK")).
Proof.
  split.
  - by_exit; cbn [status internalError]; intros Hst; try discriminate Hst; unpack_exit;
      (split; [unfold served; auto | split; [assumption | ]]);
      eexists; (split; [eassumption | split; [congruence | ]]).
    + left. assumption.
    + right. eexists _, _, _, _, _. eauto.
  - intros (Hs & Hinc & place' & Hplace & Hquery & Hcause).
    by_exit; cbn [status]; try reflexivity; exfalso;
      destruct Hcause as [Hgeo | (p' & others' & text' & t' & d' & Hgeo & Htext & Hdate
                                  & Htz & Hko)];
      impossible_exit.
Qed.

Lemma X14_witness :
  status (fst (generateAstralChart
                 (Faults.timeZoneAnswers (JsonBody Faults.zoneUnknown) Faults.base)
                 (Ecma.runtime 0) Sample.config Faults.paris1990)) = 404.
Proof.
  apply (proj2 (X14_meaning_of_404
                  (Faults.timeZoneAnswers (JsonBody Faults.zoneUnknown) Faults.base)
                  (Ecma.runtime 0) Sample.config Faults.paris1990)).
  split; [unfold served; repeat split; reflexivity | ].
  split; [reflexivity | ].
  exists "Paris, France". split; [reflexivity | split; [discriminate | ]].
  right. exists Sample.paris, [], "1990-03-21T12:30:00", 638022600000, Faults.zoneUnknown.
  repeat split; try reflexivity. discriminate.
Defined.

(** X15.  A chart text is returned exactly when every step succeeded: the
    request is a POST to a configured deployment with its five fields, the
    place has a text that the geocoder found, the date and time have a text
    that the runtime read, the time-zone lookup answered OK for the first
    match, the prompt was composed, and the narrative generator returned for
    it an answer whose first candidate holds that text in its first part. *)
Theorem X15_success_criterion (w : Collaborators) (rt : Runtime) (cfg : Config)
        (req : Request) (chartText : string) :
  payload (fst (generateAstralChart w rt cfg req)) = ChartText chartText
  <-> exists place p t d prompt result,
        prompted w rt cfg req place p t d prompt
        /\ gemini w prompt = GenResult result
        /\ chartTextOf result = inl chartText.
Proof.
  split.
  - intros Hp.
    destruct (chart_sent w rt cfg req chartText Hp)
      as (place & p & t & d & prompt & result & H1 & H2 & H3 & _).
    eexists _, _, _, _, _, _. eauto.
  - intros (place & p & t & d & prompt & result & Hpr & Hgen & Hread).
    rewrite (run_prompted w rt cfg req place p t d prompt Hpr), Hgen, Hread.
    reflexivity.
Qed.

Lemma X15_witness :
  payload (fst (generateAstralChart Faults.base (Ecma.runtime 0) Sample.config
                  Faults.paris1990)) = ChartText "...".
Proof.
  destruct (chartPrompt Faults.base (Ecma.runtime 0) Faults.paris1990 Sample.paris
              638022600000 Faults.parisZone) as [prompt | ] eqn:Hprompt;
    [ | discriminate Hprompt].
  apply (proj2 (X15_success_criterion Faults.base (Ecma.runtime 0) Sample.config
                  Faults.paris1990 "...")).
  exists "Paris, France", Sample.paris, 638022600000, Faults.parisZone, prompt,
    (Gemini.answer "...").
  split; [ | split; reflexivity].
  run_steps.
Defined.

(** X16.  Status 500 has exactly these causes, for a POST request: an API
    key that is not set; or, the five fields being there, a place, a date
    and time, or a prompt that cannot be composed because a value of the
    request has no text; a place whose text cannot be encoded for the URL; a
    geocoding or a time-zone request that failed; a narrative call that was
    rejected, or whose answer holds no text where the handler reads it. *)
Theorem X16_meaning_of_500 (w : Collaborators) (rt : Runtime) (cfg : Config)
        (req : Request) :
  status (fst (generateAstralChart w rt cfg req)) = 500
  <-> method req = "POST"
      /\ (key_set (gemini_api_key cfg) && key_set (google_maps_api_key cfg) = false
          \/ (served cfg req
              /\ incomplete (body req) = false
              /\ (placeText rt req = None
                  \/ (exists place,
                         placeText rt req = Some place
                         /\ (encodeURIComponent rt place = None
                             \/ (exists m, nominatim w place = FetchRejected m)
                             \/ (exists st tx, nominatim w place = HttpNotOk st tx)))
                  \/ (exists place p,
                         found w rt cfg req place p
                         /\ localDateTimeString rt (body req) = None)
                  \/ (exists place p t,
                        located w rt cfg req place p t
                        /\ ((exists m, google_timezone w (lat p) (lon p) (timestampOf t)
                                       = FetchRejected m)
                            \/ (exists st tx, google_timezone w (lat p) (lon p) (timestampOf t)
                                              = HttpNotOk st tx)))
                  \/ (exists place p t d,
                        resolved w rt cfg req place p t d
                        /\ chartPrompt w rt req p t d = None)
                  \/ (exists place p t d prompt,
                        prompted w rt cfg req place p t d prompt
                        /\ ((exists m, gemini w prompt = GenRejected m)
                            \/ (exists result name,
                                   gemini w prompt = GenResult result
                                   /\ chartTextOf result = inr name)))))).
Proof.
  split.
  - pose proof (generateAstralChart_exit w rt cfg req) as Hexit.
    destruct (generateAstralChart w rt cfg req) as [r log]. cbn [fst snd] in *.
    intros Hst.
    destruct Hexit as [ Hopt | Hopt Hpost | Hpost Hkeys | Hs Hinc | Hs Hinc Hnone
                      | place Hs Hinc Hplace Hquery
                      | place cause Hpl Hgeo | place Hpl Hgeo | place p Hf Htext
                      | place p text Hf Htext Hdate | place p t cause Hloc Htz
                      | place p t d Hloc Htz Hko | place p t d Hres Hprompt
                      | place p t d prompt cause Hpr Hgen
                      | place p t d prompt result name Hpr Hgen Hread
                      | place p t d prompt result chartText Hpr Hgen Hread ];
      cbn [status internalError] in Hst; try discriminate Hst.
    + auto.
    + split; [apply Hs | right]. auto.
    + split; [apply Hs | right]. split; [exact Hs | split; [exact Hinc | ]].
      right. left. exists place. auto.
    + destruct Hpl as (Hs & Hinc & Hplace & _).
      split; [apply Hs | right]. split; [exact Hs | split; [exact Hinc | ]].
      right. left. exists place. split; [exact Hplace | right].
      destruct Hgeo as [Hgeo | (st & tx & Hgeo & _)]; eauto.
    + pose proof Hf as ((Hs & Hinc & Hplace & _) & _).
      split; [apply Hs | right]. split; [exact Hs | split; [exact Hinc | ]].
      right. right. left. eauto.
    + pose proof Hloc as (((Hs & Hinc & Hplace & _) & _) & _).
      split; [apply Hs | right]. split; [exact Hs | split; [exact Hinc | ]].
      right. right. right. left. exists place, p, t. split; [exact Hloc | ].
      destruct Htz as [Htz | (st & tx & Htz & _)]; eauto.
    + pose proof Hres as ((((Hs & Hinc & Hplace & _) & _) & _) & _).
      split; [apply Hs | right]. split; [exact Hs | split; [exact Hinc | ]].
      right. right. right. right. left. exists place, p, t, d. auto.
    + pose proof Hpr as (((((Hs & Hinc & Hplace & _) & _) & _) & _) & _).
      split; [apply Hs | right]. split; [exact Hs | split; [exact Hinc | ]].
      right. right. right. right. right. exists place, p, t, d, prompt. eauto.
    + pose proof Hpr as (((((Hs & Hinc & Hplace & _) & _) & _) & _) & _).
      split; [apply Hs | right]. split; [exact Hs | split; [exact Hinc | ]].
      right. right. right. right. right. exists place, p, t, d, prompt.
      split; [exact Hpr | right]. eauto.
  - intros (Hm & Hcause).
    by_exit; cbn [status internalError]; try reflexivity; exfalso;
      destruct Hcause as
        [Hk | (Hs & Hinc
               & [Hnone
                 | [(place' & Hplace & [Hquery | [(m' & Hgeo) | (st' & tx' & Hgeo)]])
                   | [(place' & p' & Hfound & Htext)
                     | [(place' & p' & t' & Hloc & [(m' & Htz) | (st' & tx' & Htz)])
                       | [(place' & p' & t' & d' & Hres & Hprompt)
                         | (place' & p' & t' & d' & prompt' & Hpr
                            & [(m' & Hgen) | (result' & name' & Hgen & Hread)])]]]]])];
      impossible_exit.
Qed.

Lemma X16_witness :
  status (fst (generateAstralChart
                 (Faults.generatorAnswers
                    (GenResult {| Gemini.candidates := None |}) Faults.base)
                 (Ecma.runtime 0) Sample.config Faults.paris1990)) = 500.
Proof.
  destruct (chartPrompt Faults.base (Ecma.runtime 0) Faults.paris1990 Sample.paris
              638022600000 Faults.parisZone) as [prompt | ] eqn:Hprompt;
    [ | discriminate Hprompt].
  apply (proj2 (X16_meaning_of_500
                  (Faults.generatorAnswers
                     (GenResult {| Gemini.candidates := None |}) Faults.base)
                  (Ecma.runtime 0) Sample.config Faults.paris1990)).
  split; [reflexivity | right].
  split; [unfold served; repeat split; reflexivity | ].
  split; [reflexivity | ].
  do 5 right.
  exists "Paris, France", Sample.paris, 638022600000, Faults.parisZone, prompt.
  split.
  - run_steps.
  - right. exists {| Gemini.candidates := None |}, "0". split; reflexivity.
Defined.

(** ** Values of the request that have no text *)

Lemma localDateTimeString_none (rt : Runtime) (b : Body) :
  localDateTimeString rt b = None
  <-> ToString (number_toString rt) (birthDate b) = None
      \/ ToString (number_toString rt) (birthTime b) = None.
Proof.
  unfold localDateTimeString.
  destruct (ToString (number_toString rt) (birthDate b));
    destruct (ToString (number_toString rt) (birthTime b));
    split; intros H; try discriminate H; auto; destruct H as [H | H]; discriminate H.
Qed.

Lemma chartPrompt_none (w : Collaborators) (rt : Runtime) (req : Request) (p : Place)
      (t : Z) (d : TimeZoneData) :
  chartPrompt w rt req p t d = None
  <-> ToString (number_toString rt) (birthDate (body req)) = None
      \/ ToString (number_toString rt) (birthTime (body req)) = None
      \/ ToString (number_toString rt) (birthPlace (body req)) = None
      \/ ToString (number_toString rt) (userSex (body req)) = None.
Proof.
  unfold chartPrompt, textPrompt, promptData, chartData, finalAstroDataOf.
  cbn [Final.birthDate Final.birthTime Final.birthPlace Final.userSex].
  destruct (ToString (number_toString rt) (birthDate (body req)));
    destruct (ToString (number_toString rt) (birthTime (body req)));
    destruct (ToString (number_toString rt) (birthPlace (body req)));
    destruct (ToString (number_toString rt) (userSex (body req)));
    split; intros H; try discriminate H; auto;
    repeat (destruct H as [H | H]; try discriminate H); discriminate H.
Qed.

(** X24.  A value of the request that has no text, such as an object with
    an own property [toString], ends a request that has its five fields with
    status 500 through the outer [catch], where the handler first puts the
    value into a text: the place before the geocoding call, the date and the
    time after it, the sex after the calculation and before the narrative
    call, which is then never made.  So does, before the geocoding call, a
    place whose text cannot be encoded for the URL. *)
Theorem X24_value_without_text_is_500 (w : Collaborators) (rt : Runtime) (cfg : Config)
        (req : Request) :
  served cfg req ->
  incomplete (body req) = false ->
  let str := ToString (number_toString rt) in
  let run := generateAstralChart w rt cfg req in
  (str (birthPlace (body req)) = None ->
   run = (internalError (notPrimitive rt), []))
  /\ (forall place,
         str (birthPlace (body req)) = Some place ->
         encodeURIComponent rt place = None ->
         run = (internalError (uriMalformed rt), []))
  /\ (forall place p,
         found w rt cfg req place p ->
         str (birthDate (body req)) = None \/ str (birthTime (body req)) = None ->
         run = (internalError (notPrimitive rt), [Geocode place]))
  /\ (forall place p t d,
         resolved w rt cfg req place p t d ->
         str (userSex (body req)) = None ->
         run = (internalError (notPrimitive rt), calculationCalls w rt place p t d)
         /\ length (snd run) = 24%nat
         /\ forall prompt, ~ In (Generate prompt) (snd run)).
Proof.
  intros Hs Hinc. cbv zeta. split; [ | split; [ | split]].
  - fold (placeText rt req). intros Hnone.
    by_exit; try reflexivity; exfalso; impossible_exit.
  - fold (placeText rt req). intros place Hplace Hquery.
    by_exit; try reflexivity; exfalso; impossible_exit.
  - intros place p Hf Hnone. apply localDateTimeString_none in Hnone.
    by_exit; try solve [exfalso; impossible_exit]; unpack_exit; merge_steps; reflexivity.
  - intros place p t d Hres Hnone.
    assert (Hprompt : chartPrompt w rt req p t d = None)
      by (apply chartPrompt_none; auto).
    rewrite (run_unprompted w rt cfg req place p t d Hres Hprompt). cbn [snd].
    split; [reflexivity | split; [apply calculationCalls_length | ]].
    intros prompt H. apply calculationCalls_In in H.
    destruct H as [H | [H | H]]; try discriminate H.
    exact (astroCalls_no_Generate _ _ _ _ _ _ _ H).
Qed.

Lemma X24_witness :
  generateAstralChart Faults.base (Ecma.runtime 0) Sample.config
    (Faults.withBirthPlace Faults.noText Faults.paris1990)
  = (internalError "Cannot convert object to primitive value", []).
Proof.
  apply (X24_value_without_text_is_500 Faults.base (Ecma.runtime 0) Sample.config
           (Faults.withBirthPlace Faults.noText Faults.paris1990)).
  - unfold served. repeat split; reflexivity.
  - reflexivity.
  - reflexivity.
Defined.

(** ** The chart objects *)

(** X17.  After the loop over [planets], [planetData] holds the ten bodies
    under their ten names, in the order of [planets]; the names are distinct,
    so no body overwrites another, and the record found under the name of a
    body is the one built from the longitude the ephemeris gave for that
    body.  The loop makes one [swe_calc_ut] call per body, in that order. *)
Theorem X17_planetData_by_name (w : Collaborators) (rt : Runtime) (jd : Q)
        (log : list Call) :
  exists planetData,
    planetDataOf w rt jd log = (Next planetData, (log ++ map (CalcUt jd) planets)%list)
    /\ map fst planetData
       = ["Sol"; "Luna"; "Mercurio"; "Venus"; "Marte"; "Júpiter"; "Saturno"; "Urano";
          "Neptuno"; "Plutón"]
    /\ (forall planet,
           Obj.get planetData (planetNames planet)
           = Some (planetEntry rt (swe_calc_ut w jd planet)))
    /\ (forall p q, planetNames p = planetNames q -> p = q).
Proof.
  exists (planetDataAt w rt jd).
  split; [apply planetDataOf_run | ].
  split; [reflexivity | ].
  split.
  - intros planet. destruct planet; reflexivity.
  - intros p q. destruct p, q; intros E; try reflexivity; discriminate E.
Qed.

(** X18.  [housesData] holds the houses 1 to 12 under the keys Casa 1 to
    Casa 12, in order; the record under Casa k is built from entry k of the
    cusp array, and entry 0 of that array is never read. *)
Theorem X18_housesData_by_number (rt : Runtime) (houseCusps : list Q) :
  map fst (housesDataOf rt houseCusps)
  = ["Casa 1"; "Casa 2"; "Casa 3"; "Casa 4"; "Casa 5"; "Casa 6"; "Casa 7"; "Casa 8";
     "Casa 9"; "Casa 10"; "Casa 11"; "Casa 12"]
  /\ (forall k, (1 <= k <= 12)%nat ->
                Obj.get (housesDataOf rt houseCusps) ("Casa " ++ Text.dec (Z.of_nat k))
                = Some (houseEntry rt houseCusps k))
  /\ (forall first other rest,
         housesDataOf rt (first :: rest) = housesDataOf rt (other :: rest)).
Proof.
  split; [reflexivity | split].
  - intros k Hk.
    do 13 (destruct k as [ | k]; [try lia; try reflexivity | ]). lia.
  - intros first other rest. reflexivity.
Qed.

Lemma X18_witness :
  Obj.get (housesDataOf (Ecma.runtime 0) Sample.equalHouses) "Casa 12"
  = Some (houseEntry (Ecma.runtime 0) Sample.equalHouses 12).
Proof.
  apply (proj1 (proj2 (X18_housesData_by_number (Ecma.runtime 0) Sample.equalHouses))
               12%nat).
  lia.
Defined.

(** X19.  A cusp array that is too short does not stop the request: a house
    whose index is beyond the array gets an undefined sign, the degree NaN
    and an undefined longitude, and is printed as [en undefined a NaN°]. *)
Theorem X19_missing_cusp_is_printed_undefined (rt : Runtime) (houseCusps : list Q)
        (k : nat) :
  (length houseCusps <= k)%nat ->
  houseEntry rt houseCusps k = {| sign := None; degree := "NaN"; longitude := None |}
  /\ housesCuspsPromptOf [("Casa " ++ Text.dec (Z.of_nat k), houseEntry rt houseCusps k)]
     = "Casa " ++ Text.dec (Z.of_nat k) ++ " en undefined a NaN°".
Proof.
  intros Hk. unfold houseEntry.
  rewrite (proj2 (nth_error_None houseCusps k) Hk). split; reflexivity.
Qed.

Lemma X19_witness :
  houseEntry (Ecma.runtime 0) [0; 15; 45]%Q 3
  = {| sign := None; degree := "NaN"; longitude := None |}
  /\ housesCuspsPromptOf [("Casa 3", houseEntry (Ecma.runtime 0) [0; 15; 45]%Q 3)]
     = "Casa 3 en undefined a NaN°".
Proof.
  apply (X19_missing_cusp_is_printed_undefined (Ecma.runtime 0) [0; 15; 45]%Q 3).
  cbn. lia.
Defined.

(** X20.  The calculation block never fails and makes 22 calls.  In the data
    it hands to the prompt, the Sun sign and the Moon sign are the signs
    printed for Sol and Luna in the planet positions, the coordinates are the
    ones it was given, and the offset in hours is the offset that was added
    to the hour of the day number. *)
Theorem X20_prompt_data_is_consistent (w : Collaborators) (rt : Runtime) (b : Body)
        (la lo : Q) (t : Z) (zone : string) (off : Q) (log : list Call) :
  exists d calls,
    astrologicalCalculation w rt b la lo t zone off log = (Next d, (log ++ calls)%list)
    /\ length calls = 22%nat
    /\ (exists rest,
          Final.planetsPositions d
          = "Sol en " ++ show (Final.sunSign d) ++ " a " ++ rest)
    /\ (exists before rest,
          Final.planetsPositions d
          = before ++ ", Luna en " ++ show (Final.moonSign d) ++ " a " ++ rest)
    /\ Final.latitude d = la /\ Final.longitude d = lo
    /\ Final.timezoneId d = zone
    /\ In (Julday (getFullYear rt t) (getMonth rt t + 1) (getDate rt t)
                  (inject_Z (getHours rt t) + Final.rawOffsetHours d)%Q) calls.
Proof.
  exists (finalAstroDataOf w rt b la lo t zone off), (astroCalls w rt la lo t off).
  split; [apply astrologicalCalculation_run | ].
  split; [reflexivity | ].
  set (jd := julianDayOf w rt t off).
  set (cusps := house (swe_houses w jd la lo)).
  set (text := fun planet =>
                 degree (planetEntry rt (swe_calc_ut w jd planet)) ++ "° en Casa "
                   ++ Text.dec (houseNumber w cusps la (swe_calc_ut w jd planet))).
  set (others := Text.join ", "
                   (map (planetText w cusps la) (tl (tl (planetDataAt w rt jd))))).
  assert (Hpos : Final.planetsPositions (finalAstroDataOf w rt b la lo t zone off)
                 = ("Sol" ++ " en "
                      ++ show (Final.sunSign (finalAstroDataOf w rt b la lo t zone off))
                      ++ " a " ++ text SE_SUN)
                     ++ ", "
                     ++ ("Luna" ++ " en "
                           ++ show (Final.moonSign (finalAstroDataOf w rt b la lo t zone off))
                           ++ " a " ++ text SE_MOON)
                     ++ ", " ++ others) by reflexivity.
  split.
  { exists (text SE_SUN ++ ", "
              ++ ("Luna" ++ " en "
                    ++ show (Final.moonSign (finalAstroDataOf w rt b la lo t zone off))
                    ++ " a " ++ text SE_MOON)
              ++ ", " ++ others).
    rewrite Hpos, !append_assoc. reflexivity. }
  split.
  { exists ("Sol" ++ " en "
              ++ show (Final.sunSign (finalAstroDataOf w rt b la lo t zone off))
              ++ " a " ++ text SE_SUN),
      (text SE_MOON ++ ", " ++ others).
    rewrite Hpos, !append_assoc. reflexivity. }
  repeat split. left. reflexivity.
Qed.

(** ** Degrees, language and timestamp on every input *)

Lemma toFixed_n_small (x : Q) :
  (Qabs x < 30)%Q -> 0 <= Num.toFixed_n x 2 <= 3000.
Proof.
  intros Hx. unfold Num.toFixed_n. rewrite floor_between.
  change (inject_Z (Num.pow10 2)) with 100%Q.
  change (inject_Z 0) with 0%Q. change (inject_Z (3000 + 1)) with 3001%Q.
  pose proof (Qabs_nonneg x). split; lra.
Qed.

Lemma rem_30_abs (l : Q) : (Qabs (Num.rem l 30) < 30)%Q.
Proof.
  destruct (Qlt_le_dec l 0) as [Hneg | Hpos].
  - assert (Hl : (l <= 0)%Q) by lra. pose proof (rem_30_nonpos l Hl) as [H1 H2].
    rewrite (Qabs_neg _ H2). lra.
  - pose proof (rem_30_nonneg l Hpos) as [H1 H2].
    rewrite (Qabs_pos _ H1). lra.
Qed.

(** X21.  Whatever longitude the ephemeris returns for a body or a cusp,
    negative or beyond 360 included, the degree stored is a well-formed
    two-decimal text, never NaN, and the number it denotes lies between -30
    and 30. *)
Theorem X21_degree_is_always_a_number (rt : Runtime) (raw : Q) :
  exists v,
    Spec.fixedValue (degree (planetEntry rt raw)) = Some v
    /\ (- (30) <= v <= 30)%Q
    /\ (forall houseCusps k,
           nth_error houseCusps k = Some raw ->
           Spec.fixedValue (degree (houseEntry rt houseCusps k)) = Some v).
Proof.
  destruct (degree_value rt raw) as (v & Hv & Ev). exists v.
  split; [exact Hv | split].
  - rewrite Ev. unfold Num.toFixed_value. change (inject_Z (Num.pow10 2)) with 100%Q.
    pose proof (toFixed_n_small _ (rem_30_abs raw)) as [Hn0 Hn1].
    rewrite Zle_Qle in Hn0, Hn1.
    change (inject_Z 0) with 0%Q in Hn0. change (inject_Z 3000) with 3000%Q in Hn1.
    set (n := inject_Z (Num.toFixed_n (Num.rem raw 30) 2)) in *.
    assert (E : (n / 100 == n * (1 # 100))%Q) by field.
    destruct (Qle_bool 0 (Num.rem raw 30)); split; lra.
  - intros houseCusps k Hk.
    destruct (entry_of_cusp rt houseCusps k raw Hk) as (_ & -> & _). exact Hv.
Qed.

Lemma X21_witness :
  exists v,
    Spec.fixedValue (degree (houseEntry (Ecma.runtime 0) [0; - (725 # 2)]%Q 1)) = Some v
    /\ (- (30) <= v <= 30)%Q.
Proof.
  destruct (X21_degree_is_always_a_number (Ecma.runtime 0) (- (725 # 2))%Q)
    as (v & _ & Hbound & Hcusp).
  exists v. split; [apply (Hcusp [0; - (725 # 2)]%Q 1%nat); reflexivity | exact Hbound].
Defined.

Lemma same_suffix (a b s t : string) :
  a ++ s = b ++ t -> String.length s = String.length t -> s = t.
Proof.
  revert b. induction a as [ | c a IH]; intros b H Hlen.
  - destruct b as [ | c' b]; [exact H | ].
    exfalso. cbn [String.append] in H. rewrite H in Hlen.
    cbn [String.length] in Hlen. rewrite append_length in Hlen. lia.
  - destruct b as [ | c' b].
    + exfalso. cbn [String.append] in H. rewrite <- H in Hlen.
      cbn [String.length] in Hlen. rewrite append_length in Hlen. lia.
    + cbn [String.append] in H. injection H as _ H. exact (IH b H Hlen).
Qed.

(** X22.  A prompt asks for Spanish exactly when the language of the
    request is the string es; every other value, a string in another case or
    a value that is not a string included, asks for English. *)
Theorem X22_spanish_only_for_es (rt : Runtime) (d : Final.t) (language : JsVal)
        (prompt : string) :
  textPrompt rt d language = Some prompt ->
  ((exists head, prompt = head ++ Text.LF ++ Contract.respondIn "Spanish")
   <-> language = JStr "es")
  /\ ((exists head, prompt = head ++ Text.LF ++ Contract.respondIn "English")
      <-> language <> JStr "es").
Proof.
  intros Hprompt.
  destruct (textPrompt_ends rt d language prompt Hprompt) as [head Hend].
  rewrite promptLanguage_choice in Hend.
  assert (Hes : strict_eq_str language "es" = true <-> language = JStr "es").
  { destruct language; cbn [strict_eq_str]; try (split; intros E; discriminate E).
    rewrite String.eqb_eq. split; intros E; [rewrite E; reflexivity | ].
    injection E as E. exact E. }
  assert (Hdiff : forall h1 h2,
             h1 ++ Text.LF ++ Contract.respondIn "Spanish"
             <> h2 ++ Text.LF ++ Contract.respondIn "English").
  { intros h1 h2 E. apply same_suffix in E; [discriminate E | reflexivity]. }
  destruct (strict_eq_str language "es") eqn:Hb.
  - assert (Hl : language = JStr "es") by (apply Hes; reflexivity).
    split; split.
    + intros _. exact Hl.
    + intros _. eauto.
    + intros (h & E) _. rewrite Hend in E. destruct (Hdiff _ _ E).
    + intros Hne. contradiction.
  - assert (Hl : language <> JStr "es").
    { intros E. apply Hes in E. discriminate E. }
    split; split.
    + intros (h & E). rewrite Hend in E. symmetry in E. destruct (Hdiff _ _ E).
    + intros E. contradiction.
    + intros _. exact Hl.
    + intros _. eauto.
Qed.

Lemma X22_witness :
  exists prompt,
    textPrompt (Ecma.runtime 0)
      (chartData Faults.base (Ecma.runtime 0) Faults.paris1990 Sample.paris 638022600000
         Faults.parisZone)
      (JStr "ES") = Some prompt
    /\ exists head, prompt = head ++ Text.LF ++ Contract.respondIn "English".
Proof.
  destruct (textPrompt (Ecma.runtime 0)
              (chartData Faults.base (Ecma.runtime 0) Faults.paris1990 Sample.paris
                 638022600000 Faults.parisZone)
              (JStr "ES")) as [prompt | ] eqn:Hprompt; [ | discriminate Hprompt].
  exists prompt. split; [reflexivity | ].
  apply (proj2 (proj2 (X22_spanish_only_for_es _ _ _ _ Hprompt))).
  discriminate.
Defined.

(** X23.  The timestamp of the time-zone lookup is the last whole second at
    or before the instant of the date, also for dates before 1970, whose time
    values are negative: the division by 1000 is rounded down, not towards
    zero. *)
Theorem X23_timestamp_is_rounded_down (w : Collaborators) (rt : Runtime) (cfg : Config)
        (req : Request) (la lo : Q) (ts : Z) :
  In (TimeZone la lo ts) (snd (generateAstralChart w rt cfg req)) ->
  exists text t,
    localDateTimeString rt (body req) = Some text
    /\ Date_new rt text = Some t
    /\ 1000 * ts <= t < 1000 * ts + 1000.
Proof.
  intros Hin. apply calls_of_chart in Hin.
  destruct Hin as [(place & _ & H) | [(place & p & t & Hloc & H)
                   | [(place & p & t & data & Hres & H)
                     | (place & p & t & data & prompt & _ & H)]]];
    try discriminate H.
  - injection H as -> -> ->. destruct Hloc as (_ & text & Htext & Hdate).
    exists text, t. split; [exact Htext | split; [exact Hdate | ]].
    rewrite timestampOf_div.
    pose proof (Z.mul_div_le t 1000). pose proof (Z.mul_succ_div_gt t 1000). lia.
  - destruct (astroCalls_no_TimeZone _ _ _ _ _ _ _ _ _ H).
Qed.

Lemma X23_witness :
  exists text t,
    localDateTimeString (Ecma.runtime 0)
      (body (Sample.request "1969-12-31" "23:59" "Paris, France" (JStr "es"))) = Some text
    /\ Date_new (Ecma.runtime 0) text = Some t
    /\ 1000 * (-60) <= t < 1000 * (-60) + 1000.
Proof.
  apply (X23_timestamp_is_rounded_down Faults.base (Ecma.runtime 0) Sample.config
           (Sample.request "1969-12-31" "23:59" "Paris, France" (JStr "es")) 48%Q 2%Q (-60)).
  right. left. reflexivity.
Defined.
